(** * Fyers LTP / ATM-option margin calculator: shallow embedding

    The development follows [main_v2.py] (the "optimized" pipeline) and
    [main.py] (the original one).  Prices, margins and strike intervals
    are Python floats in the source; they are modelled by exact rationals
    [Q], so every statement below is about the arithmetic the code writes
    down, not about binary rounding.  Strikes and lot sizes are Python
    ints, modelled by [Z].  Dictionaries keyed by symbol names are
    [gmap string _].  The clock, the quote service, the CSV reader and the
    [float]/[int] text parsers are external collaborators and appear as
    explicit arguments.  The loader of the strike intervals is also given
    with every float that [float()] reads (module [Gaps]): a step value
    that reads as nan changes what its comparison does. *)

From Stdlib Require Import ZArith QArith Qround Qabs Lia Lqa String Ascii List Bool.
From stdpp Require Import base option list strings gmap.

Import ListNotations.
Local Open Scope string_scope.
Local Open Scope Z_scope.

(** ** Python primitives used by the source *)

Module Py.

(** [str.upper()] on the ASCII range; other bytes are left unchanged. *)
Definition upper_ascii (c : ascii) : ascii :=
  let n := nat_of_ascii c in
  if (Nat.leb 97 n && Nat.leb n 122)%bool then ascii_of_nat (n - 32) else c.

Fixpoint upper (s : string) : string :=
  match s with
  | EmptyString => EmptyString
  | String c s' => String (upper_ascii c) (upper s')
  end.

(** [int(x)] on a float: truncation towards zero. *)
Definition int_of (q : Q) : Z := Z.quot (Qnum q) (Z.pos (Qden q)).

(** Truthiness of a number: [not x] holds exactly for zero. *)
Definition truthy (q : Q) : bool := negb (Qeq_bool q 0).

(** Strict comparison [x < y] as a boolean. *)
Definition ltb (x y : Q) : bool := negb (Qle_bool y x).

(** [math.fmod(x, y)]: remainder with the sign of the dividend. *)
Definition fmod (x y : Q) : Q := x - y * inject_Z (int_of (x / y)).

(** [abs(x)] *)
Definition abs (x : Q) : Q := Qabs x.

(** Decimal rendering of a natural number, as [str(n)] does. *)
Definition digit (n : nat) : ascii := ascii_of_nat (48 + n).

Fixpoint digits_fuel (fuel : nat) (n : nat) (acc : string) : string :=
  match fuel with
  | O => acc
  | S fuel' =>
      let acc' := String (digit (n mod 10)) acc in
      match (n / 10)%nat with
      | O => acc'
      | m => digits_fuel fuel' m acc'
      end
  end.

Definition str_nat (n : nat) : string := digits_fuel (S n) n "".

(** [str(z)] / [f"{z}"] for an int. *)
Definition str_int (z : Z) : string :=
  if z <? 0 then ("-" ++ str_nat (Z.abs_nat z))%string
  else str_nat (Z.abs_nat z).

(** [f"{d:02d}"] for a non-negative int. *)
Definition pad2 (z : Z) : string :=
  if (0 <=? z) && (z <? 10) then ("0" ++ str_int z)%string else str_int z.

(** [repr(s)] of a text, as the messages of the interpreter show it:
    single quotes unless the text has a single quote and no double quote;
    the backslash, the chosen quote and the control bytes are escaped.
    Bytes above 127 are kept: text that is not ASCII is taken to be
    printable. *)
Definition quote1 : ascii := ascii_of_nat 39.
Definition quote2 : ascii := ascii_of_nat 34.
Definition backslash : ascii := ascii_of_nat 92.

Fixpoint has_char (c : ascii) (s : string) : bool :=
  match s with
  | EmptyString => false
  | String c' s' => Ascii.eqb c c' || has_char c s'
  end.

Definition hex_digit (n : nat) : ascii :=
  if (n <? 10)%nat then ascii_of_nat (48 + n) else ascii_of_nat (87 + n).

Definition repr_char (quote c : ascii) : string :=
  let n := nat_of_ascii c in
  if Ascii.eqb c quote || Ascii.eqb c backslash
  then String backslash (String c "")
  else if (n =? 9)%nat then String backslash "t"
  else if (n =? 10)%nat then String backslash "n"
  else if (n =? 13)%nat then String backslash "r"
  else if ((n <? 32) || (n =? 127))%nat
  then String backslash
         (String "x" (String (hex_digit (n / 16)) (String (hex_digit (n mod 16)) "")))
  else String c "".

Fixpoint repr_chars (quote : ascii) (s : string) : string :=
  match s with
  | EmptyString => EmptyString
  | String c s' => (repr_char quote c ++ repr_chars quote s')%string
  end.

Definition repr (s : string) : string :=
  let quote := if has_char quote1 s && negb (has_char quote2 s)
               then quote2 else quote1 in
  String quote (repr_chars quote s ++ String quote "")%string.

End Py.

(** ** Calendar dates

    [datetime.now()] is an argument of the model.  Only its calendar date
    is used by the source ([strftime] with %y and %b, [.month], [.day],
    [.date()]); a month is one of twelve values, as [datetime] guarantees. *)

Module Date.

Inductive month :=
  | Jan | Feb | Mar | Apr | May | Jun | Jul | Aug | Sep | Oct | Nov | Dec.

Record date := mkDate { year : Z; mon : month; day : Z }.

Definition month_num (m : month) : Z :=
  match m with
  | Jan => 1 | Feb => 2 | Mar => 3 | Apr => 4 | May => 5 | Jun => 6
  | Jul => 7 | Aug => 8 | Sep => 9 | Oct => 10 | Nov => 11 | Dec => 12
  end.

Definition next_month (m : month) : month :=
  match m with
  | Jan => Feb | Feb => Mar | Mar => Apr | Apr => May | May => Jun
  | Jun => Jul | Jul => Aug | Aug => Sep | Sep => Oct | Oct => Nov
  | Nov => Dec | Dec => Jan
  end.

Definition month_eqb (a b : month) : bool := month_num a =? month_num b.

Definition eqb (a b : date) : bool :=
  (year a =? year b) && month_eqb (mon a) (mon b) && (day a =? day b).

Definition is_leap (y : Z) : bool :=
  (y mod 4 =? 0) && (negb (y mod 100 =? 0) || (y mod 400 =? 0)).

Definition days_in_month (y : Z) (m : month) : Z :=
  match m with
  | Feb => if is_leap y then 29 else 28
  | Apr | Jun | Sep | Nov => 30
  | _ => 31
  end.

Definition days_before_year (y : Z) : Z :=
  (y - 1) * 365 + (y - 1) / 4 - (y - 1) / 100 + (y - 1) / 400.

Definition days_before_month (y : Z) (m : month) : Z :=
  let f := if is_leap y then 1 else 0 in
  match m with
  | Jan => 0 | Feb => 31 | Mar => 59 + f | Apr => 90 + f | May => 120 + f
  | Jun => 151 + f | Jul => 181 + f | Aug => 212 + f | Sep => 243 + f
  | Oct => 273 + f | Nov => 304 + f | Dec => 334 + f
  end.

(** [date.toordinal()]: 0001-01-01 is day 1. *)
Definition toordinal (d : date) : Z :=
  days_before_year (year d) + days_before_month (year d) (mon d) + day d.

(** [date.weekday()]: Monday is 0, Thursday is 3. *)
Definition weekday (d : date) : Z := (toordinal d + 6) mod 7.

Definition TH : Z := 3.

(** A well-formed calendar date. *)
Definition valid (d : date) : Prop :=
  1 <= year d /\ 1 <= day d <= days_in_month (year d) (mon d).

(** [d + timedelta(days=1)] *)
Definition next_day (d : date) : date :=
  if day d <? days_in_month (year d) (mon d)
  then mkDate (year d) (mon d) (day d + 1)
  else match mon d with
       | Dec => mkDate (year d + 1) Jan 1
       | m => mkDate (year d) (next_month m) 1
       end.

(** [d + timedelta(days=n)] for a small non-negative [n]. *)
Definition add_days (n : nat) (d : date) : date := Nat.iter n next_day d.

(** [now + relativedelta(weekday=TH(1))]: the first Thursday on or after
    [now]; dateutil adds [(7 - now.weekday() + 3) % 7] days. *)
Definition next_thursday (now : date) : date :=
  add_days (Z.to_nat ((7 - weekday now + TH) mod 7)) now.

(** [now + relativedelta(day=31, weekday=TH(-1))]: the day is first
    clipped to the end of the month, then dateutil goes back
    [(weekday - 3) % 7] days. *)
Definition last_thursday (now : date) : date :=
  let eom := mkDate (year now) (mon now) (days_in_month (year now) (mon now)) in
  mkDate (year now) (mon now) (day eom - (weekday eom - TH) mod 7).

(** [strftime("%y")] *)
Definition yy (now : date) : string := Py.pad2 (year now mod 100).

(** [strftime("%b").upper()] in the C locale. *)
Definition month_abbr_upper (m : month) : string :=
  match m with
  | Jan => "JAN" | Feb => "FEB" | Mar => "MAR" | Apr => "APR"
  | May => "MAY" | Jun => "JUN" | Jul => "JUL" | Aug => "AUG"
  | Sep => "SEP" | Oct => "OCT" | Nov => "NOV" | Dec => "DEC"
  end.

End Date.

(** ** Expiry codes (shared shapes) *)

(** The dictionary [fyers_month_code] of both sources. *)
Definition fyers_month_code (m : Date.month) : string :=
  match m with
  | Date.Jan => "1" | Date.Feb => "2" | Date.Mar => "3" | Date.Apr => "4"
  | Date.May => "5" | Date.Jun => "6" | Date.Jul => "7" | Date.Aug => "8"
  | Date.Sep => "9" | Date.Oct => "O" | Date.Nov => "N" | Date.Dec => "D"
  end.

(** [now.strftime(f"{yy}%b").upper()] *)
Definition monthly_code (now : Date.date) : string :=
  (Date.yy now ++ Date.month_abbr_upper (Date.mon now))%string.

(** [f"{yy}{fyers_month_code[m]}{d:02d}"] *)
Definition weekly_code (now : Date.date) (m : Date.month) (d : Z) : string :=
  (Date.yy now ++ fyers_month_code m ++ Py.pad2 d)%string.

(** [x in [...]] on strings. *)
Definition str_in (x : string) (l : list string) : bool :=
  existsb (String.eqb x) l.

(** ** Effects of the optimized script

    Printing, exceptions and the state of the [FyersAPI] object.  A
    computation starts in a world and ends in a world with either a value
    or a raised exception; what was printed before a [raise] stays
    printed. *)

Module Eff.

(** An exception: its class and the text that [str(e)] gives.  For a
    [KeyError] that text is the [repr] of the key.  The exceptions that
    the interpreter raises carry the message of CPython 3.12. *)
Inductive exn :=
  | KeyError (key_repr : string)
  | IndexError (msg : string)
  | TypeError (msg : string)
  | AttributeError (msg : string)
  | ValueError (msg : string)
  | RequestError (msg : string)
  | OSError (msg : string).

(** [str(e)] *)
Definition exn_message (e : exn) : string :=
  match e with
  | KeyError key_repr => key_repr
  | IndexError msg => msg
  | TypeError msg => msg
  | AttributeError msg => msg
  | ValueError msg => msg
  | RequestError msg => msg
  | OSError msg => msg
  end.

(** The exceptions of the interpreter that the scripts can meet. *)
Definition key_error (k : string) : exn := KeyError (Py.repr k).

Definition no_attribute (type_name attribute : string) : exn :=
  AttributeError ("'" ++ type_name ++ "' object has no attribute '"
                  ++ attribute ++ "'").

Definition not_subscriptable (type_name : string) : exn :=
  TypeError ("'" ++ type_name ++ "' object is not subscriptable").

Definition float_argument (type_name : string) : exn :=
  TypeError ("float() argument must be a string or a real number, not '"
             ++ type_name ++ "'").

Definition float_text (s : string) : exn :=
  ValueError ("could not convert string to float: " ++ Py.repr s).

Definition int_text (s : string) : exn :=
  ValueError ("invalid literal for int() with base 10: " ++ Py.repr s).

Record world := mkWorld {
  out : list string;             (* the texts handed to [print] so far,
                                    oldest first; the [end] of a call is
                                    not recorded *)
  access_token : option string;  (* [self.access_token] *)
  fyers : option string;         (* [self.fyers]: the token it was built with *)
  authenticated : bool;          (* [self._authenticated] *)
  requests : nat                 (* exchanges with the vendor so far *)
}.

Inductive outcome (A : Type) :=
  | Ret (a : A)
  | Raise (e : exn).
Arguments Ret {A} a.
Arguments Raise {A} e.

Definition M (A : Type) : Type := world -> outcome A * world.

Definition ret {A} (a : A) : M A := fun w => (Ret a, w).

Definition bind {A B} (m : M A) (k : A -> M B) : M B :=
  fun w => match m w with
           | (Ret a, w') => k a w'
           | (Raise e, w') => (Raise e, w')
           end.

Definition raise {A} (e : exn) : M A := fun w => (Raise e, w).

(** [try: body / except Exception as e: handler e] *)
Definition try_except {A} (body : M A) (handler : exn -> M A) : M A :=
  fun w => match body w with
           | (Ret a, w') => (Ret a, w')
           | (Raise e, w') => handler e w'
           end.

(** A fallible pure step. *)
Definition lift {A} (r : exn + A) : M A :=
  match r with
  | inl e => raise e
  | inr a => ret a
  end.

(** [w] after one more call of [print]. *)
Definition logged (line : string) (w : world) : world :=
  mkWorld (out w ++ [line]) (access_token w) (fyers w) (authenticated w)
          (requests w).

(** [w] after one more exchange with the vendor. *)
Definition served (w : world) : world :=
  mkWorld (out w) (access_token w) (fyers w) (authenticated w)
          (S (requests w)).

Definition print (line : string) : M unit := fun w => (Ret tt, logged line w).

Definition get_world : M world := fun w => (Ret w, w).

Definition set_access_token (t : option string) : M unit :=
  fun w => (Ret tt, mkWorld (out w) t (fyers w) (authenticated w) (requests w)).

Definition set_model (t : string) : M unit :=
  fun w => (Ret tt, mkWorld (out w) (access_token w) (Some t) true (requests w)).

(** One exchange with the vendor: the answer depends on how many
    exchanges came before. *)
Definition exchange {A} (server : nat -> exn + A) : M A :=
  fun w =>
    match server (requests w) with
    | inl e => (Raise e, served w)
    | inr a => (Ret a, served w)
    end.

End Eff.

Declare Scope eff_scope.
Delimit Scope eff_scope with eff.
Notation "x <- m ;; k" := (Eff.bind m (fun x => k))
  (at level 100, m at next level, right associativity) : eff_scope.
Notation "m ;;; k" := (Eff.bind m (fun _ => k))
  (at level 100, right associativity) : eff_scope.

(** Sequencing of fallible pure steps. *)
Definition and_then {A B} (r : Eff.exn + A) (k : A -> Eff.exn + B)
    : Eff.exn + B :=
  match r with
  | inl e => inl e
  | inr a => k a
  end.

Declare Scope exn_scope.
Delimit Scope exn_scope with exn.
Notation "x <- m ;; k" := (and_then m (fun x => k))
  (at level 100, m at next level, right associativity) : exn_scope.

(** ** Responses of the vendor SDK: JSON values as Python objects *)

Module Json.

#[warnings="-register-all"]
Inductive t :=
  | Null
  | Bool (b : bool)
  | Num (q : Q)
  | Str (s : string)
  | Arr (l : list t)
  | Obj (kv : list (string * t)).

Fixpoint assoc (kv : list (string * t)) (k : string) : option t :=
  match kv with
  | [] => None
  | (k', v) :: kv' => if String.eqb k k' then Some v else assoc kv' k
  end.

(** Python truthiness. *)
Definition truthy (v : t) : bool :=
  match v with
  | Null => false
  | Bool b => b
  | Num q => Py.truthy q
  | Str s => negb (String.eqb s "")
  | Arr l => match l with [] => false | _ => true end
  | Obj kv => match kv with [] => false | _ => true end
  end.

(** [type(v).__name__]; a number is an [int] when it is whole. *)
Definition type_name (v : t) : string :=
  match v with
  | Null => "NoneType"
  | Bool _ => "bool"
  | Num q => if Z.pos (Qden (Qred q)) =? 1 then "int" else "float"
  | Str _ => "str"
  | Arr _ => "list"
  | Obj _ => "dict"
  end.

(** [v.get(k, d)] *)
Definition get (v : t) (k : string) (d : t) : Eff.exn + t :=
  match v with
  | Obj kv => inr (default d (assoc kv k))
  | _ => inl (Eff.no_attribute (type_name v) "get")
  end.

(** [v[k]] for a string key. *)
Definition item (v : t) (k : string) : Eff.exn + t :=
  match v with
  | Obj kv => match assoc kv k with
              | Some x => inr x
              | None => inl (Eff.key_error k)
              end
  | Arr _ =>
      inl (Eff.TypeError "list indices must be integers or slices, not str")
  | Str _ => inl (Eff.TypeError "string indices must be integers, not 'str'")
  | _ => inl (Eff.not_subscriptable (type_name v))
  end.

(** [v[0]] *)
Definition first (v : t) : Eff.exn + t :=
  match v with
  | Arr (x :: _) => inr x
  | Arr [] => inl (Eff.IndexError "list index out of range")
  | Str (String c _) => inr (Str (String c EmptyString))
  | Str EmptyString => inl (Eff.IndexError "string index out of range")
  | Obj _ => inl (Eff.KeyError "0")
  | _ => inl (Eff.not_subscriptable (type_name v))
  end.

(** [v == 'ok'] *)
Definition is_str (v : t) (s : string) : bool :=
  match v with
  | Str s' => String.eqb s' s
  | _ => false
  end.

(** [float(v)], given the parser of [float] on text. *)
Definition to_float (parse_float : string -> option Q) (v : t) : Eff.exn + Q :=
  match v with
  | Num q => inr q
  | Bool b => inr (if b then 1%Q else 0%Q)
  | Str s => match parse_float s with
             | Some q => inr q
             | None => inl (Eff.float_text s)
             end
  | _ => inl (Eff.float_argument (type_name v))
  end.

End Json.

(** ** [main_v2.py]: class [Utils] *)

Module V2.

(** [Utils.get_default_intervals] *)
Definition get_default_intervals : gmap string Q :=
  <["NIFTY" := 50%Q]>
  (<["BANKNIFTY" := 100%Q]>
  (<["FINNIFTY" := 50%Q]>
  (<["MIDCPNIFTY" := 25%Q]>
  (<["NIFTY NEXT 50" := 100%Q]>
  (<["SENSEX" := 100%Q]> ∅))))).

(** The price-based fallback of [Utils.calculate_atm_strike]. *)
Definition price_interval (ltp : Q) : Q :=
  if Py.ltb ltp 500 then 5
  else if Py.ltb ltp 1000 then 10
  else if Py.ltb ltp 2000 then 20
  else if Py.ltb ltp 5000 then 50
  else 100.

(** The interval chosen by [Utils.calculate_atm_strike]:
    [intervals.get(symbol.upper())], replaced by the price-based value
    when it is missing or falsy. *)
Definition strike_interval (ltp : Q) (symbol : string)
    (intervals : gmap string Q) : Q :=
  match intervals !! Py.upper symbol with
  | Some i => if Py.truthy i then i else price_interval ltp
  | None => price_interval ltp
  end.

(** [Utils.calculate_atm_strike], in exact arithmetic.  With an
    interval that is not a binary fraction (0.7, say) the float product
    of the source can round to a value just below the exact one, and
    [int()] then gives the strike below. *)
Definition calculate_atm_strike (ltp : Q) (symbol : string)
    (intervals : gmap string Q) : Z :=
  let interval := strike_interval ltp symbol intervals in
  let atm_strike := (inject_Z (Qceiling (ltp / interval)) * interval)%Q in
  Py.int_of atm_strike.

(** [Utils.get_expiry_code], with [datetime.now()] as an argument. *)
Definition get_expiry_code (now : Date.date) (symbol : string) : string :=
  if str_in (Py.upper symbol) ["NIFTY"; "BANKNIFTY"; "FINNIFTY"; "MIDCPNIFTY"]
  then
    let next_thursday := Date.next_thursday now in
    let last_thursday := Date.last_thursday now in
    if Date.eqb next_thursday last_thursday then monthly_code now
    else if String.eqb (Py.upper symbol) "NIFTY"
         then weekly_code now (Date.mon next_thursday) (Date.day next_thursday)
         else monthly_code now
  else monthly_code now.

(** [dict.get(key, default)] on a literal table. *)
Fixpoint table_get (tbl : list (string * string)) (k d : string) : string :=
  match tbl with
  | [] => d
  | (k', v) :: tbl' => if String.eqb k k' then v else table_get tbl' k d
  end.

Definition index_mapping : list (string * string) :=
  [ ("NIFTY", "NSE:NIFTY50-INDEX");
    ("BANKNIFTY", "NSE:NIFTYBANK-INDEX");
    ("FINNIFTY", "NSE:FINNIFTY-INDEX");
    ("MIDCPNIFTY", "NSE:MIDCPNIFTY-INDEX");
    ("NIFTY NEXT 50", "NSE:NIFTYNXT50-INDEX");
    ("SENSEX", "BSE:SENSEX-INDEX") ].

(** [Utils.convert_symbol_to_fyers_format] *)
Definition convert_symbol_to_fyers_format (symbol : string) : string :=
  table_get index_mapping (Py.upper symbol)
    ("NSE:" ++ Py.upper symbol ++ "-EQ")%string.

Definition option_mapping : list (string * string) :=
  [ ("NIFTY", "NIFTY");
    ("BANKNIFTY", "BANKNIFTY");
    ("FINNIFTY", "FINNIFTY");
    ("MIDCPNIFTY", "MIDCPNIFTY");
    ("NIFTY NEXT 50", "NIFTYNXT50") ].

(** [Utils.create_option_symbol] *)
Definition create_option_symbol (now : Date.date) (base_symbol : string)
    (strike : Z) (option_type : string) : string :=
  let expiry_code := get_expiry_code now base_symbol in
  let option_base :=
    table_get option_mapping (Py.upper base_symbol) (Py.upper base_symbol) in
  ("NSE:" ++ option_base ++ expiry_code ++ Py.str_int strike ++ option_type)%string.

(** [FyersAPI.calculate_margin] *)
Definition calculate_margin (ltp : Q) (lot_size : Z) : Q :=
  (ltp * inject_Z lot_size)%Q.

End V2.

(** The dictionary returned by [process_symbol].  The original script
    names two of the keys [ce_contract] and [pe_contract]; the values are
    the same. *)
Record result := mkResult {
  symbol : string;
  ltp : Q;
  atm_strike : Z;
  ce_symbol : string;
  ce_ltp : Q;
  ce_margin : Q;
  pe_symbol : string;
  pe_ltp : Q;
  pe_margin : Q;
  lot_size : Z
}.

(** [0 < m <= margin_filter] *)
Definition within_limit (margin_filter m : Q) : bool :=
  Py.ltb 0 m && Qle_bool m margin_filter.

(** ** [main.py] *)

Module V1.

(** [get_expiry_code] of the original script. *)
Definition get_expiry_code (now : Date.date) (index : string) : string :=
  if str_in index ["BANKNIFTY"; "STOCK"] || String.eqb index "NIFTY"
  then
    let next_thursday := Date.next_thursday now in
    let last_thursday := Date.last_thursday now in
    if Date.eqb next_thursday last_thursday then monthly_code now
    else weekly_code now (Date.mon now) (Date.day next_thursday)
  else monthly_code now.

(** [calculate_atm_strike] of the original script, given the dictionary
    that [load_strike_intervals_from_file] returned.  [None] stands for
    the [ZeroDivisionError] of a zero interval. *)
Definition calculate_atm_strike (ltp : Q) (symbol : string)
    (strike_intervals : gmap string Q) : option Z :=
  let interval := default 50%Q (strike_intervals !! symbol) in
  if String.eqb symbol "NIFTY" then
    let val2 := Py.fmod ltp 50 in
    let val3 := if Qle_bool 25 val2 then 50%Q else 0%Q in
    Some (Py.int_of (ltp - val2 + val3)%Q)
  else if String.eqb symbol "BANKNIFTY" then
    let val2 := Py.fmod ltp 100 in
    let val3 := if Qle_bool 50 val2 then 100%Q else 0%Q in
    Some (Py.int_of (ltp - val2 + val3)%Q)
  else if Py.truthy interval then
    let val1 := (inject_Z (Qfloor (ltp / interval)) * interval)%Q in
    let val2 := (inject_Z (Qceiling (ltp / interval)) * interval)%Q in
    Some (Py.int_of (if Py.ltb (Py.abs (ltp - val1)) (Py.abs (ltp - val2))
                     then val1 else val2))
  else None.

(** [LTPMarginCalculator.filter_by_margin] of the original script. *)
Fixpoint filter_by_margin (margin_filter : Q) (results : list result)
    : list result :=
  match results with
  | [] => []
  | r :: rest =>
      if (Py.ltb 0 (ce_margin r) && Qle_bool (ce_margin r) margin_filter)
         || (Py.ltb 0 (pe_margin r) && Qle_bool (pe_margin r) margin_filter)
      then r :: filter_by_margin margin_filter rest
      else filter_by_margin margin_filter rest
  end.

End V1.

(** ** [main_v2.py]: classes [FyersAPI] and [LTPMarginCalculator] *)

Module App.

Import Eff.
Local Open Scope eff_scope.

(** [LTPMarginCalculator.filter_by_margin] of [main_v2.py]: the loop
    appends the results that pass the test, in order. *)
Fixpoint filter_by_margin (margin_filter : Q) (results : list result)
    : list result :=
  match results with
  | [] => []
  | r :: rest =>
      let ce_within_limit := within_limit margin_filter (ce_margin r) in
      let pe_within_limit := within_limit margin_filter (pe_margin r) in
      if ce_within_limit || pe_within_limit
      then r :: filter_by_margin margin_filter rest
      else filter_by_margin margin_filter rest
  end.

(** [s.strip()].  A text is its UTF-8 bytes; the white space of
    [str.strip()] is made of the code points 9-13, 28-32, U+0085, U+00A0,
    U+1680, U+2000-U+200A, U+2028, U+2029, U+202F, U+205F and U+3000.
    [space_width s] is the number of bytes of the white-space character
    that [s] starts with, and 0 when it starts with none. *)
Definition byte (s : string) (i : nat) : nat :=
  match String.get i s with
  | Some c => nat_of_ascii c
  | None => 256%nat
  end.

Definition space_width (s : string) : nat :=
  let b0 := byte s 0 in
  let b1 := byte s 1 in
  let b2 := byte s 2 in
  (if (b0 =? 32) || ((9 <=? b0) && (b0 <=? 13)) || ((28 <=? b0) && (b0 <=? 31))
   then 1
   else if (b0 =? 194) && ((b1 =? 133) || (b1 =? 160)) then 2
   else if (b0 =? 225) && (b1 =? 154) && (b2 =? 128) then 3
   else if (b0 =? 226) && (b1 =? 128)
           && (((128 <=? b2) && (b2 <=? 138)) || (b2 =? 168) || (b2 =? 169)
               || (b2 =? 175))
   then 3
   else if (b0 =? 226) && (b1 =? 129) && (b2 =? 159) then 3
   else if (b0 =? 227) && (b1 =? 128) && (b2 =? 128) then 3
   else 0)%nat.

Fixpoint drop_bytes (n : nat) (s : string) : string :=
  match n, s with
  | S n', String _ s' => drop_bytes n' s'
  | _, _ => s
  end.

Fixpoint lstrip_fuel (fuel : nat) (s : string) : string :=
  match fuel with
  | O => s
  | S fuel' =>
      match space_width s with
      | O => s
      | n => lstrip_fuel fuel' (drop_bytes n s)
      end
  end.

Definition lstrip (s : string) : string := lstrip_fuel (String.length s) s.

Fixpoint all_space_fuel (fuel : nat) (s : string) : bool :=
  match s, fuel with
  | EmptyString, _ => true
  | _, O => false
  | _, S fuel' =>
      match space_width s with
      | O => false
      | n => all_space_fuel fuel' (drop_bytes n s)
      end
  end.

Definition all_space (s : string) : bool :=
  all_space_fuel (String.length s) s.

Fixpoint rstrip (s : string) : string :=
  match s with
  | EmptyString => EmptyString
  | String c s' => if all_space s then EmptyString else String c (rstrip s')
  end.

Definition strip (s : string) : string := rstrip (lstrip s).

(** A row produced by [csv.DictReader]: a field is missing, [None] (short
    row), or a text. *)
Definition row : Type := gmap string (option string).

(** [row[k]] as the receiver of [.strip()]. *)
Definition field (r : row) (k : string) : exn + string :=
  match r !! k with
  | None => inl (key_error k)
  | Some None => inl (no_attribute "NoneType" "strip")
  | Some (Some s) => inr s
  end.

(** [row[k]] as the argument of [float()]. *)
Definition float_argument_field (r : row) (k : string) : exn + string :=
  match r !! k with
  | None => inl (key_error k)
  | Some None => inl (float_argument "NoneType")
  | Some (Some s) => inr s
  end.

Section Collaborators.

(** The text parsers of [float] and [int]. *)
Variable parse_float : string -> option Q.
Variable parse_int : string -> option Z.

(** [csv.DictReader] over the remaining lines of an open file. *)
Variable dict_reader : list string -> list row.

(** The file system: no file, a file that cannot be read, or its lines. *)
Variable read_file : string -> option (exn + list string).

(** The login choreography and the quote endpoint of the vendor. *)
Variable auth_server : nat -> exn + string.
Variable quote_server : string -> nat -> exn + Json.t.

(** [datetime.now()] during the run. *)
Variable now : Date.date.

Definition to_float (s : string) : exn + Q :=
  match parse_float s with
  | Some q => inr q
  | None => inl (float_text s)
  end.

Definition to_int (s : string) : exn + Z :=
  match parse_int s with
  | Some z => inr z
  | None => inl (int_text s)
  end.

(** *** [Utils.load_strike_intervals_from_file] *)

(** One turn of the loop over the rows. *)
Definition load_row (r : row) (strike_intervals : gmap string Q)
    : exn + gmap string Q :=
  match field r "Symbol" with
  | inl e => inl e
  | inr s =>
      let symbol := strip s in
      match float_argument_field r "Gap" with
      | inl e => inl e
      | inr g =>
          match to_float g with
          | inl e => inl e
          | inr step_value =>
              match strike_intervals !! symbol with
              | None => inr (<[symbol := step_value]> strike_intervals)
              | Some old =>
                  if Py.ltb step_value old
                  then inr (<[symbol := step_value]> strike_intervals)
                  else inr strike_intervals
              end
          end
      end
  end.

Fixpoint load_rows (rows : list row) (strike_intervals : gmap string Q)
    : exn + gmap string Q :=
  match rows with
  | [] => inr strike_intervals
  | r :: rest =>
      match load_row r strike_intervals with
      | inl e => inl e
      | inr m => load_rows rest m
      end
  end.

(** The lines left for [csv.DictReader] after the peek at the first
    line: a first line that does not start with [Symbol] is consumed. *)
Definition reader_lines (lines : list string) : list string :=
  match lines with
  | [] => []
  | first_line :: rest =>
      if String.prefix "Symbol" (strip first_line) then lines else rest
  end.

Definition load_strike_intervals_from_file (filename : string)
    : M (gmap string Q) :=
  match read_file filename with
  | None =>
      print ("⚠️  Strike intervals file not found: " ++ filename) ;;;
      print "Using default intervals..." ;;;
      ret V2.get_default_intervals
  | Some content =>
      try_except
        (lines <- lift content ;;
         strike_intervals <- lift (load_rows (dict_reader (reader_lines lines)) ∅) ;;
         print ("✅ Loaded " ++ Py.str_nat (size strike_intervals)
                ++ " strike intervals from " ++ filename) ;;;
         ret strike_intervals)
        (fun e =>
           print ("❌ Error loading strike intervals: " ++ exn_message e) ;;;
           ret V2.get_default_intervals)
  end.

(** *** [FyersAPI] *)

Definition token_truthy (t : option string) : bool :=
  match t with
  | Some s => negb (String.eqb s "")
  | None => false
  end.

(** [FyersAPI.generate_access_token]: the five HTTP steps are one
    exchange with [auth_server]. *)
Definition generate_access_token : M (option string) :=
  try_except
    (print "🔐 Authenticating with Fyers API..." ;;;
     token <- exchange auth_server ;;
     set_access_token (Some token) ;;;
     print "✅ Fyers authentication successful" ;;;
     ret (Some token))
    (fun e =>
       print ("❌ Authentication failed: " ++ exn_message e) ;;;
       ret None).

(** [FyersAPI.initialize_fyers_model] *)
Definition initialize_fyers_model : M bool :=
  w <- get_world ;;
  if authenticated w then ret true
  else
    (if token_truthy (access_token w) then ret tt
     else (t <- generate_access_token ;; set_access_token t)) ;;;
    w' <- get_world ;;
    match access_token w' with
    | Some t =>
        if token_truthy (Some t) then (set_model t ;;; ret true) else ret false
    | None => ret false
    end.

(** The reading of a quote response in [FyersAPI.get_ltp]:
    [response.get('s') == 'ok' and response.get('d')], then
    [response['d'][0]['v'].get('lp', 0)] and [float(ltp) if ltp else 0.0]. *)
Definition quote_ltp (response : Json.t) : exn + Q :=
  (s <- Json.get response "s" Json.Null ;;
  d <- (if Json.is_str s "ok" then Json.get response "d" Json.Null
        else inr Json.Null) ;;
  if Json.is_str s "ok" && Json.truthy d then
    d' <- Json.item response "d" ;;
    q <- Json.first d' ;;
    v <- Json.item q "v" ;;
    ltp <- Json.get v "lp" (Json.Num 0) ;;
    if Json.truthy ltp then Json.to_float parse_float ltp else inr 0%Q
  else inr 0%Q)%exn.

(** The [try] block of [FyersAPI.get_ltp]. *)
Definition get_ltp_body (symbol : string) : M Q :=
  (ok <- initialize_fyers_model ;;
   if negb ok then ret 0%Q
   else
     response <- exchange (quote_server symbol) ;;
     lift (quote_ltp response))%eff.

(** [FyersAPI.get_ltp] *)
Definition get_ltp (symbol : string) : M Q :=
  try_except
    (get_ltp_body symbol)
    (fun e =>
       print ("❌ Error fetching LTP for " ++ symbol ++ ": " ++ exn_message e) ;;;
       ret 0%Q)%eff.

(** *** [LTPMarginCalculator] *)

(** [read_symbols_from_csv]: the loop over the rows. *)
Fixpoint read_rows (rows : list row) (symbols : list (string * Z))
    : exn + list (string * Z) :=
  match rows with
  | [] => inr symbols
  | r :: rest =>
      match field r "Symbol" with
      | inl e => inl e
      | inr s =>
          match field r "Lot Size" with
          | inl e => inl e
          | inr l =>
              match to_int (strip l) with
              | inl e => inl e
              | inr lot_size => read_rows rest (symbols ++ [(strip s, lot_size)])
              end
          end
      end
  end.

Definition read_symbols_from_csv (csv_file : string) : M (list (string * Z)) :=
  match read_file csv_file with
  | None =>
      print ("❌ CSV file not found: " ++ csv_file) ;;;
      ret []
  | Some content =>
      try_except
        (lines <- lift content ;;
         symbols <- lift (read_rows (dict_reader lines) []) ;;
         print ("✅ Loaded " ++ Py.str_nat (length symbols)
                ++ " symbols from CSV") ;;;
         ret symbols)
        (fun e =>
           print ("❌ Error reading CSV: " ++ exn_message e) ;;;
           ret [])
  end.

(** The [try] block of [process_symbol], written against the [get_ltp]
    method of the collaborating [FyersAPI] object.  The two texts that
    hold formatted prices are abridged to their first words. *)
Definition process_symbol_body (fetch : string -> M Q)
    (strike_intervals : gmap string Q) (symbol : string) (lot_size : Z)
    : M (option result) :=
  (print ("🔍 Processing " ++ symbol ++ "...") ;;;
   let fyers_symbol := V2.convert_symbol_to_fyers_format symbol in
   ltp <- fetch fyers_symbol ;;
   if Qle_bool ltp 0 then
     print "❌ No LTP data" ;;;
     ret None
   else
     print "LTP" ;;;
     let atm_strike := V2.calculate_atm_strike ltp symbol strike_intervals in
     let ce_symbol := V2.create_option_symbol now symbol atm_strike "CE" in
     let pe_symbol := V2.create_option_symbol now symbol atm_strike "PE" in
     ce_ltp <- fetch ce_symbol ;;
     pe_ltp <- fetch pe_symbol ;;
     let ce_margin :=
       if Py.ltb 0 ce_ltp then V2.calculate_margin ce_ltp lot_size else 0%Q in
     let pe_margin :=
       if Py.ltb 0 pe_ltp then V2.calculate_margin pe_ltp lot_size else 0%Q in
     print ("ATM: " ++ Py.str_int atm_strike) ;;;
     ret (Some (mkResult symbol ltp atm_strike ce_symbol ce_ltp ce_margin
                         pe_symbol pe_ltp pe_margin lot_size)))%eff.

(** [LTPMarginCalculator.process_symbol] *)
Definition process_symbol_with (fetch : string -> M Q)
    (strike_intervals : gmap string Q) (symbol : string) (lot_size : Z)
    : M (option result) :=
  try_except
    (process_symbol_body fetch strike_intervals symbol lot_size)
    (fun e =>
       print ("❌ Error: " ++ exn_message e) ;;;
       ret None)%eff.

Definition process_symbol := process_symbol_with get_ltp.

(** The loop of [run] over the instruments (the sleep between two calls
    has no effect on the values). *)
Fixpoint process_all_with (fetch : string -> M Q)
    (strike_intervals : gmap string Q) (symbols : list (string * Z))
    (all_results : list result) : M (list result) :=
  match symbols with
  | [] => ret all_results
  | (symbol, lot_size) :: rest =>
      r <- process_symbol_with fetch strike_intervals symbol lot_size ;;
      process_all_with fetch strike_intervals rest
        (match r with
         | Some res => all_results ++ [res]
         | None => all_results
         end)
  end.

(** [run] up to the filtered results; formatting and saving them is the
    work of the display layer.  The banner and the progress lines that
    [run] prints itself are left out. *)
Definition run (csv_file : string) (margin_filter : Q)
    (strike_intervals : gmap string Q) : M (list result) :=
  symbols <- read_symbols_from_csv csv_file ;;
  match symbols with
  | [] => ret []
  | _ =>
      ok <- initialize_fyers_model ;;
      if negb ok then
        print "❌ Failed to initialize Fyers API" ;;;
        ret []
      else
        all_results <- process_all_with get_ltp strike_intervals symbols [] ;;
        ret (filter_by_margin margin_filter all_results)
  end.

End Collaborators.

End App.

(** ** [main_v2.py]: [Utils.load_strike_intervals_from_file] on every float

    [float()] reads more than the decimal numbers: "nan", "inf" and
    "-inf" are floats too, and the loop of the loader compares whatever it
    has read.  This module is the loader with those values in the
    dictionary; [App.load_strike_intervals_from_file] is the same code on
    the numbers alone. *)

Module Gaps.

Import Eff.
Local Open Scope eff_scope.

Inductive float :=
  | Finite (q : Q)
  | PosInf
  | NegInf
  | NaN.

(** [x < y]: false as soon as one side is nan. *)
Definition ltb (x y : float) : bool :=
  match x, y with
  | NaN, _ => false
  | _, NaN => false
  | Finite a, Finite b => Py.ltb a b
  | Finite _, PosInf => true
  | Finite _, NegInf => false
  | PosInf, _ => false
  | NegInf, NegInf => false
  | NegInf, _ => true
  end.

(** [Utils.get_default_intervals] *)
Definition get_default_intervals : gmap string float :=
  <["NIFTY" := Finite 50]>
  (<["BANKNIFTY" := Finite 100]>
  (<["FINNIFTY" := Finite 50]>
  (<["MIDCPNIFTY" := Finite 25]>
  (<["NIFTY NEXT 50" := Finite 100]>
  (<["SENSEX" := Finite 100]> ∅))))).

Section Collaborators.

(** [float()] on a text. *)
Variable parse_float : string -> option float.
Variable dict_reader : list string -> list App.row.
Variable read_file : string -> option (exn + list string).

Definition to_float (s : string) : exn + float :=
  match parse_float s with
  | Some x => inr x
  | None => inl (float_text s)
  end.

(** One turn of the loop over the rows. *)
Definition load_row (r : App.row) (strike_intervals : gmap string float)
    : exn + gmap string float :=
  (s <- App.field r "Symbol" ;;
   let symbol := App.strip s in
   g <- App.float_argument_field r "Gap" ;;
   step_value <- to_float g ;;
   match strike_intervals !! symbol with
   | None => inr (<[symbol := step_value]> strike_intervals)
   | Some old =>
       if ltb step_value old
       then inr (<[symbol := step_value]> strike_intervals)
       else inr strike_intervals
   end)%exn.

Fixpoint load_rows (rows : list App.row) (strike_intervals : gmap string float)
    : exn + gmap string float :=
  match rows with
  | [] => inr strike_intervals
  | r :: rest =>
      (m <- load_row r strike_intervals ;; load_rows rest m)%exn
  end.

Definition load_strike_intervals_from_file (filename : string)
    : M (gmap string float) :=
  match read_file filename with
  | None =>
      print ("⚠️  Strike intervals file not found: " ++ filename) ;;;
      print "Using default intervals..." ;;;
      ret get_default_intervals
  | Some content =>
      try_except
        (lines <- lift content ;;
         strike_intervals <-
           lift (load_rows (dict_reader (App.reader_lines lines)) ∅) ;;
         print ("✅ Loaded " ++ Py.str_nat (size strike_intervals)
                ++ " strike intervals from " ++ filename) ;;;
         ret strike_intervals)
        (fun e =>
           print ("❌ Error loading strike intervals: " ++ exn_message e) ;;;
           ret get_default_intervals)
  end.

End Collaborators.

End Gaps.

(** ** [main_v2.py]: [LTPMarginCalculator.format_output]

    The rendering of a float with two decimals ([:.2f]) and with
    thousands separators ([:,.2f]) are arguments.  Widths are counted in
    bytes, which is what Python counts for ASCII texts. *)

Module Report.

Fixpoint times (s : string) (n : nat) : string :=
  match n with
  | O => ""
  | S n' => (s ++ times s n')%string
  end.

(** [f"{s:<width}"] *)
Definition ljust (width : nat) (s : string) : string :=
  (s ++ times " " (width - String.length s))%string.

(** [f"{s:>width}"] *)
Definition rjust (width : nat) (s : string) : string :=
  (times " " (width - String.length s) ++ s)%string.

Definition newline : string := String (ascii_of_nat 10) "".

(** ["\n".join(lines)] *)
Definition join_lines (lines : list string) : string :=
  String.concat newline lines.

Section Formatting.

Variable format_f2 : Q -> string.
Variable format_comma_f2 : Q -> string.

(** The first seven lines of the report. *)
Definition header (margin_filter : Q) : list string :=
  [ times "=" 120;
    "FYERS LTP AND MARGIN CALCULATOR RESULTS";
    ("Margin Filter: Under ₹" ++ format_comma_f2 margin_filter
     ++ " | Margin = LTP × Lot Size")%string;
    times "=" 120;
    "";
    (ljust 15 "Symbol" ++ " " ++ rjust 12 "Underlying LTP" ++ " "
     ++ rjust 15 "ATM Contract" ++ " " ++ rjust 12 "Contract LTP" ++ " "
     ++ rjust 12 "Margin")%string;
    times "-" 120 ].

(** The line of one leg. *)
Definition leg_line (r : result) (option_type : string)
    (leg_ltp leg_margin : Q) : string :=
  let contract := (Py.str_int (atm_strike r) ++ option_type)%string in
  (ljust 15 (symbol r) ++ " ₹" ++ rjust 11 (format_f2 (ltp r)) ++ " "
   ++ rjust 15 contract ++ " ₹" ++ rjust 11 (format_f2 leg_ltp) ++ " "
   ++ "₹" ++ rjust 11 (format_f2 leg_margin))%string.

(** The loop over the results: a line for each leg within the limit. *)
Fixpoint result_lines (margin_filter : Q) (results : list result)
    (lines : list string) : list string :=
  match results with
  | [] => lines
  | r :: rest =>
      let lines1 :=
        if within_limit margin_filter (ce_margin r)
        then (lines ++ [leg_line r "CE" (ce_ltp r) (ce_margin r)])%list
        else lines in
      let lines2 :=
        if within_limit margin_filter (pe_margin r)
        then (lines1 ++ [leg_line r "PE" (pe_ltp r) (pe_margin r)])%list
        else lines1 in
      result_lines margin_filter rest lines2
  end.

Definition format_lines (margin_filter : Q) (results : list result)
    : list string :=
  (result_lines margin_filter results (header margin_filter)
   ++ [times "-" 120])%list.

(** [LTPMarginCalculator.format_output] *)
Definition format_output (margin_filter : Q) (results : list result)
    : string :=
  join_lines (format_lines margin_filter results).

End Formatting.

End Report.

(** ** [dummy.py] *)

Module Dummy.

(** [calculate_atm_strike]: the interval is the constant 2.5, so the
    price-based branch is never taken. *)
Definition calculate_atm_strike (ltp : Q) : Z :=
  let interval := (5 # 2)%Q in
  let interval := if negb (Py.truthy interval)
                  then V2.price_interval ltp else interval in
  let atm_strike := (inject_Z (Qceiling (ltp / interval)) * interval)%Q in
  Py.int_of atm_strike.

End Dummy.

(** ** [main.py]: the functions and classes around the calculators

    [Eff.exn] has no constructor for [StopIteration] and
    [ZeroDivisionError]; they are carried by [OSError] with the text that
    [print] shows, the only thing the script observes of an exception. *)

Module Original.

Import Eff.
Local Open Scope eff_scope.

Definition gaps_csv : string :=
  "F:\RASHMI\RASHMI-MARKET_APPLICATION\gaps.csv".

Definition stop_iteration : exn := OSError "".
Definition zero_division : exn := OSError "float division by zero".
Definition file_not_found : exn := OSError "No such file or directory".

(** [convert_symbol_to_fyers_format]: the same table as the optimized
    script, looked up without changing the case. *)
Definition convert_symbol_to_fyers_format (symbol : string) : string :=
  V2.table_get V2.index_mapping symbol ("NSE:" ++ symbol ++ "-EQ")%string.

(** [create_option_symbol] *)
Definition create_option_symbol (now : Date.date) (base_symbol : string)
    (strike : Z) (option_type : string) : string :=
  let expiry_code :=
    if str_in base_symbol
         ["NIFTY"; "BANKNIFTY"; "FINNIFTY"; "MIDCPNIFTY"; "NIFTY NEXT 50"]
    then V1.get_expiry_code now base_symbol
    else V1.get_expiry_code now "STOCK" in
  let option_base := V2.table_get V2.option_mapping base_symbol base_symbol in
  ("NSE:" ++ option_base ++ expiry_code ++ Py.str_int strike ++ option_type)%string.

(** [needle in s] on texts. *)
Fixpoint contains (needle s : string) : bool :=
  String.prefix needle s
  || match s with
     | EmptyString => false
     | String _ s' => contains needle s'
     end.

(** [list.append()] called without an argument. *)
Definition append_no_argument (l : list string) : exn + list string :=
  inl (TypeError "list.append() takes exactly one argument (0 given)").

Section Collaborators.

Variable parse_float : string -> option Q.
Variable parse_int : string -> option Z.
Variable dict_reader : list string -> list App.row.
Variable read_file : string -> option (exn + list string).
Variable auth_server : nat -> exn + string.
Variable quote_server : string -> nat -> exn + Json.t.

(** The span-margin endpoint: the status code and the decoding of the
    body of the answer. *)
Variable margin_server : string -> Z -> nat -> exn + (Z * (exn + Json.t)).

(** Writing the report file. *)
Variable save : string -> string -> exn + unit.

Variable format_f2 : Q -> string.
Variable format_comma_f2 : Q -> string.
Variable now : Date.date.

(** [open(filename)] *)
Definition open_file (filename : string) : exn + list string :=
  match read_file filename with
  | None => inl file_not_found
  | Some content => content
  end.

(** One turn of the loop of [load_strike_intervals_from_file]. *)
Definition load_row (r : App.row) (strike_intervals : gmap string Q)
    : exn + gmap string Q :=
  (s <- App.field r "Symbol" ;;
   let symbol := App.strip s in
   g <- App.float_argument_field r "Step Value" ;;
   step_value <- App.to_float parse_float g ;;
   match strike_intervals !! symbol with
   | None => inr (<[symbol := step_value]> strike_intervals)
   | Some old =>
       if Py.ltb step_value old
       then inr (<[symbol := step_value]> strike_intervals)
       else inr strike_intervals
   end)%exn.

Fixpoint load_rows (rows : list App.row) (strike_intervals : gmap string Q)
    : exn + gmap string Q :=
  match rows with
  | [] => inr strike_intervals
  | r :: rest =>
      (m <- load_row r strike_intervals ;; load_rows rest m)%exn
  end.

(** [load_strike_intervals_from_file]: [next(f)] drops the first line
    and raises on an empty file; nothing is caught. *)
Definition load_strike_intervals_from_file (filename : string)
    : exn + gmap string Q :=
  (lines <- open_file filename ;;
   match lines with
   | [] => inl stop_iteration
   | _ :: rest => load_rows (dict_reader rest) ∅
   end)%exn.

(** [calculate_atm_strike], with the reading of the file it starts with. *)
Definition calculate_atm_strike (ltp : Q) (symbol : string) : exn + Z :=
  (strike_intervals <- load_strike_intervals_from_file gaps_csv ;;
   match V1.calculate_atm_strike ltp symbol strike_intervals with
   | Some k => inr k
   | None => inl zero_division
   end)%exn.

(** *** [FyersAPI] *)

Definition set_fyers (t : string) : M unit :=
  fun w => (Ret tt, mkWorld (out w) (access_token w) (Some t)
                            (authenticated w) (requests w)).

Definition generate_access_token : M (option string) :=
  try_except
    (token <- exchange auth_server ;;
     set_access_token (Some token) ;;;
     ret (Some token))
    (fun e =>
       print ("Authentication failed: " ++ exn_message e) ;;;
       ret None).

Definition initialize_fyers_model : M bool :=
  w <- get_world ;;
  (if App.token_truthy (access_token w) then ret tt
   else (t <- generate_access_token ;; set_access_token t)) ;;;
  w' <- get_world ;;
  match access_token w' with
  | Some t =>
      if App.token_truthy (Some t) then (set_fyers t ;;; ret true)
      else ret false
  | None => ret false
  end.

(** [if not self.fyers: if not self.initialize_fyers_model(): ...] *)
Definition ensure_model : M bool :=
  w <- get_world ;;
  match fyers w with
  | Some _ => ret true
  | None => initialize_fyers_model
  end.

Definition get_ltp (symbol : string) : M Q :=
  try_except
    (ready <- ensure_model ;;
     if negb ready then ret 0%Q
     else
       response <- exchange (quote_server symbol) ;;
       lift (App.quote_ltp parse_float response))
    (fun e =>
       print ("Error fetching LTP for " ++ symbol ++ ": " ++ exn_message e) ;;;
       ret 0%Q).

(** The answer of the span-margin endpoint, when it is usable. *)
Definition span_margin (answer : Z * (exn + Json.t)) : exn + option Q :=
  (if fst answer =? 200 then
     margin_data <- snd answer ;;
     s <- Json.get margin_data "s" Json.Null ;;
     if Json.is_str s "ok" then
       total <- Json.get margin_data "total" (Json.Num 0) ;;
       v <- Json.to_float parse_float total ;;
       inr (Some v)
     else inr None
   else inr None)%exn.

(** [FyersAPI.get_margin_requirement] *)
Definition get_margin_requirement (symbol : string) (qty : Z) : M Q :=
  try_except
    (ready <- ensure_model ;;
     if negb ready then ret 0%Q
     else
       answer <- exchange (margin_server symbol qty) ;;
       direct <- lift (span_margin answer) ;;
       match direct with
       | Some v => ret v
       | None =>
           ltp <- get_ltp symbol ;;
           if Py.ltb 0 ltp then
             if contains "CE" symbol || contains "PE" symbol
             then ret (ltp * inject_Z qty)%Q
             else ret (ltp * inject_Z qty * (2 # 10))%Q
           else ret 0%Q
       end)
    (fun e =>
       print ("Error calculating margin for " ++ symbol ++ ": "
              ++ exn_message e) ;;;
       ret 0%Q).

(** *** [LTPMarginCalculator] *)

Definition read_symbols_from_csv (csv_file : string) : M (list (string * Z)) :=
  try_except
    (lines <- lift (open_file csv_file) ;;
     symbols <- lift (App.read_rows parse_int (dict_reader lines) []) ;;
     print ("Loaded symbols from " ++ csv_file) ;;;
     ret symbols)
    (fun e =>
       print ("Error reading CSV file: " ++ exn_message e) ;;;
       ret []).

(** The [try] block of [process_symbol], written against the two
    methods of the [FyersAPI] object it calls. *)
Definition process_symbol_body (fetch : string -> M Q)
    (margin : string -> Z -> M Q) (symbol : string) (lot_size : Z)
    : M (option result) :=
  print ("Processing " ++ symbol ++ "...") ;;;
  let fyers_symbol := convert_symbol_to_fyers_format symbol in
  ltp <- fetch fyers_symbol ;;
  if Qle_bool ltp 0 then
    print ("No LTP data for " ++ symbol) ;;;
    ret None
  else
    atm_strike <- lift (calculate_atm_strike ltp symbol) ;;
    let ce_symbol := create_option_symbol now symbol atm_strike "CE" in
    let pe_symbol := create_option_symbol now symbol atm_strike "PE" in
    ce_ltp <- fetch ce_symbol ;;
    pe_ltp <- fetch pe_symbol ;;
    ce_margin <- (if Py.ltb 0 ce_ltp then margin ce_symbol lot_size
                  else ret 0%Q) ;;
    pe_margin <- (if Py.ltb 0 pe_ltp then margin pe_symbol lot_size
                  else ret 0%Q) ;;
    ret (Some (mkResult symbol ltp atm_strike ce_symbol ce_ltp ce_margin
                        pe_symbol pe_ltp pe_margin lot_size)).

Definition process_symbol_with (fetch : string -> M Q)
    (margin : string -> Z -> M Q) (symbol : string) (lot_size : Z)
    : M (option result) :=
  try_except
    (process_symbol_body fetch margin symbol lot_size)
    (fun e =>
       print ("Error processing " ++ symbol ++ ": " ++ exn_message e) ;;;
       ret None).

Definition process_symbol := process_symbol_with get_ltp get_margin_requirement.

(** The lines of one result in [format_output]. *)
Definition result_lines (margin_filter : Q) (r : result) : list string :=
  ((if Py.ltb 0 (ce_ltp r) && Qle_bool (ce_margin r) margin_filter
   then [(Report.ljust 15 (symbol r) ++ " | LTP: ‚Çπ"
          ++ Report.rjust 8 (format_f2 (ltp r)) ++ " | "
          ++ Report.ljust 12 ("ATM" ++ Py.str_int (atm_strike r) ++ "CE")
          ++ " | LTP: ‚Çπ" ++ Report.rjust 6 (format_f2 (ce_ltp r))
          ++ " | Margin: ‚Çπ" ++ Report.rjust 8 (format_f2 (ce_margin r)))%string]
   else [])
  ++ (if Py.ltb 0 (pe_ltp r) && Qle_bool (pe_margin r) margin_filter
      then [(Report.ljust 15 (symbol r) ++ " | LTP: ‚Çπ"
             ++ Report.rjust 8 (format_f2 (ltp r)) ++ " | "
             ++ Report.ljust 12 ("ATM" ++ Py.str_int (atm_strike r) ++ "PE")
             ++ " | LTP: ‚Çπ" ++ Report.rjust 6 (format_f2 (pe_ltp r))
             ++ " | Margin: ‚Çπ" ++ Report.rjust 8 (format_f2 (pe_margin r)))%string]
      else [])
  ++ [Report.times "-" 100])%list.

(** [LTPMarginCalculator.format_output]: the fifth [append] has no
    argument. *)
Definition format_output (margin_filter : Q) (results : list result)
    : exn + string :=
  let output_lines :=
    [ Report.times "=" 100;
      "FYERS LTP AND MARGIN CALCULATOR RESULTS";
      ("Margin Filter: Under ‚Çπ" ++ format_comma_f2 margin_filter)%string;
      Report.times "=" 100 ] in
  (output_lines <- append_no_argument output_lines ;;
   inr (Report.join_lines
          (output_lines
           ++ concat (map (result_lines margin_filter) results))%list))%exn.

(** The loop of [run]. *)
Fixpoint process_all (symbols : list (string * Z)) (all_results : list result)
    : M (list result) :=
  match symbols with
  | [] => ret all_results
  | (symbol, lot_size) :: rest =>
      r <- process_symbol symbol lot_size ;;
      process_all rest
        (match r with
         | Some res => all_results ++ [res]
         | None => all_results
         end)
  end.

(** [run] up to the filtered results: [None] when it returns early. *)
Definition gather (csv_file : string) (margin_filter : Q)
    : M (option (list result)) :=
  ok <- initialize_fyers_model ;;
  if negb ok then
    print "Failed to initialize Fyers API" ;;;
    ret None
  else
    print "Fyers API initialized successfully" ;;;
    symbols <- read_symbols_from_csv csv_file ;;
    match symbols with
    | [] => ret None
    | _ =>
        all_results <- process_all symbols [] ;;
        ret (Some (V1.filter_by_margin margin_filter all_results))
    end.

(** The end of [run]: nothing here is inside a [try]. *)
Definition report (margin_filter : Q) (filtered_results : list result)
    : M unit :=
  match filtered_results with
  | [] => print "No symbols found with margin under the filter"
  | _ =>
      output <- lift (format_output margin_filter filtered_results) ;;
      print output ;;;
      lift (save "margin_results.txt" output) ;;;
      print "Results saved to 'margin_results.txt'" ;;;
      print "Found symbols within margin limit"
  end.

(** [LTPMarginCalculator.run] *)
Definition run (csv_file : string) (margin_filter : Q) : M unit :=
  gathered <- gather csv_file margin_filter ;;
  match gathered with
  | None => ret tt
  | Some filtered_results => report margin_filter filtered_results
  end.

End Collaborators.

End Original.

(** ** [app.py] *)

Module Web.

Import Eff.
Local Open Scope eff_scope.

(** [Config] of [main_v2.py]. *)
Definition CSV_FILE_PATH : string :=
  "F:\RASHMI\RASHMI-MARKET_APPLICATION\fo_mktlots.csv".
Definition STRIKE_INTERVALS_CSV : string :=
  "F:\RASHMI\RASHMI-MARKET_APPLICATION\gaps.csv".
Definition MAX_MARGIN_FILTER : Q := 20000.

(** What [index] hands to the template. *)
Record page := mkPage {
  page_margin_filter : Q;
  page_results : list result;
  page_error : option string
}.

(** [FyersAPI()]: every request starts with a new session object. *)
Definition new_fyers_api : M unit :=
  fun w => (Ret tt, mkWorld (out w) None None false (requests w)).

Section Collaborators.

Variable parse_float : string -> option Q.
Variable parse_int : string -> option Z.
Variable dict_reader : list string -> list App.row.
Variable read_file : string -> option (exn + list string).
Variable auth_server : nat -> exn + string.
Variable quote_server : string -> nat -> exn + Json.t.
Variable now : Date.date.

(** [request.args.get("margin_filter", default=..., type=float)]: a
    missing or unreadable argument gives the default. *)
Definition request_margin_filter (arg : option string) : Q :=
  match arg with
  | None => MAX_MARGIN_FILTER
  | Some s => default MAX_MARGIN_FILTER (parse_float s)
  end.

(** [index] *)
Definition index (arg : option string) : M page :=
  let margin_filter := request_margin_filter arg in
  try_except
    (new_fyers_api ;;;
     strike_intervals <-
       App.load_strike_intervals_from_file parse_float dict_reader read_file
         STRIKE_INTERVALS_CSV ;;
     App.initialize_fyers_model auth_server ;;;
     symbols <- App.read_symbols_from_csv parse_int dict_reader read_file
                  CSV_FILE_PATH ;;
     match symbols with
     | [] => ret (mkPage margin_filter [] (Some "No symbols loaded!"))
     | _ =>
         all_results <-
           App.process_all_with now
             (App.get_ltp parse_float auth_server quote_server)
             strike_intervals symbols [] ;;
         ret (mkPage margin_filter
                     (App.filter_by_margin margin_filter all_results) None)
     end)
    (fun e =>
       ret (mkPage margin_filter [] (Some ("Error: " ++ exn_message e)%string))).

End Collaborators.

End Web.

(** ** Vocabulary of the statements *)

(** The test of the filter loop on one leg, as a proposition. *)
Definition leg_within_limit (margin_filter m : Q) : Prop :=
  (0 < m /\ m <= margin_filter)%Q.

(** The test of the filter loop on one result. *)
Definition keeps (margin_filter : Q) (r : result) : bool :=
  within_limit margin_filter (ce_margin r)
  || within_limit margin_filter (pe_margin r).

(** A result whose two legs have no quote: both margins are 0. *)
Definition no_quote_result : result :=
  mkResult "NIFTY" 24480 24500 "NSE:NIFTY2610824500CE" 0 0
           "NSE:NIFTY2610824500PE" 0 0 75.

(** The names the option-contract identifier uses for the underlyings:
    the NIFTY NEXT 50 index is written [NIFTYNXT50], every other name is
    kept. *)
Definition underlying_name (name : string) : string :=
  if String.eqb name "NIFTY NEXT 50" then "NIFTYNXT50" else name.

(** The six index names and their quote identifiers. *)
Definition known_index (name : string) : option string :=
  if String.eqb name "NIFTY" then Some "NSE:NIFTY50-INDEX"
  else if String.eqb name "BANKNIFTY" then Some "NSE:NIFTYBANK-INDEX"
  else if String.eqb name "FINNIFTY" then Some "NSE:FINNIFTY-INDEX"
  else if String.eqb name "MIDCPNIFTY" then Some "NSE:MIDCPNIFTY-INDEX"
  else if String.eqb name "NIFTY NEXT 50" then Some "NSE:NIFTYNXT50-INDEX"
  else if String.eqb name "SENSEX" then Some "BSE:SENSEX-INDEX"
  else None.

(** The output of [w'] continues the output of [w]. *)
Definition extends (w w' : Eff.world) : Prop :=
  exists lines : list string, Eff.out w' = (Eff.out w ++ lines)%list.

(** A computation that only adds to what was printed. *)
Definition log_preserving {A} (m : Eff.M A) : Prop :=
  forall w, extends w (snd (m w)).

(** A computation that returns a value from every world. *)
Definition never_raises {A} (m : Eff.M A) : Prop :=
  forall w, exists a w', m w = (Eff.Ret a, w').

(** [t] is the last Thursday of its own month: a Thursday with no
    Thursday after it in the month. *)
Definition last_thursday_of_its_month (t : Date.date) : Prop :=
  Date.weekday t = Date.TH
  /\ Date.days_in_month (Date.year t) (Date.mon t) < Date.day t + 7.

(** The first day of the month after the one of [d]. *)
Definition first_of_next_month (d : Date.date) : Date.date :=
  match Date.mon d with
  | Date.Dec => Date.mkDate (Date.year d + 1) Date.Jan 1
  | m => Date.mkDate (Date.year d) (Date.next_month m) 1
  end.

(** The step of the price-based fallback, as an integer. *)
Definition band (ltp : Q) : Z :=
  if Py.ltb ltp 500 then 5
  else if Py.ltb ltp 1000 then 10
  else if Py.ltb ltp 2000 then 20
  else if Py.ltb ltp 5000 then 50
  else 100.

(** [k] is the least multiple of [n] that is not below [x]. *)
Definition least_multiple_above (n : Z) (x : Q) (k : Z) : Prop :=
  (exists c : Z, k = c * n)
  /\ (x <= inject_Z k)%Q
  /\ forall c : Z, (x <= inject_Z (c * n))%Q -> k <= c * n.

(** [k] is a multiple of [n] that no multiple of [n] is nearer to [x]
    than. *)
Definition nearest_multiple (n : Z) (x : Q) (k : Z) : Prop :=
  (exists c : Z, k = c * n)
  /\ forall c : Z,
       (Qabs (x - inject_Z k) <= Qabs (x - inject_Z (c * n)))%Q.

(** A computation that only prints: from every world it returns a
    value, makes no exchange and leaves the session as it is. *)
Definition only_prints {A} (m : Eff.M A) : Prop :=
  forall w, exists (a : A) (lines : list string),
    m w = (Eff.Ret a,
           Eff.mkWorld (Eff.out w ++ lines) (Eff.access_token w) (Eff.fyers w)
                       (Eff.authenticated w) (Eff.requests w)).

(** The instrument a result is about. *)
Definition instrument (r : result) : string * Z := (symbol r, lot_size r).

(** A session that has not logged in. *)
Definition logged_out (w : Eff.world) : Prop :=
  Eff.authenticated w = false /\ App.token_truthy (Eff.access_token w) = false.

(** The number of legs of a result that are within the limit. *)
Definition legs_within (margin_filter : Q) (r : result) : nat :=
  ((if within_limit margin_filter (ce_margin r) then 1 else 0)
   + (if within_limit margin_filter (pe_margin r) then 1 else 0))%nat.

(** Two authenticated sessions that have made the same number of
    exchanges: they may differ in what was printed and in the token. *)
Definition in_step (w1 w2 : Eff.world) : Prop :=
  Eff.authenticated w1 = true /\ Eff.authenticated w2 = true
  /\ Eff.requests w1 = Eff.requests w2.





(** *** A sample environment *)

Module Sample.

Definition parse_float (s : string) : option Q :=
  if String.eqb s "50" then Some 50%Q
  else if String.eqb s "100" then Some 100%Q
  else if String.eqb s "2.5" then Some (5 # 2)%Q
  else None.

Definition parse_int (s : string) : option Z :=
  if String.eqb s "75" then Some 75
  else if String.eqb s "500" then Some 500
  else None.

Fixpoint split_comma (s cur : string) : list string :=
  match s with
  | EmptyString => [cur]
  | String c s' =>
      if Ascii.eqb c ","%char then cur :: split_comma s' ""
      else split_comma s' (cur ++ String c "")%string
  end.

(** A reader for plain comma-separated lines: the first line names the
    fields. *)
Definition dict_reader (lines : list string) : list App.row :=
  match lines with
  | [] => []
  | header :: rest =>
      map (fun l => list_to_map (zip (split_comma header "")
                                   (map Some (split_comma l ""))))
          rest
  end.

Definition read_file (name : string) : option (Eff.exn + list string) :=
  if String.eqb name "gaps.csv"
  then Some (inr ["Symbol,Gap"; "NIFTY,100"; " RELIANCE ,2.5"; "NIFTY,50"])
  else if String.eqb name "dated_gaps.csv"
  then Some (inr ["As on 04-Nov-2026"; "Symbol,Gap"; "NIFTY,50"; "NIFTY,100"])
  else if String.eqb name "bad_gaps.csv"
  then Some (inr ["Symbol,Gap"; "NIFTY,50"; "RELIANCE,n/a"])
  else if String.eqb name "fo_mktlots.csv"
  then Some (inr ["Symbol,Lot Size"; "NIFTY, 75"; "RELIANCE,500"])
  else if String.eqb name "bad_lots.csv"
  then Some (inr ["Symbol,Lot Size"; "NIFTY, 75"; "RELIANCE,five hundred"])
  else if String.eqb name "locked.csv"
  then Some (inl (Eff.OSError "Permission denied"))
  else None.

Definition auth_server (n : nat) : Eff.exn + string := inr "token".

Definition quote (lp : Json.t) : Json.t :=
  Json.Obj [("s", Json.Str "ok");
            ("d", Json.Arr [Json.Obj [("n", Json.Str "x");
                                      ("v", Json.Obj [("lp", lp)])]])].

(** The NIFTY index times out, RELIANCE trades at 1412, its call at
    12.5, and the answer for its put carries no [v] field. *)
Definition quote_server (symbol : string) (n : nat) : Eff.exn + Json.t :=
  if String.eqb symbol "NSE:NIFTY50-INDEX"
  then inl (Eff.RequestError "Read timed out")
  else if String.eqb symbol "NSE:RELIANCE-EQ"
  then inr (quote (Json.Num 1412))
  else if String.eqb symbol "NSE:RELIANCE26JAN1420CE"
  then inr (quote (Json.Num (25 # 2)))
  else if String.eqb symbol "NSE:RELIANCE26JAN1420PE"
  then inr (Json.Obj [("s", Json.Str "ok"); ("d", Json.Arr [Json.Obj []])])
  else inr (Json.Obj [("s", Json.Str "error"); ("code", Json.Num (-300))]).

Definition now : Date.date := Date.mkDate 2026 Date.Jan 5.

Definition start : Eff.world := Eff.mkWorld [] None None false 0.

Definition intervals : gmap string Q := <["RELIANCE" := 20%Q]> V2.get_default_intervals.

Definition get_ltp := App.get_ltp parse_float auth_server quote_server.

(** What [process_symbol] returns for RELIANCE with a lot of 500. *)
Definition reliance : result :=
  mkResult "RELIANCE" 1412 1420 "NSE:RELIANCE26JAN1420CE" (25 # 2)
           (12500 # 2) "NSE:RELIANCE26JAN1420PE" 0 0 500.

Definition after_reliance : Eff.world :=
  snd (App.process_symbol_with now get_ltp intervals "RELIANCE" 500 start).

End Sample.

(** *** Worlds and answers for the sample environment *)

Module Scene.

(** A session that has logged in and made one exchange. *)
Definition live : Eff.world :=
  Eff.mkWorld [] (Some "token") (Some "token") true 1.

(** A vendor whose login fails. *)
Definition closed_auth_server (n : nat) : Eff.exn + string :=
  inl (Eff.RequestError "OTP request failed").

(** An answer that reports an error without raising. *)
Definition error_answer : list (string * Json.t) :=
  [("s", Json.Str "error"); ("code", Json.Num (-300))].

Definition quote_fields (lp : Json.t) : list (string * Json.t) :=
  [("s", Json.Str "ok");
   ("d", Json.Arr [Json.Obj [("n", Json.Str "x");
                             ("v", Json.Obj [("lp", lp)])]])].

(** The two files of [Config], with a dated first line in the file of the
    strike intervals. *)
Definition read_file (name : string) : option (Eff.exn + list string) :=
  if String.eqb name Web.STRIKE_INTERVALS_CSV
  then Some (inr ["As on 04-Nov-2026"; "Symbol,Step Value,Gap";
                  "RELIANCE,50,50"])
  else if String.eqb name Web.CSV_FILE_PATH
  then Some (inr ["Symbol,Lot Size"; "RELIANCE,500"])
  else None.

(** RELIANCE trades at 1412 and each of its contracts at 12.5. *)
Definition quote_server (symbol : string) (n : nat) : Eff.exn + Json.t :=
  if String.eqb symbol "NSE:RELIANCE-EQ"
  then inr (Sample.quote (Json.Num 1412))
  else if String.prefix "NSE:RELIANCE" symbol
  then inr (Sample.quote (Json.Num (25 # 2)))
  else inr (Json.Obj error_answer).

(** A span-margin endpoint that refuses every request. *)
Definition margin_server (symbol : string) (qty : Z) (n : nat)
    : Eff.exn + (Z * (Eff.exn + Json.t)) :=
  inr (401, inl (Eff.ValueError "Expecting value")).

Definition save (name content : string) : Eff.exn + unit := inr tt.

Definition format_f2 (q : Q) : string := "0.00".

(** What the first script gathers for RELIANCE. *)
Definition original_reliance : result :=
  mkResult "RELIANCE" 1412 1400 "NSE:RELIANCE261081400CE" (25 # 2) (12500 # 2)
           "NSE:RELIANCE261081400PE" (25 # 2) (12500 # 2) 500.

Definition original_gather : Eff.M (option (list result)) :=
  Original.gather Sample.parse_float Sample.parse_int Sample.dict_reader
    read_file Sample.auth_server quote_server margin_server Sample.now
    Web.CSV_FILE_PATH 20000.

Definition original_run : Eff.M unit :=
  Original.run Sample.parse_float Sample.parse_int Sample.dict_reader
    read_file Sample.auth_server quote_server margin_server save
    format_f2 format_f2 Sample.now Web.CSV_FILE_PATH 20000.

(** [float()] on the texts of the sample files. *)
Definition parse_gap (s : string) : option Gaps.float :=
  if String.eqb s "nan" then Some Gaps.NaN
  else if String.eqb s "inf" then Some Gaps.PosInf
  else if String.eqb s "-inf" then Some Gaps.NegInf
  else option_map Gaps.Finite (Sample.parse_float s).

(** A file with a dated first line, and two files with the same rows in
    two orders. *)
Definition dated_lines : list string :=
  ["As on 04-Nov-2026"; "Symbol,Gap"; "NIFTY,100"; " RELIANCE ,2.5";
   "NIFTY,50"; "SENSEX,inf"].

Definition gap_files (name : string) : option (Eff.exn + list string) :=
  if String.eqb name "dated.csv" then Some (inr dated_lines)
  else if String.eqb name "nan_first.csv"
  then Some (inr ["Symbol,Gap"; "RELIANCE,nan"; "RELIANCE,2.5"])
  else if String.eqb name "nan_last.csv"
  then Some (inr ["Symbol,Gap"; "RELIANCE,2.5"; "RELIANCE,nan"])
  else None.

End Scene.

(** ** Sample runs *)

Example upper_ex : Py.upper "Nifty next 50" = "NIFTY NEXT 50".
Proof. reflexivity. Qed.

Example str_int_ex : Py.str_int 24500 = "24500" /\ Py.str_int (-7) = "-7" /\ Py.str_int 0 = "0".
Proof. repeat split; vm_compute; reflexivity. Qed.

Example atm_ex1 : V2.calculate_atm_strike 101 "NIFTY" V2.get_default_intervals = 150.
Proof. vm_compute. reflexivity. Qed.

Example atm_ex2 : V2.calculate_atm_strike 212 "X" (<["X" := (5#2)%Q]> ∅) = 212.
Proof. vm_compute. reflexivity. Qed.

Example wd_ex : Date.weekday (Date.mkDate 2026 Date.Jan 1) = 3
  /\ Date.weekday (Date.mkDate 2026 Date.Nov 4) = 2
  /\ Date.weekday (Date.mkDate 2024 Date.Feb 29) = 3
  /\ Date.toordinal (Date.mkDate 2026 Date.Nov 4) = 739924.
Proof. repeat split; vm_compute; reflexivity. Qed.

Example exp_ex1 : V2.get_expiry_code (Date.mkDate 2026 Date.Jan 5) "NIFTY" = "26108"
  /\ V2.get_expiry_code (Date.mkDate 2026 Date.Jan 5) "BANKNIFTY" = "26JAN"
  /\ V1.get_expiry_code (Date.mkDate 2026 Date.Jan 5) "BANKNIFTY" = "26108"
  /\ V2.get_expiry_code (Date.mkDate 2026 Date.Jan 30) "NIFTY" = "26205"
  /\ V1.get_expiry_code (Date.mkDate 2026 Date.Jan 30) "NIFTY" = "26105"
  /\ V2.get_expiry_code (Date.mkDate 2026 Date.Jan 27) "NIFTY" = "26JAN"
  /\ V2.get_expiry_code (Date.mkDate 2025 Date.Dec 27) "nifty" = "25101".
Proof. repeat split; vm_compute; reflexivity. Qed.

Example fmt_ex :
  V2.convert_symbol_to_fyers_format "sensex" = "BSE:SENSEX-INDEX"
  /\ V2.convert_symbol_to_fyers_format "Reliance" = "NSE:RELIANCE-EQ"
  /\ V2.create_option_symbol (Date.mkDate 2026 Date.Jan 5) "NIFTY" 24500 "CE"
     = "NSE:NIFTY2610824500CE"
  /\ V2.create_option_symbol (Date.mkDate 2026 Date.Jan 5) "nifty next 50" 700 "PE"
     = "NSE:NIFTYNXT5026JAN700PE".
Proof. repeat split; vm_compute; reflexivity. Qed.

Example strip_ex :
  App.strip "  RELIANCE  " = "RELIANCE"
  /\ App.strip (String (ascii_of_nat 194) (String (ascii_of_nat 160) "TCS"))
     = "TCS"
  /\ App.strip (String (ascii_of_nat 28) ("A B" ++ String (ascii_of_nat 9) ""))
     = "A B"
  /\ App.strip (String (ascii_of_nat 195) (String (ascii_of_nat 160) ""))
     = String (ascii_of_nat 195) (String (ascii_of_nat 160) "").
Proof. repeat split; vm_compute; reflexivity. Qed.

Example repr_ex :
  Py.repr "five hundred" = "'five hundred'"
  /\ Py.repr ("it" ++ String Py.quote1 "s")
     = String Py.quote2 ("it" ++ String Py.quote1 ("s" ++ String Py.quote2 ""))
  /\ Eff.exn_message (Eff.key_error "Lot Size") = "'Lot Size'"
  /\ Eff.exn_message (Eff.int_text "five hundred")
     = "invalid literal for int() with base 10: 'five hundred'"
  /\ Json.item (Json.Arr []) "v"
     = inl (Eff.TypeError "list indices must be integers or slices, not str")
  /\ Json.get Json.Null "s" Json.Null
     = inl (Eff.AttributeError "'NoneType' object has no attribute 'get'").
Proof. repeat split; vm_compute; reflexivity. Qed.

Example sample_load :
  fst (App.load_strike_intervals_from_file Sample.parse_float
         Sample.dict_reader Sample.read_file "gaps.csv" Sample.start)
  = Eff.Ret (<["NIFTY" := 50%Q]> (<["RELIANCE" := (5 # 2)%Q]> ∅))
  /\ fst (App.load_strike_intervals_from_file Sample.parse_float
            Sample.dict_reader Sample.read_file "dated_gaps.csv" Sample.start)
     = Eff.Ret (<["NIFTY" := 50%Q]> ∅)
  /\ fst (App.load_strike_intervals_from_file Sample.parse_float
            Sample.dict_reader Sample.read_file "bad_gaps.csv" Sample.start)
     = Eff.Ret V2.get_default_intervals
  /\ fst (App.load_strike_intervals_from_file Sample.parse_float
            Sample.dict_reader Sample.read_file "missing.csv" Sample.start)
     = Eff.Ret V2.get_default_intervals.
Proof. repeat split; vm_compute; reflexivity. Qed.

Example sample_symbols :
  fst (App.read_symbols_from_csv Sample.parse_int Sample.dict_reader
         Sample.read_file "fo_mktlots.csv" Sample.start)
  = Eff.Ret [("NIFTY", 75); ("RELIANCE", 500)]
  /\ App.read_symbols_from_csv Sample.parse_int Sample.dict_reader
       Sample.read_file "bad_lots.csv" Sample.start
     = (Eff.Ret [],
        Eff.logged
          "❌ Error reading CSV: invalid literal for int() with base 10: 'five hundred'"
          Sample.start).
Proof. repeat split; vm_compute; reflexivity. Qed.

Example sample_run :
  App.run Sample.parse_float Sample.parse_int Sample.dict_reader
    Sample.read_file Sample.auth_server Sample.quote_server Sample.now
    "fo_mktlots.csv" 20000 Sample.intervals Sample.start
  = (Eff.Ret [mkResult "RELIANCE" 1412 1420 "NSE:RELIANCE26JAN1420CE"
                (25 # 2) (12500 # 2) "NSE:RELIANCE26JAN1420PE" 0 0 500],
     Eff.mkWorld
       ["✅ Loaded 2 symbols from CSV";
        "🔐 Authenticating with Fyers API...";
        "✅ Fyers authentication successful";
        "🔍 Processing NIFTY...";
        "❌ Error fetching LTP for NSE:NIFTY50-INDEX: Read timed out";
        "❌ No LTP data";
        "🔍 Processing RELIANCE...";
        "LTP";
        "❌ Error fetching LTP for NSE:RELIANCE26JAN1420PE: 'v'";
        "ATM: 1420"]
       (Some "token") (Some "token") true 5).
Proof. vm_compute. reflexivity. Qed.

(** * Properties *)

(** ** Arithmetic of the Python primitives *)

Section PyFacts.

Local Open Scope Q_scope.

Lemma ltb_lt (x y : Q) : Py.ltb x y = true <-> x < y.
Proof.
  unfold Py.ltb. rewrite negb_true_iff.
  split; intro H.
  - apply Qnot_le_lt. intro Hle. apply Qle_bool_iff in Hle. congruence.
  - destruct (Qle_bool y x) eqn:E; [|reflexivity].
    apply Qle_bool_iff in E. exfalso. revert E. now apply Qlt_not_le.
Qed.

Lemma ltb_ge (x y : Q) : Py.ltb x y = false <-> y <= x.
Proof.
  unfold Py.ltb. rewrite negb_false_iff. apply Qle_bool_iff.
Qed.

Lemma truthy_nonzero (q : Q) : Py.truthy q = true <-> ~ q == 0.
Proof.
  unfold Py.truthy. rewrite negb_true_iff.
  split; intro H.
  - intro E. apply Qeq_bool_iff in E. congruence.
  - destruct (Qeq_bool q 0) eqn:E; [|reflexivity].
    apply Qeq_bool_iff in E. contradiction.
Qed.

(** [int] of a float that holds an integer is that integer. *)
Lemma int_of_integer (q : Q) (z : Z) : q == inject_Z z -> Py.int_of q = z.
Proof.
  unfold Qeq, Py.int_of. simpl. intro H.
  rewrite Z.mul_1_r in H. rewrite H. apply Z.quot_mul. discriminate.
Qed.

Lemma inject_Z_pos (n : Z) : (0 < n)%Z -> 0 < inject_Z n.
Proof. intro H. change 0 with (inject_Z 0). now rewrite <- Zlt_Qlt. Qed.

(** Dividing by a positive number and multiplying back. *)
Lemma div_mul_cancel (x y : Q) : 0 < y -> x / y * y == x.
Proof.
  intro Hy. field. intro E. rewrite E in Hy. now apply Qlt_irrefl in Hy.
Qed.

Lemma div_le_iff (x y : Q) (c : Z) :
  0 < y -> (x / y <= inject_Z c <-> x <= inject_Z c * y).
Proof.
  intro Hy.
  rewrite <- (Qmult_le_r _ _ y Hy). now rewrite (div_mul_cancel x y Hy).
Qed.

Lemma le_div_iff (x y : Q) (c : Z) :
  0 < y -> (inject_Z c <= x / y <-> inject_Z c * y <= x).
Proof.
  intro Hy.
  rewrite <- (Qmult_le_r _ _ y Hy). now rewrite (div_mul_cancel x y Hy).
Qed.

(** The ceiling is the least integer above. *)
Lemma ceiling_least (x : Q) (m : Z) : x <= inject_Z m -> (Qceiling x <= m)%Z.
Proof.
  intro H. apply Qceiling_resp_le in H. now rewrite Qceiling_Z in H.
Qed.

Lemma floor_greatest (x : Q) (m : Z) : inject_Z m <= x -> (m <= Qfloor x)%Z.
Proof.
  intro H. apply Qfloor_resp_le in H. now rewrite Qfloor_Z in H.
Qed.

End PyFacts.

(** ** The ATM strike of the optimized script *)

Section AtmStrike.

Local Open Scope Q_scope.

(** With an interval equal to the positive integer [n], the optimized
    calculator returns [n] times the ceiling of [ltp / n]. *)
Lemma v2_strike_integer_interval (ltp i : Q) (n : Z) (symbol : string)
    (intervals : gmap string Q) :
  intervals !! Py.upper symbol = Some i -> i == inject_Z n -> (0 < n)%Z ->
  V2.calculate_atm_strike ltp symbol intervals
  = (Qceiling (ltp / inject_Z n) * n)%Z.
Proof.
  intros Hi Hin Hn.
  unfold V2.calculate_atm_strike, V2.strike_interval. rewrite Hi.
  assert (Ht : Py.truthy i = true).
  { apply truthy_nonzero. rewrite Hin. intro E.
    apply inject_Z_pos in Hn. rewrite E in Hn. now apply Qlt_irrefl in Hn. }
  rewrite Ht. apply int_of_integer.
  rewrite inject_Z_mult.
  apply Qmult_comp; [|assumption].
  now rewrite (Qceiling_comp _ _ (Qdiv_comp _ _ (Qeq_refl ltp) _ _ Hin)).
Qed.

(** The floor and the ceiling of a number are at most one apart. *)
Lemma ceiling_le_floor_succ (x : Q) : (Qceiling x <= Qfloor x + 1)%Z.
Proof.
  pose proof (Qceiling_lt x) as H1. pose proof (Qlt_floor x) as H2.
  assert (H : inject_Z (Qceiling x - 1) < inject_Z (Qfloor x + 1))
    by (eapply Qlt_trans; eassumption).
  rewrite <- Zlt_Qlt in H. lia.
Qed.

(** The original script, on a symbol other than NIFTY and BANKNIFTY
    whose interval is the positive integer [n], returns a multiple of [n]
    that is nearest to the LTP. *)
Lemma v1_atm_strike_nearest (ltp i : Q) (n : Z) (symbol : string)
    (strike_intervals : gmap string Q) :
  symbol <> "NIFTY" -> symbol <> "BANKNIFTY" ->
  strike_intervals !! symbol = Some i -> i == inject_Z n -> (0 < n)%Z ->
  exists k : Z,
    V1.calculate_atm_strike ltp symbol strike_intervals = Some k
    /\ (exists c : Z, k = (c * n)%Z)
    /\ forall c : Z,
         Qabs (ltp - inject_Z k) <= Qabs (ltp - inject_Z (c * n)).
Proof.
  intros Hn1 Hn2 Hi Hin Hn.
  unfold V1.calculate_atm_strike. rewrite Hi.
  change (default 50 (Some i)) with i. cbv zeta.
  destruct (String.eqb_spec symbol "NIFTY") as [|_]; [contradiction|].
  destruct (String.eqb_spec symbol "BANKNIFTY") as [|_]; [contradiction|].
  pose proof (inject_Z_pos n Hn) as Hq.
  assert (Hip : 0 < i) by now rewrite Hin.
  assert (Ht : Py.truthy i = true).
  { apply truthy_nonzero. intro E. rewrite E in Hip.
    now apply Qlt_irrefl in Hip. }
  rewrite Ht.
  set (f := Qfloor (ltp / i)). set (c0 := Qceiling (ltp / i)).
  set (val1 := inject_Z f * i). set (val2 := inject_Z c0 * i).
  assert (E1 : val1 == inject_Z (f * n))
    by (unfold val1; rewrite inject_Z_mult; now apply Qmult_comp).
  assert (E2 : val2 == inject_Z (c0 * n))
    by (unfold val2; rewrite inject_Z_mult; now apply Qmult_comp).
  assert (Hlo : val1 <= ltp)
    by (apply (le_div_iff ltp i f Hip); apply Qfloor_le).
  assert (Hhi : ltp <= val2)
    by (apply (div_le_iff ltp i c0 Hip); apply Qle_ceiling).
  assert (A1 : Qabs (ltp - val1) == ltp - val1) by (apply Qabs_pos; lra).
  assert (A2 : Qabs (ltp - val2) == - (ltp - val2)) by (apply Qabs_neg; lra).
  pose proof (ceiling_le_floor_succ (ltp / i)) as Hgap. fold f c0 in Hgap.
  (* every multiple lies at or below [val1], or at or above [val2] *)
  assert (Hfar : forall c : Z,
             Qabs (ltp - inject_Z (c * n)) == ltp - inject_Z (c * n)
             /\ inject_Z (c * n) <= val1
             \/ Qabs (ltp - inject_Z (c * n)) == - (ltp - inject_Z (c * n))
                /\ val2 <= inject_Z (c * n)).
  { intro c. destruct (Z_le_gt_dec c f) as [Hc|Hc].
    - left.
      assert (H : inject_Z (c * n) <= val1)
        by (rewrite E1, <- Zle_Qle; nia).
      split; [apply Qabs_pos; lra|exact H].
    - right.
      assert (H : val2 <= inject_Z (c * n))
        by (rewrite E2, <- Zle_Qle; nia).
      split; [apply Qabs_neg; lra|exact H]. }
  destruct (Py.ltb (Py.abs (ltp - val1)) (Py.abs (ltp - val2))) eqn:Htest.
  - apply ltb_lt in Htest. unfold Py.abs in Htest.
    exists (f * n)%Z. split; [now rewrite (int_of_integer val1 (f * n) E1)|].
    split; [now exists f|]. intro c.
    assert (A : Qabs (ltp - inject_Z (f * n)) == ltp - val1)
      by (rewrite <- E1; exact A1).
    destruct (Hfar c) as [[Hc Hle]|[Hc Hle]]; lra.
  - apply ltb_ge in Htest. unfold Py.abs in Htest.
    exists (c0 * n)%Z. split; [now rewrite (int_of_integer val2 (c0 * n) E2)|].
    split; [now exists c0|]. intro c.
    assert (A : Qabs (ltp - inject_Z (c0 * n)) == - (ltp - val2))
      by (rewrite <- E2; exact A2).
    destruct (Hfar c) as [[Hc Hle]|[Hc Hle]]; lra.
Qed.

(** [int] of a non-negative float is its floor. *)
Lemma int_of_floor (q : Q) : 0 <= q -> Py.int_of q = Qfloor q.
Proof.
  destruct q as [a b]. unfold Qle, Py.int_of, Qfloor. simpl. intro H.
  apply Z.quot_div_nonneg; lia.
Qed.

(** The rounding with [math.fmod] of the original script, for an even
    interval [2 * h]: the result is a nearest multiple. *)
Lemma fmod_rounding_nearest (ltp : Q) (h : Z) :
  0 <= ltp -> (0 < h)%Z ->
  let n := (2 * h)%Z in
  let val2 := Py.fmod ltp (inject_Z n) in
  let val3 := if Qle_bool (inject_Z h) val2 then inject_Z n else 0 in
  exists k : Z,
    Py.int_of (ltp - val2 + val3) = k
    /\ (exists c : Z, k = (c * n)%Z)
    /\ forall c : Z,
         Qabs (ltp - inject_Z k) <= Qabs (ltp - inject_Z (c * n)).
Proof.
  intros Hltp Hh n val2 val3.
  assert (Hn : (0 < n)%Z) by (unfold n; lia).
  pose proof (inject_Z_pos n Hn) as Hq.
  set (f := Qfloor (ltp / inject_Z n)).
  assert (Hdiv : 0 <= ltp / inject_Z n).
  { apply Qle_shift_div_l; [exact Hq|]. lra. }
  assert (Hval2 : val2 == ltp - inject_Z (f * n)).
  { unfold val2, Py.fmod. rewrite (int_of_floor _ Hdiv). fold f.
    rewrite inject_Z_mult. ring. }
  assert (Hlo : inject_Z (f * n) <= ltp).
  { rewrite inject_Z_mult. apply (le_div_iff ltp (inject_Z n) f Hq).
    apply Qfloor_le. }
  assert (Hhi : ltp < inject_Z ((f + 1) * n)).
  { rewrite inject_Z_mult.
    pose proof (Qlt_floor (ltp / inject_Z n)) as H. fold f in H.
    apply (Qmult_lt_r _ _ (inject_Z n) Hq) in H.
    now rewrite (div_mul_cancel ltp (inject_Z n) Hq) in H. }
  assert (Hstep : inject_Z ((f + 1) * n) == inject_Z (f * n) + inject_Z n)
    by (rewrite <- inject_Z_plus; apply inject_Z_injective; lia).
  assert (Hhalf : inject_Z n == inject_Z h + inject_Z h)
    by (rewrite <- inject_Z_plus; apply inject_Z_injective; unfold n; lia).
  assert (Hfar : forall c : Z,
             Qabs (ltp - inject_Z (c * n)) == ltp - inject_Z (c * n)
             /\ inject_Z (c * n) <= inject_Z (f * n)
             \/ Qabs (ltp - inject_Z (c * n)) == - (ltp - inject_Z (c * n))
                /\ inject_Z ((f + 1) * n) <= inject_Z (c * n)).
  { intro c. destruct (Z_le_gt_dec c f) as [Hc|Hc].
    - left.
      assert (H : inject_Z (c * n) <= inject_Z (f * n))
        by (rewrite <- Zle_Qle; nia).
      split; [apply Qabs_pos; lra|exact H].
    - right.
      assert (H : inject_Z ((f + 1) * n) <= inject_Z (c * n))
        by (rewrite <- Zle_Qle; nia).
      split; [apply Qabs_neg; lra|exact H]. }
  unfold val3. destruct (Qle_bool (inject_Z h) val2) eqn:Htest.
  - apply Qle_bool_iff in Htest.
    exists ((f + 1) * n)%Z.
    split; [apply int_of_integer; lra|]. split; [now exists (f + 1)%Z|].
    intro c.
    assert (A : Qabs (ltp - inject_Z ((f + 1) * n))
                == - (ltp - inject_Z ((f + 1) * n)))
      by (apply Qabs_neg; lra).
    destruct (Hfar c) as [[Hc Hle]|[Hc Hle]]; lra.
  - assert (Hlt : val2 < inject_Z h).
    { apply Qnot_le_lt. intro H. apply Qle_bool_iff in H. congruence. }
    exists (f * n)%Z.
    split; [apply int_of_integer; lra|]. split; [now exists f|].
    intro c.
    assert (A : Qabs (ltp - inject_Z (f * n)) == ltp - inject_Z (f * n))
      by (apply Qabs_pos; lra).
    destruct (Hfar c) as [[Hc Hle]|[Hc Hle]]; lra.
Qed.

(** The original script rounds a non-negative LTP of NIFTY to a nearest
    multiple of 50 and one of BANKNIFTY to a nearest multiple of 100. *)
Lemma v1_atm_strike_index_nearest (ltp : Q) (strike_intervals : gmap string Q) :
  0 <= ltp ->
  (exists k : Z,
     V1.calculate_atm_strike ltp "NIFTY" strike_intervals = Some k
     /\ (exists c : Z, k = (c * 50)%Z)
     /\ forall c : Z, Qabs (ltp - inject_Z k) <= Qabs (ltp - inject_Z (c * 50)))
  /\ (exists k : Z,
        V1.calculate_atm_strike ltp "BANKNIFTY" strike_intervals = Some k
        /\ (exists c : Z, k = (c * 100)%Z)
        /\ forall c : Z,
             Qabs (ltp - inject_Z k) <= Qabs (ltp - inject_Z (c * 100))).
Proof.
  intro Hltp. split.
  - destruct (fmod_rounding_nearest ltp 25 Hltp eq_refl) as (k & Hk & Hrest).
    exists k. split; [|exact Hrest].
    unfold V1.calculate_atm_strike. cbn [String.eqb Ascii.eqb Bool.eqb].
    f_equal. exact Hk.
  - destruct (fmod_rounding_nearest ltp 50 Hltp eq_refl) as (k & Hk & Hrest).
    exists k. split; [|exact Hrest].
    unfold V1.calculate_atm_strike. cbn [String.eqb Ascii.eqb Bool.eqb].
    f_equal. exact Hk.
Qed.

(** C9: for a positive LTP and a symbol whose strike interval is the
    positive integer [n], the optimized calculator returns the least
    multiple of [n] that is greater than or equal to the LTP; in
    particular the strike is not below the LTP. *)
Theorem v2_atm_strike_least_multiple (ltp i : Q) (n : Z) (symbol : string)
    (intervals : gmap string Q) :
  0 < ltp ->
  intervals !! Py.upper symbol = Some i -> i == inject_Z n -> (0 < n)%Z ->
  let k := V2.calculate_atm_strike ltp symbol intervals in
  (exists c : Z, k = (c * n)%Z)
  /\ ltp <= inject_Z k
  /\ (forall c : Z, ltp <= inject_Z (c * n) -> (k <= c * n)%Z).
Proof.
  intros _ Hi Hin Hn k. subst k.
  rewrite (v2_strike_integer_interval ltp i n symbol intervals Hi Hin Hn).
  pose proof (inject_Z_pos n Hn) as Hq.
  split; [eexists; reflexivity|]. split.
  - rewrite inject_Z_mult. apply div_le_iff; [assumption|]. apply Qle_ceiling.
  - intros c Hc. rewrite inject_Z_mult in Hc.
    apply div_le_iff in Hc; [|assumption].
    apply ceiling_least in Hc. nia.
Qed.

Lemma v2_atm_strike_least_multiple_witness :
  0 < 101
  /\ V2.get_default_intervals !! Py.upper "nifty" = Some 50
  /\ 50 == inject_Z 50 /\ (0 < 50)%Z
  /\ (exists c : Z,
        V2.calculate_atm_strike 101 "nifty" V2.get_default_intervals = (c * 50)%Z)
  /\ 101 <= inject_Z (V2.calculate_atm_strike 101 "nifty" V2.get_default_intervals)
  /\ (forall c : Z, 101 <= inject_Z (c * 50) ->
        (V2.calculate_atm_strike 101 "nifty" V2.get_default_intervals <= c * 50)%Z).
Proof.
  assert (H1 : 0 < 101) by reflexivity.
  assert (H2 : V2.get_default_intervals !! Py.upper "nifty" = Some 50)
    by reflexivity.
  assert (H3 : 50 == inject_Z 50) by reflexivity.
  assert (H4 : (0 < 50)%Z) by reflexivity.
  repeat (split; [assumption|]).
  exact (v2_atm_strike_least_multiple 101 50 50 "nifty"
           V2.get_default_intervals H1 H2 H3 H4).
Defined.

(** C1, on the optimized script: at LTP 101 with the default interval 50
    of NIFTY the calculator returns 150, although the multiple 100 of the
    interval is strictly nearer to the LTP; the original script returns
    100 on the same input. *)
Theorem v2_atm_strike_not_nearest :
  V2.calculate_atm_strike 101 "NIFTY" V2.get_default_intervals = 150%Z
  /\ Qabs (101 - inject_Z (2 * 50)) < Qabs (101 - inject_Z 150)
  /\ V1.calculate_atm_strike 101 "NIFTY" V2.get_default_intervals = Some 100%Z.
Proof. repeat split. Qed.

End AtmStrike.

(** ** The margin filter *)

Section MarginFilter.

Local Open Scope Q_scope.

Implicit Types (r : result) (results : list result) (margin_filter : Q).

Lemma within_limit_spec margin_filter (m : Q) :
  within_limit margin_filter m = true <-> leg_within_limit margin_filter m.
Proof.
  unfold within_limit, leg_within_limit.
  now rewrite andb_true_iff, ltb_lt, Qle_bool_iff.
Qed.

Lemma filter_by_margin_unfold margin_filter results :
  App.filter_by_margin margin_filter results
  = List.filter (keeps margin_filter) results.
Proof.
  induction results as [|r rest IH]; simpl; [reflexivity|].
  unfold keeps at 1. now rewrite IH.
Qed.

(** Both scripts filter in the same way. *)
Lemma filter_by_margin_v1 margin_filter results :
  V1.filter_by_margin margin_filter results
  = App.filter_by_margin margin_filter results.
Proof. reflexivity. Qed.

Lemma filter_by_margin_In margin_filter results r :
  In r (App.filter_by_margin margin_filter results)
  <-> In r results /\ keeps margin_filter r = true.
Proof. rewrite filter_by_margin_unfold. apply filter_In. Qed.

Lemma keeps_spec margin_filter r :
  keeps margin_filter r = true
  <-> leg_within_limit margin_filter (ce_margin r)
      \/ leg_within_limit margin_filter (pe_margin r).
Proof.
  unfold keeps. now rewrite orb_true_iff, !within_limit_spec.
Qed.

(** C4 as stated fails: a result with both margins 0 is strictly below
    the threshold 20000 and is not reported. *)
Lemma filter_by_margin_below_threshold_counterexample :
  ~ (forall margin_filter results r,
       In r (App.filter_by_margin margin_filter results)
       <-> In r results
           /\ (ce_margin r < margin_filter \/ pe_margin r < margin_filter)).
Proof.
  intro H.
  specialize (H 20000 [no_quote_result] no_quote_result).
  destruct H as [_ H]. simpl in H.
  destruct H as []. split; [now left|]. left. reflexivity.
Qed.

(** C4, amended: in both scripts a result is reported exactly when it is
    in the input and one of its two legs has a margin that is positive
    and at most the threshold. *)
Theorem filter_by_margin_reports margin_filter results r :
  (In r (App.filter_by_margin margin_filter results)
   <-> In r results
       /\ (leg_within_limit margin_filter (ce_margin r)
           \/ leg_within_limit margin_filter (pe_margin r)))
  /\ (In r (V1.filter_by_margin margin_filter results)
      <-> In r results
          /\ (leg_within_limit margin_filter (ce_margin r)
              \/ leg_within_limit margin_filter (pe_margin r))).
Proof.
  assert (H : In r (App.filter_by_margin margin_filter results)
              <-> In r results
                  /\ (leg_within_limit margin_filter (ce_margin r)
                      \/ leg_within_limit margin_filter (pe_margin r))).
  { rewrite filter_by_margin_In. now rewrite keeps_spec. }
  split; [exact H|].
  now rewrite (filter_by_margin_v1 margin_filter results).
Qed.

(** C10: in both scripts filtering is idempotent and its output is a
    subsequence of its input. *)
Theorem filter_by_margin_idempotent_sublist margin_filter results :
  App.filter_by_margin margin_filter
    (App.filter_by_margin margin_filter results)
  = App.filter_by_margin margin_filter results
  /\ sublist (App.filter_by_margin margin_filter results) results
  /\ V1.filter_by_margin margin_filter
       (V1.filter_by_margin margin_filter results)
     = V1.filter_by_margin margin_filter results
  /\ sublist (V1.filter_by_margin margin_filter results) results.
Proof.
  change (V1.filter_by_margin margin_filter
            (V1.filter_by_margin margin_filter results))
    with (App.filter_by_margin margin_filter
            (App.filter_by_margin margin_filter results)).
  change (V1.filter_by_margin margin_filter results)
    with (App.filter_by_margin margin_filter results).
  assert (Hidem : App.filter_by_margin margin_filter
                    (App.filter_by_margin margin_filter results)
                  = App.filter_by_margin margin_filter results).
  { induction results as [|r rest IH]; cbn [App.filter_by_margin];
      [reflexivity|].
    destruct (within_limit margin_filter (ce_margin r)
              || within_limit margin_filter (pe_margin r)) eqn:E.
    - cbn [App.filter_by_margin]. rewrite E. now rewrite IH.
    - exact IH. }
  assert (Hsub : sublist (App.filter_by_margin margin_filter results) results).
  { clear Hidem.
    induction results as [|r rest IH]; cbn [App.filter_by_margin];
      [constructor|].
    destruct (within_limit margin_filter (ce_margin r)
              || within_limit margin_filter (pe_margin r)).
    - now apply sublist_skip.
    - now apply sublist_cons. }
  auto.
Qed.

End MarginFilter.

(** ** Exceptions, sentinels and the loop over the instruments *)

Section EffFacts.

Import Eff.

Lemma extends_refl (w : world) : extends w w.
Proof. exists []. now rewrite app_nil_r. Qed.

Lemma extends_trans (w1 w2 w3 : world) :
  extends w1 w2 -> extends w2 w3 -> extends w1 w3.
Proof.
  intros [l1 H1] [l2 H2]. exists (l1 ++ l2)%list.
  rewrite H2, H1. now rewrite app_assoc.
Qed.

Lemma extends_logged (line : string) (w : world) : extends w (logged line w).
Proof. now exists [line]. Qed.

Lemma extends_served (w : world) : extends w (served w).
Proof. exists []. simpl. now rewrite app_nil_r. Qed.


Context {A B : Type}.

Lemma log_preserving_ret (a : A) : log_preserving (ret a).
Proof. intro w. apply extends_refl. Qed.

Lemma log_preserving_raise (e : exn) : log_preserving (@raise A e).
Proof. intro w. apply extends_refl. Qed.

Lemma log_preserving_lift (r : exn + A) : log_preserving (lift r).
Proof. destruct r; intro w; apply extends_refl. Qed.

Lemma log_preserving_exchange (server : nat -> exn + A) :
  log_preserving (exchange server).
Proof.
  intro w. unfold exchange.
  destruct (server (requests w)); apply extends_served.
Qed.

Lemma log_preserving_bind (m : M A) (k : A -> M B) :
  log_preserving m -> (forall a, log_preserving (k a)) ->
  log_preserving (bind m k).
Proof.
  intros Hm Hk w. unfold bind.
  specialize (Hm w). destruct (m w) as [[a|e] w1]; simpl in *.
  - eapply extends_trans; [exact Hm|]. apply Hk.
  - exact Hm.
Qed.

Lemma log_preserving_try_except (body : M A) (handler : exn -> M A) :
  log_preserving body -> (forall e, log_preserving (handler e)) ->
  log_preserving (try_except body handler).
Proof.
  intros Hm Hk w. unfold try_except.
  specialize (Hm w). destruct (body w) as [[a|e] w1]; simpl in *.
  - exact Hm.
  - eapply extends_trans; [exact Hm|]. apply Hk.
Qed.

(** A [try] whose handler returns never lets an exception out. *)
Lemma never_raises_try_except (body : M A) (handler : exn -> M A) :
  (forall e, never_raises (handler e)) ->
  never_raises (try_except body handler).
Proof.
  intros Hh w. unfold try_except.
  destruct (body w) as [[a|e] w1]; [now exists a, w1|]. apply Hh.
Qed.

Lemma never_raises_print_ret (line : string) (a : A) :
  never_raises (bind (print line) (fun _ => ret a)).
Proof. intro w. now exists a, (logged line w). Qed.

End EffFacts.

Lemma log_preserving_print (line : string) : log_preserving (Eff.print line).
Proof. intro w. apply extends_logged. Qed.

Lemma log_preserving_get_world : log_preserving Eff.get_world.
Proof. intro w. apply extends_refl. Qed.

Lemma log_preserving_set_access_token (t : option string) :
  log_preserving (Eff.set_access_token t).
Proof. intro w. exists []. simpl. now rewrite app_nil_r. Qed.

Lemma log_preserving_set_model (t : string) :
  log_preserving (Eff.set_model t).
Proof. intro w. exists []. simpl. now rewrite app_nil_r. Qed.

Create HintDb eff.
#[export] Hint Resolve log_preserving_ret log_preserving_raise
  log_preserving_lift log_preserving_exchange log_preserving_print
  log_preserving_get_world log_preserving_set_access_token
  log_preserving_set_model : eff.

(** Breaks a computation into its steps. *)
Ltac log_steps :=
  repeat first
    [ apply log_preserving_bind; [|intro]
    | apply log_preserving_try_except; [|intro]
    | progress auto with eff
    | match goal with
      | |- log_preserving (if ?b then _ else _) => destruct b
      | |- log_preserving (match ?x with _ => _ end) => destruct x
      end ].

Section Pipeline.

Import Eff.

Variable parse_float : string -> option Q.
Variable parse_int : string -> option Z.
Variable dict_reader : list string -> list App.row.
Variable read_file : string -> option (exn + list string).
Variable auth_server : nat -> exn + string.
Variable quote_server : string -> nat -> exn + Json.t.
Variable now : Date.date.

Local Abbreviation get_ltp := (App.get_ltp parse_float auth_server quote_server).
Local Abbreviation get_ltp_body := (App.get_ltp_body parse_float auth_server quote_server).
Local Abbreviation initialize_fyers_model := (App.initialize_fyers_model auth_server).
Local Abbreviation process_symbol_with := (App.process_symbol_with now).
Local Abbreviation process_symbol_body := (App.process_symbol_body now).
Local Abbreviation process_all_with := (App.process_all_with now).
Local Abbreviation read_symbols_from_csv :=
  (App.read_symbols_from_csv parse_int dict_reader read_file).

Lemma generate_access_token_log : log_preserving (App.generate_access_token auth_server).
Proof. unfold App.generate_access_token. log_steps. Qed.

Lemma initialize_fyers_model_log : log_preserving initialize_fyers_model.
Proof.
  unfold App.initialize_fyers_model. log_steps.
Qed.

Lemma get_ltp_log (symbol : string) : log_preserving (get_ltp symbol).
Proof.
  unfold App.get_ltp, App.get_ltp_body. log_steps.
Qed.


Lemma process_symbol_never_raises (fetch : string -> M Q)
    (strike_intervals : gmap string Q) (symbol : string) (lot_size : Z) :
  never_raises (process_symbol_with fetch strike_intervals symbol lot_size).
Proof.
  unfold App.process_symbol_with. apply never_raises_try_except.
  intro e. apply never_raises_print_ret.
Qed.


(** One turn of the loop of [run]: whatever [process_symbol] returned,
    the loop goes on with the remaining instruments. *)
Lemma process_all_step (fetch : string -> M Q)
    (strike_intervals : gmap string Q) (symbol : string) (lot_size : Z)
    (rest : list (string * Z)) (all_results : list result) (w : world)
    (r : option result) (w1 : world) :
  process_symbol_with fetch strike_intervals symbol lot_size w = (Ret r, w1) ->
  process_all_with fetch strike_intervals ((symbol, lot_size) :: rest)
    all_results w
  = process_all_with fetch strike_intervals rest
      (match r with
       | Some res => all_results ++ [res]
       | None => all_results
       end) w1.
Proof.
  intro Hr. cbn [App.process_all_with]. unfold bind at 1. now rewrite Hr.
Qed.

Lemma process_all_never_raises (fetch : string -> M Q)
    (strike_intervals : gmap string Q) (symbols : list (string * Z)) :
  forall all_results,
    never_raises (process_all_with fetch strike_intervals symbols all_results).
Proof.
  induction symbols as [|[symbol lot_size] rest IH]; intros acc w.
  - now exists acc, w.
  - cbn [App.process_all_with]. unfold bind at 1.
    destruct (process_symbol_never_raises fetch strike_intervals symbol
                lot_size w) as (r & w1 & Hr).
    rewrite Hr. apply IH.
Qed.


(** In an authenticated session, an exception of the quote call or of
    the reading of its response ends [get_ltp] with 0.0 and one more
    printed line. *)
Lemma get_ltp_error (symbol : string) (w : world) (e : exn) :
  authenticated w = true ->
  (response <- quote_server symbol (requests w) ;;
   App.quote_ltp parse_float response)%exn = inl e ->
  get_ltp symbol w
  = (Ret 0%Q,
     logged ("❌ Error fetching LTP for " ++ symbol ++ ": " ++ exn_message e)
            (served w)).
Proof.
  intros Hauth Herr.
  unfold App.get_ltp, try_except, App.get_ltp_body.
  unfold bind at 1. unfold App.initialize_fyers_model.
  unfold bind at 1. unfold get_world. rewrite Hauth.
  cbn [ret negb]. unfold bind at 1. unfold exchange.
  unfold and_then in Herr.
  destruct (quote_server symbol (requests w)) as [e'|response].
  - inversion Herr; subst e'. reflexivity.
  - unfold lift. rewrite Herr. reflexivity.
Qed.

(** C2: the margin of the optimized path is the price of the contract
    times the lot size, and a result of [process_symbol] carries, for each
    leg, that product when the leg's LTP is positive and 0 otherwise. *)
Theorem margin_is_price_times_lot_size (fetch : string -> M Q)
    (strike_intervals : gmap string Q) (symbol : string) (lot_size : Z)
    (w w' : world) (r : result) :
  process_symbol_with fetch strike_intervals symbol lot_size w
  = (Ret (Some r), w') ->
  (forall (p : Q) (l : Z), V2.calculate_margin p l = (p * inject_Z l)%Q)
  /\ ((0 < ce_ltp r)%Q ->
      ce_margin r = V2.calculate_margin (ce_ltp r) lot_size)
  /\ ((ce_ltp r <= 0)%Q -> ce_margin r = 0%Q)
  /\ ((0 < pe_ltp r)%Q ->
      pe_margin r = V2.calculate_margin (pe_ltp r) lot_size)
  /\ ((pe_ltp r <= 0)%Q -> pe_margin r = 0%Q).
Proof.
  intro Hrun. split; [reflexivity|].
  unfold App.process_symbol_with, try_except, App.process_symbol_body in Hrun.
  unfold bind at 1 in Hrun. unfold print at 1 in Hrun.
  unfold bind at 1 in Hrun.
  destruct (fetch _ _) as [[ltp|e] w1]; [|discriminate Hrun].
  destruct (Qle_bool ltp 0); [discriminate Hrun|].
  unfold bind at 1 in Hrun. unfold print at 1 in Hrun.
  unfold bind at 1 in Hrun.
  destruct (fetch _ _) as [[ce|e] w2]; [|discriminate Hrun].
  unfold bind at 1 in Hrun.
  destruct (fetch _ _) as [[pe|e] w3]; [|discriminate Hrun].
  inversion Hrun; subst; clear Hrun. cbn [ce_ltp ce_margin pe_ltp pe_margin].
  repeat split; intro H.
  - apply ltb_lt in H. now rewrite H.
  - apply ltb_ge in H. now rewrite H.
  - apply ltb_lt in H. now rewrite H.
  - apply ltb_ge in H. now rewrite H.
Qed.

End Pipeline.

Lemma margin_is_price_times_lot_size_witness :
  App.process_symbol_with Sample.now Sample.get_ltp Sample.intervals
    "RELIANCE" 500 Sample.start
  = (Eff.Ret (Some Sample.reliance), Sample.after_reliance)
  /\ (forall (p : Q) (l : Z), V2.calculate_margin p l = (p * inject_Z l)%Q)
  /\ ((0 < ce_ltp Sample.reliance)%Q ->
      ce_margin Sample.reliance
      = V2.calculate_margin (ce_ltp Sample.reliance) 500)
  /\ ((ce_ltp Sample.reliance <= 0)%Q -> ce_margin Sample.reliance = 0%Q)
  /\ ((0 < pe_ltp Sample.reliance)%Q ->
      pe_margin Sample.reliance
      = V2.calculate_margin (pe_ltp Sample.reliance) 500)
  /\ ((pe_ltp Sample.reliance <= 0)%Q -> pe_margin Sample.reliance = 0%Q).
Proof.
  assert (H : App.process_symbol_with Sample.now Sample.get_ltp
                Sample.intervals "RELIANCE" 500 Sample.start
              = (Eff.Ret (Some Sample.reliance), Sample.after_reliance))
    by (vm_compute; reflexivity).
  split; [exact H|].
  exact (margin_is_price_times_lot_size Sample.now Sample.get_ltp
           Sample.intervals "RELIANCE" 500 Sample.start Sample.after_reliance
           Sample.reliance H).
Defined.

(** ** Identifiers *)

Section Identifiers.

Lemma option_mapping_underlying (name : string) :
  V2.table_get V2.option_mapping name name = underlying_name name.
Proof.
  unfold V2.option_mapping, underlying_name. cbn [V2.table_get].
  repeat match goal with
         | |- context [String.eqb name ?k] =>
             destruct (String.eqb_spec name k) as [->|?]; try reflexivity
         end.
Qed.

Lemma index_mapping_known (name fallback : string) :
  V2.table_get V2.index_mapping name fallback
  = default fallback (known_index name).
Proof.
  unfold V2.index_mapping, known_index. cbn [V2.table_get].
  repeat match goal with
         | |- context [String.eqb name ?k] =>
             destruct (String.eqb name k); try reflexivity
         end.
Qed.

(** C7: the option-contract identifier is "NSE:", the name of the
    underlying, the expiry code, the strike and the option type, in this
    order; the quote-lookup identifier of one of the six index names is
    its fixed index identifier, and that of any other name is
    "NSE:<SYMBOL>-EQ".  Names are compared in upper case. *)
Theorem identifiers_are_concatenations (now : Date.date)
    (base_symbol : string) (strike : Z) (option_type symbol : string) :
  V2.create_option_symbol now base_symbol strike option_type
  = ("NSE:" ++ underlying_name (Py.upper base_symbol)
     ++ V2.get_expiry_code now base_symbol
     ++ Py.str_int strike ++ option_type)%string
  /\ V2.convert_symbol_to_fyers_format symbol
     = match known_index (Py.upper symbol) with
       | Some identifier => identifier
       | None => ("NSE:" ++ Py.upper symbol ++ "-EQ")%string
       end
  /\ map (fun name => (name, known_index name))
         ["NIFTY"; "BANKNIFTY"; "FINNIFTY"; "MIDCPNIFTY"; "NIFTY NEXT 50";
          "SENSEX"]
     = [("NIFTY", Some "NSE:NIFTY50-INDEX");
        ("BANKNIFTY", Some "NSE:NIFTYBANK-INDEX");
        ("FINNIFTY", Some "NSE:FINNIFTY-INDEX");
        ("MIDCPNIFTY", Some "NSE:MIDCPNIFTY-INDEX");
        ("NIFTY NEXT 50", Some "NSE:NIFTYNXT50-INDEX");
        ("SENSEX", Some "BSE:SENSEX-INDEX")]
  /\ (~ In (Py.upper symbol)
          ["NIFTY"; "BANKNIFTY"; "FINNIFTY"; "MIDCPNIFTY"; "NIFTY NEXT 50";
           "SENSEX"] ->
      known_index (Py.upper symbol) = None).
Proof.
  split.
  { unfold V2.create_option_symbol. now rewrite option_mapping_underlying. }
  split.
  { unfold V2.convert_symbol_to_fyers_format.
    rewrite index_mapping_known. now destruct (known_index _). }
  split; [reflexivity|].
  intro Hnot. unfold known_index.
  repeat match goal with
         | |- context [String.eqb ?n ?k] =>
             destruct (String.eqb_spec n k) as [Heq|?];
               [exfalso; apply Hnot; rewrite Heq; simpl; tauto|]
         end.
  reflexivity.
Qed.

End Identifiers.

(** ** The calendar *)

Section Calendar.

Import Date.

Lemma days_in_month_bounds (y : Z) (m : month) : 28 <= days_in_month y m <= 31.
Proof. destruct m; simpl; try lia; destruct (is_leap y); lia. Qed.

Lemma days_before_year_succ (y : Z) :
  days_before_year (y + 1)
  = days_before_year y + (if is_leap y then 366 else 365).
Proof.
  unfold days_before_year, is_leap.
  replace (y + 1 - 1) with y by lia.
  destruct (Z.eqb_spec (y mod 4) 0), (Z.eqb_spec (y mod 100) 0),
    (Z.eqb_spec (y mod 400) 0); simpl; Z.div_mod_to_equations; lia.
Qed.

Lemma eqb_eq (a b : date) : Date.eqb a b = true <-> a = b.
Proof.
  unfold Date.eqb, month_eqb. rewrite !andb_true_iff, !Z.eqb_eq.
  destruct a as [y1 m1 d1], b as [y2 m2 d2]; simpl. split.
  - intros [[-> Hm] ->]. f_equal. destruct m1, m2; simpl in Hm; congruence.
  - intro H. inversion H. auto.
Qed.

Lemma toordinal_first_of_next_month (d : date) :
  toordinal (first_of_next_month d)
  = toordinal (mkDate (year d) (mon d) (days_in_month (year d) (mon d))) + 1.
Proof.
  destruct d as [y m dd]. unfold first_of_next_month, toordinal. simpl.
  destruct m; simpl; rewrite ?days_before_year_succ;
    unfold days_before_month, days_in_month; destruct (is_leap y); lia.
Qed.

Lemma next_day_cases (d : date) :
  valid d ->
  (day d < days_in_month (year d) (mon d)
   /\ next_day d = mkDate (year d) (mon d) (day d + 1))
  \/ (day d = days_in_month (year d) (mon d)
      /\ next_day d = first_of_next_month d).
Proof.
  intros [Hy Hd]. unfold next_day.
  destruct (Z.ltb_spec (day d) (days_in_month (year d) (mon d))).
  - left. now split.
  - right. split; [lia|]. unfold first_of_next_month. now destruct (mon d).
Qed.

Lemma valid_first_of_next_month (d : date) :
  valid d -> valid (first_of_next_month d).
Proof.
  intros [Hy Hd]. unfold first_of_next_month.
  destruct (mon d) eqn:E; split; cbn [year mon day next_month]; try lia;
    match goal with
    | |- _ <= _ <= days_in_month ?y ?m =>
        pose proof (days_in_month_bounds y m); lia
    end.
Qed.

Lemma valid_next_day (d : date) : valid d -> valid (next_day d).
Proof.
  intro Hv. destruct (next_day_cases d Hv) as [[Hlt ->]|[_ ->]].
  - destruct Hv as [Hy Hd]. split; simpl; lia.
  - now apply valid_first_of_next_month.
Qed.

Lemma toordinal_next_day (d : date) :
  valid d -> toordinal (next_day d) = toordinal d + 1.
Proof.
  intro Hv. destruct (next_day_cases d Hv) as [[Hlt ->]|[Heq ->]].
  - unfold toordinal. simpl. lia.
  - rewrite toordinal_first_of_next_month. unfold toordinal. simpl. lia.
Qed.

Lemma add_days_succ (n : nat) (d : date) :
  add_days (S n) d = next_day (add_days n d).
Proof. reflexivity. Qed.

Lemma add_days_valid (n : nat) (d : date) : valid d -> valid (add_days n d).
Proof.
  intro Hv. induction n as [|n IH]; [exact Hv|].
  rewrite add_days_succ. now apply valid_next_day.
Qed.

Lemma toordinal_add_days (n : nat) (d : date) :
  valid d -> toordinal (add_days n d) = toordinal d + Z.of_nat n.
Proof.
  intro Hv. induction n as [|n IH]; [simpl; lia|].
  rewrite add_days_succ, toordinal_next_day by now apply add_days_valid.
  lia.
Qed.

(** Adding less than four weeks stays in the month or lands in the next
    one. *)
Lemma add_days_shape (n : nat) (d : date) :
  valid d -> (n <= 27)%nat ->
  (day d + Z.of_nat n <= days_in_month (year d) (mon d)
   /\ add_days n d = mkDate (year d) (mon d) (day d + Z.of_nat n))
  \/ (days_in_month (year d) (mon d) < day d + Z.of_nat n
      /\ year (add_days n d) = year (first_of_next_month d)
      /\ mon (add_days n d) = mon (first_of_next_month d)
      /\ day (add_days n d)
         = day d + Z.of_nat n - days_in_month (year d) (mon d)).
Proof.
  intros Hv. induction n as [|n IH]; intro Hn.
  - left. split; [destruct Hv; lia|].
    destruct d as [y m dd]. unfold add_days. simpl. f_equal. lia.
  - rewrite add_days_succ. rewrite Nat2Z.inj_succ.
    pose proof (add_days_valid n d Hv) as Hvn.
    destruct IH as [[Hle Heq]|(Hlt & Hy & Hm & Hd)]; [lia| |].
    + destruct (next_day_cases _ Hvn) as [[Hlt' ->]|[Heq' ->]];
        rewrite Heq in *; cbn [year mon day] in *.
      * left. split; [lia|]. f_equal. lia.
      * right. split; [lia|].
        unfold first_of_next_month. cbn [year mon day].
        split; [reflexivity|]. split; [reflexivity|].
        destruct (mon d); cbn [day]; lia.
    + right. split; [lia|].
      pose proof (days_in_month_bounds (year (first_of_next_month d))
                    (mon (first_of_next_month d))) as Hb.
      destruct (next_day_cases _ Hvn) as [[Hlt' ->]|[Heq' _]].
      * cbn [year mon day]. repeat split; try assumption. lia.
      * rewrite Hy, Hm, Hd in Heq'. destruct Hv as [_ Hdd].
        pose proof (days_in_month_bounds (year d) (mon d)). lia.
Qed.

Lemma weekday_bounds (d : date) : 0 <= weekday d < 7.
Proof. unfold weekday. apply Z.mod_pos_bound. lia. Qed.

(** [next_thursday] is a Thursday, on or after the date and less than a
    week later. *)
Lemma next_thursday_spec (now : date) :
  valid now ->
  valid (next_thursday now)
  /\ weekday (next_thursday now) = TH
  /\ toordinal now <= toordinal (next_thursday now) < toordinal now + 7.
Proof.
  intro Hv. unfold next_thursday.
  set (k := (7 - weekday now + TH) mod 7).
  assert (Hk : 0 <= k < 7) by (apply Z.mod_pos_bound; lia).
  split; [now apply add_days_valid|].
  assert (Hord : toordinal (add_days (Z.to_nat k) now) = toordinal now + k)
    by (rewrite toordinal_add_days by assumption; lia).
  split; [|lia].
  unfold weekday at 1. rewrite Hord. subst k. unfold weekday, TH.
  Z.div_mod_to_equations. lia.
Qed.

(** [last_thursday] is a Thursday of the month of the date, in its last
    seven days. *)
Lemma last_thursday_spec (now : date) :
  valid now ->
  year (last_thursday now) = year now
  /\ mon (last_thursday now) = mon now
  /\ weekday (last_thursday now) = TH
  /\ days_in_month (year now) (mon now) - 7 < day (last_thursday now)
     <= days_in_month (year now) (mon now).
Proof.
  intro Hv. unfold last_thursday. cbn [year mon day].
  set (eom := mkDate (year now) (mon now) (days_in_month (year now) (mon now))).
  set (j := (weekday eom - TH) mod 7).
  assert (Hj : 0 <= j < 7) by (apply Z.mod_pos_bound; lia).
  split; [reflexivity|]. split; [reflexivity|]. split; [|lia].
  unfold weekday at 1. unfold toordinal. cbn [year mon day].
  assert (Heom : weekday eom
                 = (days_before_year (year now)
                    + days_before_month (year now) (mon now)
                    + days_in_month (year now) (mon now) + 6) mod 7)
    by reflexivity.
  subst j. rewrite Heom. unfold TH. Z.div_mod_to_equations. lia.
Qed.

(** The test of both scripts, [next_thursday.date() == last_thursday.date()],
    holds exactly when the next Thursday is the last Thursday of its own
    month. *)
Lemma next_is_last_thursday (now : date) :
  valid now ->
  (Date.eqb (next_thursday now) (last_thursday now) = true
   <-> last_thursday_of_its_month (next_thursday now)).
Proof.
  intro Hv. rewrite eqb_eq.
  destruct (next_thursday_spec now Hv) as (Hvn & Hwd & Hord).
  destruct (last_thursday_spec now Hv) as (Hy & Hm & Hwl & Hdl).
  unfold last_thursday_of_its_month. split.
  - intro Heq. split; [exact Hwd|]. rewrite Heq, Hy, Hm. lia.
  - intros [_ Hlate].
    unfold next_thursday in *.
    set (k := (7 - weekday now + TH) mod 7) in *.
    assert (Hk : 0 <= k < 7) by (apply Z.mod_pos_bound; lia).
    destruct (add_days_shape (Z.to_nat k) now Hv ltac:(lia))
      as [[Hle Heq]|(Hlt & Hy' & Hm' & Hd')].
    + (* same month: two Thursdays in its last seven days *)
      rewrite Heq in *. cbn [year mon day] in *.
      destruct (last_thursday now) as [yl ml dl] eqn:El.
      cbn [year mon day] in *. subst yl ml. f_equal.
      unfold weekday, toordinal in Hwd, Hwl. cbn [year mon day] in *.
      unfold TH in *. rewrite Z2Nat.id in * by lia.
      Z.div_mod_to_equations. lia.
    + (* next month: the day is at most 6 *)
      exfalso. rewrite Hy', Hm', Hd' in Hlate.
      pose proof (days_in_month_bounds (year (first_of_next_month now))
                    (mon (first_of_next_month now))).
      destruct Hv as [_ Hdd]. lia.
Qed.

End Calendar.

(** ** Expiry codes *)

Section ExpiryCodes.

Lemma append_inj_l (s a b : string) : (s ++ a)%string = (s ++ b)%string -> a = b.
Proof. induction s as [|c s IH]; simpl; [tauto|]. intro H. inversion H. auto. Qed.

(** The two-digit day of a date is made of digits. *)
Lemma pad2_day_not_letters (d : Z) :
  1 <= d <= 31 ->
  Py.pad2 d <> "CT" /\ Py.pad2 d <> "OV" /\ Py.pad2 d <> "EC".
Proof.
  intro Hd.
  assert (H : d = 1 \/ d = 2 \/ d = 3 \/ d = 4 \/ d = 5 \/ d = 6 \/ d = 7 \/ d = 8 \/ d = 9 \/ d = 10 \/ d = 11 \/ d = 12 \/ d = 13 \/ d = 14 \/ d = 15 \/ d = 16 \/ d = 17 \/ d = 18 \/ d = 19 \/ d = 20 \/ d = 21 \/ d = 22 \/ d = 23 \/ d = 24 \/ d = 25 \/ d = 26 \/ d = 27 \/ d = 28 \/ d = 29 \/ d = 30 \/ d = 31) by lia.
  repeat (destruct H as [->|H]); try subst d;
    (split; [|split]); vm_compute; discriminate.
Qed.

(** A monthly code is never a weekly code. *)
Lemma monthly_code_not_weekly (now : Date.date) (m : Date.month) (d : Z) :
  1 <= d <= 31 -> monthly_code now <> weekly_code now m d.
Proof.
  intros Hd H. unfold monthly_code, weekly_code in H.
  apply append_inj_l in H.
  destruct (pad2_day_not_letters d Hd) as (H1 & H2 & H3).
  destruct (Date.mon now), m;
    cbn [Date.month_abbr_upper fyers_month_code String.append] in H;
    try discriminate H; injection H as H4;
    change (String.append "" (Py.pad2 d)) with (Py.pad2 d) in H4;
    congruence.
Qed.

Lemma next_thursday_day_bounds (now : Date.date) :
  Date.valid now -> 1 <= Date.day (Date.next_thursday now) <= 31.
Proof.
  intro Hv. destruct (next_thursday_spec now Hv) as ([_ Hd] & _).
  pose proof (days_in_month_bounds (Date.year (Date.next_thursday now))
                (Date.mon (Date.next_thursday now))).
  lia.
Qed.

Lemma v2_code_nifty (now : Date.date) (symbol : string) :
  Py.upper symbol = "NIFTY" ->
  V2.get_expiry_code now symbol
  = if Date.eqb (Date.next_thursday now) (Date.last_thursday now)
    then monthly_code now
    else weekly_code now (Date.mon (Date.next_thursday now))
                     (Date.day (Date.next_thursday now)).
Proof. intro H. unfold V2.get_expiry_code. rewrite H. reflexivity. Qed.

Lemma v2_code_other (now : Date.date) (symbol : string) :
  Py.upper symbol <> "NIFTY" ->
  V2.get_expiry_code now symbol = monthly_code now.
Proof.
  intro H. unfold V2.get_expiry_code.
  destruct (String.eqb_spec (Py.upper symbol) "NIFTY"); [contradiction|].
  destruct (str_in _ _); [|reflexivity].
  cbv zeta. now destruct (Date.eqb _ _).
Qed.

Lemma v1_code_table (now : Date.date) (index : string) :
  In index ["NIFTY"; "BANKNIFTY"; "STOCK"] ->
  V1.get_expiry_code now index
  = if Date.eqb (Date.next_thursday now) (Date.last_thursday now)
    then monthly_code now
    else weekly_code now (Date.mon now) (Date.day (Date.next_thursday now)).
Proof.
  intros [<-|[<-|[<-|[]]]]; reflexivity.
Qed.

Lemma v1_code_other (now : Date.date) (index : string) :
  ~ In index ["NIFTY"; "BANKNIFTY"; "STOCK"] ->
  V1.get_expiry_code now index = monthly_code now.
Proof.
  intro H. unfold V1.get_expiry_code, str_in. simpl.
  destruct (String.eqb_spec index "BANKNIFTY") as [->|_];
    [exfalso; apply H; simpl; tauto|].
  destruct (String.eqb_spec index "STOCK") as [->|_];
    [exfalso; apply H; simpl; tauto|].
  destruct (String.eqb_spec index "NIFTY") as [->|_];
    [exfalso; apply H; simpl; tauto|].
  reflexivity.
Qed.

(** C5 as stated fails: on Monday 2026-01-05 the optimized calculator
    returns the monthly code 26JAN for BANKNIFTY, a symbol of its rule
    table, although the next Thursday (the 8th) is not the last Thursday
    of January (the 29th); the weekly code would be 26108. *)
Lemma expiry_code_monthly_counterexample :
  ~ (forall now symbol,
       Date.valid now ->
       let t := Date.next_thursday now in
       (V2.get_expiry_code now symbol = monthly_code now
        <-> last_thursday_of_its_month t)
       /\ (~ last_thursday_of_its_month t ->
           In (Py.upper symbol)
              ["NIFTY"; "BANKNIFTY"; "FINNIFTY"; "MIDCPNIFTY"] ->
           V2.get_expiry_code now symbol
           = weekly_code now (Date.mon t) (Date.day t))).
Proof.
  intro H.
  assert (Hv : Date.valid (Date.mkDate 2026 Date.Jan 5))
    by (unfold Date.valid; simpl; lia).
  destruct (H (Date.mkDate 2026 Date.Jan 5) "BANKNIFTY" Hv)
    as [[Hmonthly _] _].
  destruct (Hmonthly eq_refl) as [_ Hlate].
  vm_compute in Hlate. discriminate Hlate.
Qed.

(** C5, amended.  The next Thursday is a Thursday on or after the date.
    In the optimized script, for NIFTY (in any letter case) the code is
    the monthly code exactly when that Thursday is the last Thursday of its
    month, and otherwise the weekly code made of the two-digit year of the
    date, the month code and the two-digit day of that Thursday; for every
    other symbol it is the monthly code.  In the original script the
    weekly-expiry names are NIFTY, BANKNIFTY and STOCK: for them the code
    is the monthly code exactly when the next Thursday is the last
    Thursday of its month, and otherwise, when that Thursday lies in the
    month of the date, the same weekly code; for every other name it is
    the monthly code. *)
Theorem expiry_code_weekly_or_monthly (now : Date.date) (symbol : string) :
  Date.valid now ->
  let t := Date.next_thursday now in
  (Date.weekday t = Date.TH
   /\ Date.toordinal now <= Date.toordinal t < Date.toordinal now + 7)
  /\ (Py.upper symbol = "NIFTY" ->
      (V2.get_expiry_code now symbol = monthly_code now
       <-> last_thursday_of_its_month t)
      /\ (~ last_thursday_of_its_month t ->
          V2.get_expiry_code now symbol
          = weekly_code now (Date.mon t) (Date.day t)))
  /\ (Py.upper symbol <> "NIFTY" ->
      V2.get_expiry_code now symbol = monthly_code now)
  /\ (In symbol ["NIFTY"; "BANKNIFTY"; "STOCK"] ->
      (V1.get_expiry_code now symbol = monthly_code now
       <-> last_thursday_of_its_month t)
      /\ (~ last_thursday_of_its_month t -> Date.mon t = Date.mon now ->
          V1.get_expiry_code now symbol
          = weekly_code now (Date.mon t) (Date.day t)))
  /\ (~ In symbol ["NIFTY"; "BANKNIFTY"; "STOCK"] ->
      V1.get_expiry_code now symbol = monthly_code now).
Proof.
  intros Hv t.
  pose proof (next_is_last_thursday now Hv) as Htest. fold t in Htest.
  pose proof (next_thursday_day_bounds now Hv) as Hday. fold t in Hday.
  destruct (next_thursday_spec now Hv) as (_ & Hwd & Hord).
  split; [now split|].
  split.
  { intro Hn. rewrite (v2_code_nifty now symbol Hn). fold t.
    destruct (Date.eqb t (Date.last_thursday now)).
    - split; [|intro Hnot; exfalso; apply Hnot; now apply Htest].
      split; [intros _; now apply Htest|reflexivity].
    - split; [|reflexivity].
      split.
      + intro H. symmetry in H. now apply monthly_code_not_weekly in H.
      + intro H. apply Htest in H. discriminate H. }
  split; [apply v2_code_other|].
  split; [|apply v1_code_other].
  intro Hin. rewrite (v1_code_table now symbol Hin). fold t.
  destruct (Date.eqb t (Date.last_thursday now)).
  - split; [|intro Hnot; exfalso; apply Hnot; now apply Htest].
    split; [intros _; now apply Htest|reflexivity].
  - split.
    + split.
      * intro H. symmetry in H. now apply monthly_code_not_weekly in H.
      * intro H. apply Htest in H. discriminate H.
    + intros _ Hm. now rewrite Hm.
Qed.

Lemma expiry_code_weekly_or_monthly_witness :
  Date.valid (Date.mkDate 2026 Date.Jan 5)
  /\ let now := Date.mkDate 2026 Date.Jan 5 in
     let symbol := "nifty" in
     let t := Date.next_thursday now in
     (Date.weekday t = Date.TH
      /\ Date.toordinal now <= Date.toordinal t < Date.toordinal now + 7)
     /\ (Py.upper symbol = "NIFTY" ->
         (V2.get_expiry_code now symbol = monthly_code now
          <-> last_thursday_of_its_month t)
         /\ (~ last_thursday_of_its_month t ->
             V2.get_expiry_code now symbol
             = weekly_code now (Date.mon t) (Date.day t)))
     /\ (Py.upper symbol <> "NIFTY" ->
         V2.get_expiry_code now symbol = monthly_code now)
     /\ (In symbol ["NIFTY"; "BANKNIFTY"; "STOCK"] ->
         (V1.get_expiry_code now symbol = monthly_code now
          <-> last_thursday_of_its_month t)
         /\ (~ last_thursday_of_its_month t -> Date.mon t = Date.mon now ->
             V1.get_expiry_code now symbol
             = weekly_code now (Date.mon t) (Date.day t)))
     /\ (~ In symbol ["NIFTY"; "BANKNIFTY"; "STOCK"] ->
         V1.get_expiry_code now symbol = monthly_code now).
Proof.
  assert (Hv : Date.valid (Date.mkDate 2026 Date.Jan 5))
    by (unfold Date.valid; simpl; lia).
  split; [exact Hv|].
  exact (expiry_code_weekly_or_monthly (Date.mkDate 2026 Date.Jan 5) "nifty" Hv).
Defined.

(** C8 as stated fails: on Monday 2026-01-05 the original script gives
    BANKNIFTY the weekly code 26108 and the optimized script gives it the
    monthly code 26JAN. *)
Lemma expiry_codes_differ_counterexample :
  ~ (forall now symbol,
       Date.valid now ->
       V1.get_expiry_code now symbol = V2.get_expiry_code now symbol).
Proof.
  intro H.
  assert (Hv : Date.valid (Date.mkDate 2026 Date.Jan 5))
    by (unfold Date.valid; simpl; lia).
  specialize (H (Date.mkDate 2026 Date.Jan 5) "BANKNIFTY" Hv).
  vm_compute in H. discriminate H.
Qed.

(** C8, amended: the two calculators return the same code for every
    symbol when the next Thursday is the last Thursday of its month, for
    NIFTY when the next Thursday lies in the month of the date, and on
    every date for a symbol that is none of NIFTY, BANKNIFTY, STOCK and
    does not read NIFTY in upper case.  For BANKNIFTY and for STOCK, when
    the next Thursday is not the last Thursday of its month, the original
    script returns a weekly code, the optimized script the monthly code,
    and the two differ. *)
Theorem expiry_codes_agree (now : Date.date) (symbol : string) :
  Date.valid now ->
  (last_thursday_of_its_month (Date.next_thursday now) ->
   V1.get_expiry_code now symbol = V2.get_expiry_code now symbol)
  /\ (symbol = "NIFTY" ->
      Date.mon (Date.next_thursday now) = Date.mon now ->
      V1.get_expiry_code now symbol = V2.get_expiry_code now symbol)
  /\ (~ In symbol ["NIFTY"; "BANKNIFTY"; "STOCK"] ->
      Py.upper symbol <> "NIFTY" ->
      V1.get_expiry_code now symbol = V2.get_expiry_code now symbol)
  /\ (symbol = "BANKNIFTY" \/ symbol = "STOCK" ->
      ~ last_thursday_of_its_month (Date.next_thursday now) ->
      V1.get_expiry_code now symbol
      = weekly_code now (Date.mon now) (Date.day (Date.next_thursday now))
      /\ V2.get_expiry_code now symbol = monthly_code now
      /\ V1.get_expiry_code now symbol <> V2.get_expiry_code now symbol).
Proof.
  intro Hv. split; [|split; [|split]].
  - intro Hlast. apply (next_is_last_thursday now Hv) in Hlast.
    unfold V1.get_expiry_code, V2.get_expiry_code. cbv zeta. rewrite Hlast.
    now destruct (_ || _), (str_in (Py.upper symbol) _).
  - intros -> Hm.
    rewrite (v2_code_nifty now "NIFTY" eq_refl).
    rewrite (v1_code_table now "NIFTY") by (simpl; tauto).
    now rewrite Hm.
  - intros Hout Hup.
    now rewrite (v1_code_other now symbol Hout), (v2_code_other now symbol Hup).
  - intros Hsym Hweek.
    assert (Htest : Date.eqb (Date.next_thursday now) (Date.last_thursday now)
                    = false).
    { destruct (Date.eqb _ _) eqn:E; [|reflexivity].
      exfalso. apply Hweek. now apply (next_is_last_thursday now Hv). }
    assert (H1 : V1.get_expiry_code now symbol
                 = weekly_code now (Date.mon now)
                     (Date.day (Date.next_thursday now))).
    { rewrite (v1_code_table now symbol)
        by (destruct Hsym as [-> | ->]; simpl; tauto).
      now rewrite Htest. }
    assert (H2 : V2.get_expiry_code now symbol = monthly_code now).
    { apply v2_code_other. destruct Hsym as [-> | ->]; discriminate. }
    split; [exact H1|]. split; [exact H2|].
    rewrite H1, H2. intro H. symmetry in H. revert H.
    apply monthly_code_not_weekly, next_thursday_day_bounds, Hv.
Qed.

Lemma expiry_codes_agree_witness :
  Date.valid (Date.mkDate 2026 Date.Jan 5)
  /\ (last_thursday_of_its_month
        (Date.next_thursday (Date.mkDate 2026 Date.Jan 5)) ->
      V1.get_expiry_code (Date.mkDate 2026 Date.Jan 5) "BANKNIFTY"
      = V2.get_expiry_code (Date.mkDate 2026 Date.Jan 5) "BANKNIFTY")
  /\ ("BANKNIFTY" = "NIFTY" ->
      Date.mon (Date.next_thursday (Date.mkDate 2026 Date.Jan 5))
      = Date.mon (Date.mkDate 2026 Date.Jan 5) ->
      V1.get_expiry_code (Date.mkDate 2026 Date.Jan 5) "BANKNIFTY"
      = V2.get_expiry_code (Date.mkDate 2026 Date.Jan 5) "BANKNIFTY")
  /\ (~ In "BANKNIFTY" ["NIFTY"; "BANKNIFTY"; "STOCK"] ->
      Py.upper "BANKNIFTY" <> "NIFTY" ->
      V1.get_expiry_code (Date.mkDate 2026 Date.Jan 5) "BANKNIFTY"
      = V2.get_expiry_code (Date.mkDate 2026 Date.Jan 5) "BANKNIFTY")
  /\ ("BANKNIFTY" = "BANKNIFTY" \/ "BANKNIFTY" = "STOCK" ->
      ~ last_thursday_of_its_month
          (Date.next_thursday (Date.mkDate 2026 Date.Jan 5)) ->
      V1.get_expiry_code (Date.mkDate 2026 Date.Jan 5) "BANKNIFTY"
      = weekly_code (Date.mkDate 2026 Date.Jan 5)
          (Date.mon (Date.mkDate 2026 Date.Jan 5))
          (Date.day (Date.next_thursday (Date.mkDate 2026 Date.Jan 5)))
      /\ V2.get_expiry_code (Date.mkDate 2026 Date.Jan 5) "BANKNIFTY"
         = monthly_code (Date.mkDate 2026 Date.Jan 5)
      /\ V1.get_expiry_code (Date.mkDate 2026 Date.Jan 5) "BANKNIFTY"
         <> V2.get_expiry_code (Date.mkDate 2026 Date.Jan 5) "BANKNIFTY").
Proof.
  assert (Hv : Date.valid (Date.mkDate 2026 Date.Jan 5))
    by (unfold Date.valid; simpl; lia).
  split; [exact Hv|].
  exact (expiry_codes_agree (Date.mkDate 2026 Date.Jan 5) "BANKNIFTY" Hv).
Defined.

End ExpiryCodes.

(** * Further properties of the code *)

(** ** Strikes *)

Section Strikes.

Local Open Scope Q_scope.

Lemma lt_div_iff (x y : Q) (c : Z) :
  0 < y -> (inject_Z c < x / y <-> inject_Z c * y < x).
Proof.
  intro Hy.
  rewrite <- (Qmult_lt_r _ _ y Hy). now rewrite (div_mul_cancel x y Hy).
Qed.

Lemma price_interval_band (ltp : Q) : V2.price_interval ltp = inject_Z (band ltp).
Proof.
  unfold V2.price_interval, band.
  repeat match goal with
         | |- context [Py.ltb ?a ?b] => destruct (Py.ltb a b)
         end; reflexivity.
Qed.

Lemma band_positive (ltp : Q) : (0 < band ltp)%Z.
Proof.
  unfold band.
  repeat match goal with
         | |- context [Py.ltb ?a ?b] => destruct (Py.ltb a b)
         end; lia.
Qed.

(** The interval the optimized calculator works with is positive as
    soon as the table holds no negative value for the symbol. *)
Lemma strike_interval_positive (ltp : Q) (symbol : string)
    (intervals : gmap string Q) :
  (forall i, intervals !! Py.upper symbol = Some i -> 0 <= i) ->
  0 < V2.strike_interval ltp symbol intervals.
Proof.
  intro Htable. unfold V2.strike_interval.
  pose proof (inject_Z_pos (band ltp) (band_positive ltp)) as Hband.
  rewrite <- price_interval_band in Hband.
  destruct (intervals !! Py.upper symbol) as [i|]; [|exact Hband].
  destruct (Py.truthy i) eqn:Ht; [|exact Hband].
  apply truthy_nonzero in Ht. specialize (Htable i eq_refl).
  apply Qle_lteq in Htable as [H|H]; [exact H|]. exfalso. apply Ht.
  now symmetry.
Qed.

(** The value before [int]: the least multiple of the interval at or
    above the LTP. *)
Lemma ceiling_multiple_bounds (ltp i : Q) :
  0 < i ->
  ltp <= inject_Z (Qceiling (ltp / i)) * i
  /\ inject_Z (Qceiling (ltp / i)) * i < ltp + i.
Proof.
  intro Hi. split.
  - apply (div_le_iff ltp i _ Hi). apply Qle_ceiling.
  - pose proof (Qceiling_lt (ltp / i)) as H.
    apply (lt_div_iff ltp i _ Hi) in H.
    unfold Z.sub in H. rewrite inject_Z_plus in H.
    change (inject_Z (-1)) with (-1 # 1) in H.
    assert (E : (inject_Z (Qceiling (ltp / i)) + (-1 # 1)) * i
                == inject_Z (Qceiling (ltp / i)) * i - i) by ring.
    rewrite E in H. lra.
Qed.

Lemma int_of_bounds (x : Q) :
  0 <= x -> x - 1 < inject_Z (Py.int_of x) /\ inject_Z (Py.int_of x) <= x.
Proof.
  intro Hx. rewrite (int_of_floor x Hx).
  pose proof (Qfloor_le x) as Hle. pose proof (Qlt_floor x) as Hlt.
  rewrite inject_Z_plus in Hlt. change (inject_Z 1) with 1 in Hlt.
  split; lra.
Qed.

Lemma v2_strike_bounds (ltp : Q) (symbol : string)
    (intervals : gmap string Q) :
  0 <= ltp ->
  (forall i, intervals !! Py.upper symbol = Some i -> 0 <= i) ->
  ltp - 1 < inject_Z (V2.calculate_atm_strike ltp symbol intervals)
  /\ inject_Z (V2.calculate_atm_strike ltp symbol intervals)
     < ltp + V2.strike_interval ltp symbol intervals.
Proof.
  intros Hltp Htable.
  pose proof (strike_interval_positive ltp symbol intervals Htable) as Hi.
  unfold V2.calculate_atm_strike.
  set (i := V2.strike_interval ltp symbol intervals) in *.
  destruct (ceiling_multiple_bounds ltp i Hi) as [Hlo Hhi].
  destruct (int_of_bounds (inject_Z (Qceiling (ltp / i)) * i)) as [H1 H2];
    [lra|]. cbv zeta. split; lra.
Qed.

(** X2: [dummy.py] is the optimized calculator at the interval 2.5; for
    a non-negative LTP its strike is less than 1 below the LTP and less
    than 2.5 above it, so it can be below the LTP. *)
Theorem dummy_atm_strike_bounds (ltp : Q) (symbol : string) :
  0 <= ltp ->
  Dummy.calculate_atm_strike ltp
  = V2.calculate_atm_strike ltp symbol (<[Py.upper symbol := 5 # 2]> ∅)
  /\ ltp - 1 < inject_Z (Dummy.calculate_atm_strike ltp)
  /\ inject_Z (Dummy.calculate_atm_strike ltp) < ltp + (5 # 2)
  /\ exists p, 0 <= p /\ inject_Z (Dummy.calculate_atm_strike p) < p.
Proof.
  intro Hltp.
  assert (Hbelow : exists p,
             0 <= p /\ inject_Z (Dummy.calculate_atm_strike p) < p)
    by (exists (2123 # 10); split; vm_compute; congruence).
  assert (Hi : V2.strike_interval ltp symbol (<[Py.upper symbol := 5 # 2]> ∅)
               = 5 # 2).
  { unfold V2.strike_interval. now rewrite lookup_insert_eq. }
  assert (Heq : Dummy.calculate_atm_strike ltp
                = V2.calculate_atm_strike ltp symbol
                    (<[Py.upper symbol := 5 # 2]> ∅)).
  { unfold Dummy.calculate_atm_strike, V2.calculate_atm_strike.
    now rewrite Hi. }
  split; [exact Heq|]. rewrite Heq.
  assert (Hb : ltp - 1 < inject_Z (V2.calculate_atm_strike ltp symbol
                                     (<[Py.upper symbol := 5 # 2]> ∅))
               /\ inject_Z (V2.calculate_atm_strike ltp symbol
                              (<[Py.upper symbol := 5 # 2]> ∅))
                  < ltp + (5 # 2)).
  { rewrite <- Hi at 3.
    apply v2_strike_bounds; [exact Hltp|].
    intros i H. rewrite lookup_insert_eq in H. inversion H.
    unfold Qle. simpl. lia. }
  destruct Hb as [Hb1 Hb2]. repeat split; assumption.
Qed.

Lemma dummy_atm_strike_bounds_witness :
  0 <= 2123 # 10
  /\ Dummy.calculate_atm_strike (2123 # 10)
     = V2.calculate_atm_strike (2123 # 10) "x" (<[Py.upper "x" := 5 # 2]> ∅)
  /\ (2123 # 10) - 1 < inject_Z (Dummy.calculate_atm_strike (2123 # 10))
  /\ inject_Z (Dummy.calculate_atm_strike (2123 # 10)) < (2123 # 10) + (5 # 2)
  /\ exists p, 0 <= p /\ inject_Z (Dummy.calculate_atm_strike p) < p.
Proof.
  assert (H1 : 0 <= 2123 # 10) by (unfold Qle; simpl; lia).
  split; [exact H1|].
  exact (dummy_atm_strike_bounds (2123 # 10) "x" H1).
Defined.

(** With an interval equal to a positive integer the strike is the
    ceiling of the quotient times that integer. *)
Lemma strike_of_integer_interval (ltp : Q) (n : Z) (symbol : string)
    (intervals : gmap string Q) :
  V2.strike_interval ltp symbol intervals == inject_Z n -> (0 < n)%Z ->
  V2.calculate_atm_strike ltp symbol intervals
  = (Qceiling (ltp / inject_Z n) * n)%Z.
Proof.
  intros Hin Hn. unfold V2.calculate_atm_strike. cbv zeta.
  apply int_of_integer. rewrite inject_Z_mult.
  apply Qmult_comp; [|assumption].
  now rewrite (Qceiling_comp _ _ (Qdiv_comp _ _ (Qeq_refl ltp) _ _ Hin)).
Qed.

Lemma ceiling_times_least (ltp : Q) (n : Z) :
  (0 < n)%Z ->
  least_multiple_above n ltp (Qceiling (ltp / inject_Z n) * n).
Proof.
  intro Hn. pose proof (inject_Z_pos n Hn) as Hq.
  split; [eexists; reflexivity|]. split.
  - rewrite inject_Z_mult. apply div_le_iff; [assumption|]. apply Qle_ceiling.
  - intros c Hc. rewrite inject_Z_mult in Hc.
    apply div_le_iff in Hc; [|assumption].
    apply ceiling_least in Hc. nia.
Qed.

Lemma strike_fallback_least (ltp : Q) (symbol : string)
    (intervals : gmap string Q) :
  (forall i, intervals !! Py.upper symbol = Some i -> i == 0) ->
  V2.calculate_atm_strike ltp symbol intervals
  = (Qceiling (ltp / inject_Z (band ltp)) * band ltp)%Z
  /\ least_multiple_above (band ltp) ltp
       (V2.calculate_atm_strike ltp symbol intervals).
Proof.
  intro Hmissing.
  assert (Hi : V2.strike_interval ltp symbol intervals = inject_Z (band ltp)).
  { unfold V2.strike_interval.
    destruct (intervals !! Py.upper symbol) as [i|];
      [|apply price_interval_band].
    destruct (Py.truthy i) eqn:Ht; [|apply price_interval_band].
    apply truthy_nonzero in Ht. exfalso. apply Ht. now apply Hmissing. }
  rewrite (strike_of_integer_interval ltp (band ltp) symbol intervals);
    [|now rewrite Hi|apply band_positive].
  split; [reflexivity|]. apply ceiling_times_least. apply band_positive.
Qed.

(** X3: for a symbol that the table does not know, or knows with the
    value 0, the strike is the least multiple of the price-based step (5
    below 500, 10 below 1000, 20 below 2000, 50 below 5000, 100 from
    there on) that is not below the LTP. *)
Theorem v2_atm_strike_fallback (ltp : Q) (symbol : string)
    (intervals : gmap string Q) :
  (forall i, intervals !! Py.upper symbol = Some i -> i == 0) ->
  least_multiple_above (band ltp) ltp
    (V2.calculate_atm_strike ltp symbol intervals).
Proof. intro H. now apply strike_fallback_least. Qed.

Lemma v2_atm_strike_fallback_witness :
  (forall i, V2.get_default_intervals !! Py.upper "reliance" = Some i -> i == 0)
  /\ least_multiple_above (band 1412) 1412
       (V2.calculate_atm_strike 1412 "reliance" V2.get_default_intervals).
Proof.
  assert (H : forall i,
             V2.get_default_intervals !! Py.upper "reliance" = Some i -> i == 0).
  { intros i Hi. vm_compute in Hi. discriminate Hi. }
  split; [exact H|].
  exact (v2_atm_strike_fallback 1412 "reliance" V2.get_default_intervals H).
Defined.

Lemma least_multiple_unique (n : Z) (x : Q) (k k' : Z) :
  least_multiple_above n x k -> least_multiple_above n x k' -> k = k'.
Proof.
  intros ([c Hc] & Hk & Hleast) ([c' Hc'] & Hk' & Hleast').
  subst k k'.
  specialize (Hleast c' Hk'). specialize (Hleast' c Hk). lia.
Qed.

(** A multiple of the step is its own strike. *)
Lemma ceiling_times_multiple (c n : Z) :
  (0 < n)%Z -> (Qceiling (inject_Z (c * n) / inject_Z n) * n)%Z = (c * n)%Z.
Proof.
  intro Hn. pose proof (inject_Z_pos n Hn) as Hq.
  assert (E : inject_Z (c * n) / inject_Z n == inject_Z c).
  { rewrite inject_Z_mult. field. intro H. rewrite H in Hq.
    now apply Qlt_irrefl in Hq. }
  now rewrite (Qceiling_comp _ _ E), Qceiling_Z.
Qed.

Lemma strike_monotone_table (ltp1 ltp2 i : Q) :
  0 < i -> 0 <= ltp1 -> ltp1 <= ltp2 ->
  (Py.int_of (inject_Z (Qceiling (ltp1 / i)) * i)
   <= Py.int_of (inject_Z (Qceiling (ltp2 / i)) * i))%Z.
Proof.
  intros Hi H1 H12.
  destruct (ceiling_multiple_bounds ltp1 i Hi) as [Hlo1 _].
  destruct (ceiling_multiple_bounds ltp2 i Hi) as [Hlo2 _].
  rewrite !int_of_floor by lra.
  apply Qfloor_resp_le.
  apply Qmult_le_compat_r; [|lra].
  rewrite <- Zle_Qle. apply Qceiling_resp_le.
  unfold Qdiv. apply Qmult_le_compat_r; [exact H12|].
  apply Qinv_le_0_compat. lra.
Qed.

(** Across the price bands the fallback strikes stay in order: the
    upper end of a band is a multiple of its step. *)
Lemma strike_monotone_fallback (ltp1 ltp2 : Q) (k1 k2 : Z) :
  ltp1 <= ltp2 ->
  least_multiple_above (band ltp1) ltp1 k1 ->
  least_multiple_above (band ltp2) ltp2 k2 ->
  (k1 <= k2)%Z.
Proof.
  intros H12 (_ & _ & Hleast1) ([c2 Hc2] & Hk2 & _).
  assert (Hsame : band ltp1 = band ltp2 -> (k1 <= k2)%Z).
  { intro Hb. rewrite Hc2, <- Hb. apply Hleast1.
    rewrite Hb, <- Hc2. lra. }
  assert (Hcross : forall B : Z,
             ltp1 <= inject_Z (B * band ltp1) ->
             inject_Z (B * band ltp1) <= ltp2 -> (k1 <= k2)%Z).
  { intros B Hb1 Hb2. specialize (Hleast1 B Hb1).
    assert (H : inject_Z (B * band ltp1) <= inject_Z k2) by lra.
    rewrite <- Zle_Qle in H. lia. }
  revert Hsame Hcross. unfold band.
  destruct (Py.ltb ltp1 500) eqn:A1; [apply ltb_lt in A1|apply ltb_ge in A1];
  (destruct (Py.ltb ltp1 1000) eqn:A2; [apply ltb_lt in A2|apply ltb_ge in A2]);
  (destruct (Py.ltb ltp1 2000) eqn:A3; [apply ltb_lt in A3|apply ltb_ge in A3]);
  (destruct (Py.ltb ltp1 5000) eqn:A4; [apply ltb_lt in A4|apply ltb_ge in A4]);
  (destruct (Py.ltb ltp2 500) eqn:B1; [apply ltb_lt in B1|apply ltb_ge in B1]);
  (destruct (Py.ltb ltp2 1000) eqn:B2; [apply ltb_lt in B2|apply ltb_ge in B2]);
  (destruct (Py.ltb ltp2 2000) eqn:B3; [apply ltb_lt in B3|apply ltb_ge in B3]);
  (destruct (Py.ltb ltp2 5000) eqn:B4; [apply ltb_lt in B4|apply ltb_ge in B4]);
  intros Hsame Hcross;
  first [ exfalso; lra
        | now apply Hsame
        | apply (Hcross 100%Z);
          first [ progress change (inject_Z (100 * 5)) with 500
                | progress change (inject_Z (100 * 10)) with 1000
                | progress change (inject_Z (100 * 20)) with 2000
                | progress change (inject_Z (100 * 50)) with 5000 ]; lra ].
Qed.

(** X4: the strike does not decrease when the LTP increases, whether
    the interval comes from the table or from the price bands. *)
Theorem v2_atm_strike_monotone (ltp1 ltp2 : Q) (symbol : string)
    (intervals : gmap string Q) :
  0 <= ltp1 -> ltp1 <= ltp2 ->
  (forall i, intervals !! Py.upper symbol = Some i -> 0 <= i) ->
  (V2.calculate_atm_strike ltp1 symbol intervals
   <= V2.calculate_atm_strike ltp2 symbol intervals)%Z.
Proof.
  intros H1 H12 Htable.
  destruct (intervals !! Py.upper symbol) as [i|] eqn:E.
  - destruct (Py.truthy i) eqn:Ht.
    + unfold V2.calculate_atm_strike, V2.strike_interval. rewrite E, Ht.
      cbv zeta. apply strike_monotone_table; try assumption.
      apply truthy_nonzero in Ht. specialize (Htable i eq_refl).
      apply Qle_lteq in Htable as [H|H]; [exact H|].
      exfalso. apply Ht. now symmetry.
    + assert (Hzero : forall j, intervals !! Py.upper symbol = Some j -> j == 0).
      { intros j Hj. rewrite E in Hj. inversion Hj; subst j.
        destruct (Qeq_dec i 0) as [H|H]; [exact H|].
        apply truthy_nonzero in H. congruence. }
      eapply strike_monotone_fallback; [exact H12| |];
        now apply strike_fallback_least.
  - assert (Hzero : forall j, intervals !! Py.upper symbol = Some j -> j == 0).
    { intros j Hj. rewrite E in Hj. discriminate Hj. }
    eapply strike_monotone_fallback; [exact H12| |];
      now apply strike_fallback_least.
Qed.

Lemma v2_atm_strike_monotone_witness :
  0 <= 4999 /\ 4999 <= 5001
  /\ (forall i, V2.get_default_intervals !! Py.upper "reliance" = Some i ->
        0 <= i)
  /\ (V2.calculate_atm_strike 4999 "reliance" V2.get_default_intervals
      <= V2.calculate_atm_strike 5001 "reliance" V2.get_default_intervals)%Z.
Proof.
  assert (H1 : 0 <= 4999) by (unfold Qle; simpl; lia).
  assert (H2 : 4999 <= 5001) by (unfold Qle; simpl; lia).
  assert (H3 : forall i,
             V2.get_default_intervals !! Py.upper "reliance" = Some i ->
             0 <= i).
  { intros i Hi. vm_compute in Hi. discriminate Hi. }
  split; [exact H1|]. split; [exact H2|]. split; [exact H3|].
  exact (v2_atm_strike_monotone 4999 5001 "reliance"
           V2.get_default_intervals H1 H2 H3).
Defined.

Lemma band_cases (x : Q) :
  (x < 500 /\ band x = 5%Z)
  \/ (500 <= x /\ x < 1000 /\ band x = 10%Z)
  \/ (1000 <= x /\ x < 2000 /\ band x = 20%Z)
  \/ (2000 <= x /\ x < 5000 /\ band x = 50%Z)
  \/ (5000 <= x /\ band x = 100%Z).
Proof.
  unfold band.
  destruct (Py.ltb x 500) eqn:A1; [apply ltb_lt in A1|apply ltb_ge in A1];
  (destruct (Py.ltb x 1000) eqn:A2; [apply ltb_lt in A2|apply ltb_ge in A2]);
  (destruct (Py.ltb x 2000) eqn:A3; [apply ltb_lt in A3|apply ltb_ge in A3]);
  (destruct (Py.ltb x 5000) eqn:A4; [apply ltb_lt in A4|apply ltb_ge in A4]);
  try (exfalso; lra); tauto.
Qed.

(** A fallback strike is a multiple of the step of its own price band:
    it stays in the band of the LTP or is the upper end of it. *)
Lemma fallback_strike_own_band (ltp : Q) (k : Z) :
  least_multiple_above (band ltp) ltp k ->
  exists c : Z, k = (c * band (inject_Z k))%Z.
Proof.
  intros ([c Hc] & Hk & Hleast).
  assert (Hend : forall B E : Z,
             (B * band ltp)%Z = E -> ltp <= inject_Z E -> (k <= E)%Z).
  { intros B E <- H. now apply Hleast. }
  destruct (band_cases ltp) as [[L Hb]|[(L1 & L2 & Hb)|[(L1 & L2 & Hb)|
                               [(L1 & L2 & Hb)|[L Hb]]]]];
    rewrite Hb in *;
    destruct (band_cases (inject_Z k)) as [[R Hr]|[(R1 & R2 & Hr)|
                                [(R1 & R2 & Hr)|[(R1 & R2 & Hr)|[R Hr]]]]];
    rewrite Hr; try (exfalso; lra); try (now exists c).
  all: try (assert (Hk500 : (k <= 500)%Z)
              by (apply (Hend 100%Z 500%Z eq_refl);
                  change (inject_Z 500) with 500; lra)).
  all: try (assert (Hk1000 : (k <= 1000)%Z)
              by (apply (Hend 100%Z 1000%Z eq_refl);
                  change (inject_Z 1000) with 1000; lra)).
  all: try (assert (Hk2000 : (k <= 2000)%Z)
              by (apply (Hend 100%Z 2000%Z eq_refl);
                  change (inject_Z 2000) with 2000; lra)).
  all: try (assert (Hk5000 : (k <= 5000)%Z)
              by (apply (Hend 100%Z 5000%Z eq_refl);
                  change (inject_Z 5000) with 5000; lra)).
  all: try (assert (Z500 : (500 <= k)%Z)
              by (rewrite Zle_Qle; change (inject_Z 500) with 500; lra)).
  all: try (assert (Z1000 : (1000 <= k)%Z)
              by (rewrite Zle_Qle; change (inject_Z 1000) with 1000; lra)).
  all: try (assert (Z2000 : (2000 <= k)%Z)
              by (rewrite Zle_Qle; change (inject_Z 2000) with 2000; lra)).
  all: try (assert (Z5000 : (5000 <= k)%Z)
              by (rewrite Zle_Qle; change (inject_Z 5000) with 5000; lra)).
  all: first [ exfalso; lia
             | exists 50%Z; lia
             | exists 40%Z; lia ].
Qed.

(** X5: a strike that the optimized calculator returns is its own
    strike, when the interval of the symbol is a whole number or comes
    from the price bands. *)
Theorem v2_atm_strike_fixed_point (ltp : Q) (symbol : string)
    (intervals : gmap string Q) :
  (forall i, intervals !! Py.upper symbol = Some i ->
     exists n : Z, (0 <= n)%Z /\ i == inject_Z n) ->
  V2.calculate_atm_strike
    (inject_Z (V2.calculate_atm_strike ltp symbol intervals)) symbol intervals
  = V2.calculate_atm_strike ltp symbol intervals.
Proof.
  intro Htable.
  destruct (intervals !! Py.upper symbol) as [i|] eqn:E.
  - destruct (Htable i eq_refl) as (n & Hn & Hi).
    destruct (Z.eq_dec n 0%Z) as [->|Hnz].
    + assert (Hzero : forall j, intervals !! Py.upper symbol = Some j -> j == 0).
      { intros j Hj. rewrite E in Hj. now inversion Hj; subst j. }
      destruct (strike_fallback_least ltp symbol intervals Hzero) as [_ Hl].
      destruct (fallback_strike_own_band ltp _ Hl) as [c Hc].
      destruct (strike_fallback_least
                  (inject_Z (V2.calculate_atm_strike ltp symbol intervals))
                  symbol intervals Hzero) as [-> _].
      rewrite Hc at 1. rewrite ceiling_times_multiple by apply band_positive.
      now rewrite <- Hc.
    + assert (Hpos : (0 < n)%Z) by lia.
      assert (Hint : forall p, V2.strike_interval p symbol intervals
                               == inject_Z n).
      { intro p. unfold V2.strike_interval. rewrite E.
        destruct (Py.truthy i) eqn:Ht; [exact Hi|].
        exfalso. assert (Hne : ~ i == 0).
        { rewrite Hi. intro H. apply inject_Z_pos in Hpos. rewrite H in Hpos.
          now apply Qlt_irrefl in Hpos. }
        apply truthy_nonzero in Hne. congruence. }
      rewrite (strike_of_integer_interval _ n symbol intervals (Hint _) Hpos).
      rewrite (strike_of_integer_interval ltp n symbol intervals (Hint _) Hpos).
      now apply ceiling_times_multiple.
  - assert (Hzero : forall j, intervals !! Py.upper symbol = Some j -> j == 0).
    { intros j Hj. rewrite E in Hj. discriminate Hj. }
    destruct (strike_fallback_least ltp symbol intervals Hzero) as [_ Hl].
    destruct (fallback_strike_own_band ltp _ Hl) as [c Hc].
    destruct (strike_fallback_least
                (inject_Z (V2.calculate_atm_strike ltp symbol intervals))
                symbol intervals Hzero) as [-> _].
    rewrite Hc at 1. rewrite ceiling_times_multiple by apply band_positive.
    now rewrite <- Hc.
Qed.

Lemma v2_atm_strike_fixed_point_witness :
  (forall i, V2.get_default_intervals !! Py.upper "nifty" = Some i ->
     exists n : Z, (0 <= n)%Z /\ i == inject_Z n)
  /\ V2.calculate_atm_strike
       (inject_Z (V2.calculate_atm_strike 24481 "nifty" V2.get_default_intervals))
       "nifty" V2.get_default_intervals
     = V2.calculate_atm_strike 24481 "nifty" V2.get_default_intervals.
Proof.
  assert (H : forall i,
             V2.get_default_intervals !! Py.upper "nifty" = Some i ->
             exists n : Z, (0 <= n)%Z /\ i == inject_Z n).
  { intros i Hi. vm_compute in Hi. inversion Hi. exists 50%Z.
    split; [lia|reflexivity]. }
  split; [exact H|].
  exact (v2_atm_strike_fixed_point 24481 "nifty" V2.get_default_intervals H).
Defined.

(** A nearest multiple is the least multiple at or above, or the one
    just below it. *)
Lemma nearest_below_least (n : Z) (x : Q) (k1 k2 : Z) :
  (0 < n)%Z -> nearest_multiple n x k1 -> least_multiple_above n x k2 ->
  (k1 <= k2 <= k1 + n)%Z.
Proof.
  intros Hn ([c1 Hc1] & Hnear) ([c2 Hc2] & Hk2 & Hleast).
  split.
  - destruct (Z_le_gt_dec k1 k2) as [H|H]; [exact H|exfalso].
    specialize (Hnear c2). rewrite <- Hc2 in Hnear.
    assert (Hq : inject_Z k2 < inject_Z k1) by (rewrite <- Zlt_Qlt; lia).
    rewrite (Qabs_neg (x - inject_Z k1)) in Hnear by lra.
    rewrite (Qabs_neg (x - inject_Z k2)) in Hnear by lra.
    lra.
  - destruct (Z_le_gt_dec k2 (k1 + n)) as [H|H]; [exact H|exfalso].
    assert (Hmul : (k1 + n = (c1 + 1) * n)%Z) by lia.
    assert (Hbelow : inject_Z (k1 + n) < x).
    { apply Qnot_le_lt. intro Hle. rewrite Hmul in Hle.
      apply Hleast in Hle. lia. }
    specialize (Hnear (c1 + 1)%Z). rewrite <- Hmul in Hnear.
    rewrite inject_Z_plus in Hbelow, Hnear.
    pose proof (inject_Z_pos n Hn) as Hq.
    rewrite (Qabs_pos (x - inject_Z k1)) in Hnear by lra.
    rewrite (Qabs_pos (x - (inject_Z k1 + inject_Z n))) in Hnear by lra.
    lra.
Qed.

(** X6: for an upper-case symbol whose interval in the table is the
    positive integer [n] (50 for NIFTY and 100 for BANKNIFTY, which the
    original script hard-codes) and a non-negative LTP, the original
    script returns a nearest multiple of [n], and the optimized script
    returns that strike or the next one. *)
Theorem strikes_of_both_scripts (ltp i : Q) (n : Z) (symbol : string)
    (intervals : gmap string Q) :
  Py.upper symbol = symbol ->
  intervals !! symbol = Some i -> i == inject_Z n -> (0 < n)%Z ->
  0 <= ltp ->
  (symbol = "NIFTY" -> n = 50%Z) -> (symbol = "BANKNIFTY" -> n = 100%Z) ->
  exists k1 : Z,
    V1.calculate_atm_strike ltp symbol intervals = Some k1
    /\ nearest_multiple n ltp k1
    /\ (k1 <= V2.calculate_atm_strike ltp symbol intervals <= k1 + n)%Z.
Proof.
  intros Hup Hi Hin Hn Hltp Hnifty Hbank.
  assert (Hleast : least_multiple_above n ltp
                     (V2.calculate_atm_strike ltp symbol intervals)).
  { rewrite (v2_strike_integer_interval ltp i n symbol intervals);
      [now apply ceiling_times_least|now rewrite Hup|exact Hin|exact Hn]. }
  assert (Hnear : exists k1,
             V1.calculate_atm_strike ltp symbol intervals = Some k1
             /\ nearest_multiple n ltp k1).
  { destruct (String.eqb_spec symbol "NIFTY") as [->|Hn1].
    - rewrite (Hnifty eq_refl).
      destruct (v1_atm_strike_index_nearest ltp intervals Hltp)
        as [(k & Hk & Hm & Hc) _].
      exists k. split; [exact Hk|]. now split.
    - destruct (String.eqb_spec symbol "BANKNIFTY") as [->|Hn2].
      + rewrite (Hbank eq_refl).
        destruct (v1_atm_strike_index_nearest ltp intervals Hltp)
          as [_ (k & Hk & Hm & Hc)].
        exists k. split; [exact Hk|]. now split.
      + destruct (v1_atm_strike_nearest ltp i n symbol intervals
                    Hn1 Hn2 Hi Hin Hn) as (k & Hk & Hm & Hc).
        exists k. split; [exact Hk|]. now split. }
  destruct Hnear as (k1 & Hk1 & Hnear).
  exists k1. split; [exact Hk1|]. split; [exact Hnear|].
  now apply (nearest_below_least n ltp).
Qed.

Lemma strikes_of_both_scripts_witness :
  Py.upper "NIFTY" = "NIFTY"
  /\ V2.get_default_intervals !! "NIFTY" = Some 50
  /\ 50 == inject_Z 50 /\ (0 < 50)%Z /\ 0 <= 24481
  /\ ("NIFTY" = "NIFTY" -> 50%Z = 50%Z)
  /\ ("NIFTY" = "BANKNIFTY" -> 50%Z = 100%Z)
  /\ exists k1 : Z,
       V1.calculate_atm_strike 24481 "NIFTY" V2.get_default_intervals = Some k1
       /\ nearest_multiple 50 24481 k1
       /\ (k1 <= V2.calculate_atm_strike 24481 "NIFTY" V2.get_default_intervals
           <= k1 + 50)%Z.
Proof.
  assert (H1 : Py.upper "NIFTY" = "NIFTY") by reflexivity.
  assert (H2 : V2.get_default_intervals !! "NIFTY" = Some 50) by reflexivity.
  assert (H3 : 50 == inject_Z 50) by reflexivity.
  assert (H4 : (0 < 50)%Z) by reflexivity.
  assert (H5 : 0 <= 24481) by (unfold Qle; simpl; lia).
  assert (H6 : "NIFTY" = "NIFTY" -> 50%Z = 50%Z) by reflexivity.
  assert (H7 : "NIFTY" = "BANKNIFTY" -> 50%Z = 100%Z) by discriminate.
  repeat (split; [assumption|]).
  exact (strikes_of_both_scripts 24481 50 50 "NIFTY" V2.get_default_intervals
           H1 H2 H3 H4 H5 H6 H7).
Defined.

End Strikes.

(** ** Symbols in both scripts *)

Section Symbols.

Lemma upper_ascii_idempotent (c : ascii) :
  Py.upper_ascii (Py.upper_ascii c) = Py.upper_ascii c.
Proof.
  destruct c as [[] [] [] [] [] [] [] []]; reflexivity.
Qed.

Lemma upper_idempotent (s : string) : Py.upper (Py.upper s) = Py.upper s.
Proof.
  induction s as [|c s IH]; simpl; [reflexivity|].
  now rewrite upper_ascii_idempotent, IH.
Qed.

(** X7: the functions of [Utils] see a symbol only through its
    upper-case form: two spellings of a name give the same interval
    lookup and strike, the same expiry code and the same identifiers; in
    particular a name and its upper-case form do. *)
Theorem utils_ignore_letter_case (now : Date.date) (s1 s2 : string)
    (ltp : Q) (intervals : gmap string Q) (strike : Z) (option_type : string) :
  Py.upper s1 = Py.upper s2 ->
  V2.calculate_atm_strike ltp s1 intervals
  = V2.calculate_atm_strike ltp s2 intervals
  /\ V2.get_expiry_code now s1 = V2.get_expiry_code now s2
  /\ V2.convert_symbol_to_fyers_format s1 = V2.convert_symbol_to_fyers_format s2
  /\ V2.create_option_symbol now s1 strike option_type
     = V2.create_option_symbol now s2 strike option_type
  /\ Py.upper (Py.upper s1) = Py.upper s1.
Proof.
  intro H.
  unfold V2.calculate_atm_strike, V2.strike_interval, V2.create_option_symbol,
    V2.get_expiry_code, V2.convert_symbol_to_fyers_format.
  rewrite H. repeat split; try reflexivity. apply upper_idempotent.
Qed.

Lemma utils_ignore_letter_case_witness :
  Py.upper "Nifty" = Py.upper "nIFTY"
  /\ V2.calculate_atm_strike 24481 "Nifty" V2.get_default_intervals
     = V2.calculate_atm_strike 24481 "nIFTY" V2.get_default_intervals
  /\ V2.get_expiry_code Sample.now "Nifty" = V2.get_expiry_code Sample.now "nIFTY"
  /\ V2.convert_symbol_to_fyers_format "Nifty"
     = V2.convert_symbol_to_fyers_format "nIFTY"
  /\ V2.create_option_symbol Sample.now "Nifty" 24500 "CE"
     = V2.create_option_symbol Sample.now "nIFTY" 24500 "CE"
  /\ Py.upper (Py.upper "Nifty") = Py.upper "Nifty".
Proof.
  assert (H : Py.upper "Nifty" = Py.upper "nIFTY") by reflexivity.
  split; [exact H|].
  exact (utils_ignore_letter_case Sample.now "Nifty" "nIFTY" 24481
           V2.get_default_intervals 24500 "CE" H).
Defined.

Lemma append_assoc (a b c : string) :
  ((a ++ b) ++ c)%string = (a ++ (b ++ c))%string.
Proof.
  induction a as [|x a IH]; [reflexivity|].
  change (String x ((a ++ b) ++ c) = String x (a ++ (b ++ c)))%string.
  now f_equal.
Qed.

Lemma length_append (a b : string) :
  String.length (a ++ b) = (String.length a + String.length b)%nat.
Proof.
  induction a as [|x a IH]; [reflexivity|].
  change (S (String.length (a ++ b))
          = S (String.length a + String.length b)).
  now f_equal.
Qed.

Lemma append_inj_prefix (a b r r' : string) :
  String.length a = String.length b ->
  (a ++ r)%string = (b ++ r')%string -> a = b.
Proof.
  revert b. induction a as [|c a IH]; intros [|d b] Hlen H;
    try discriminate Hlen; [reflexivity|].
  simpl in H. injection H as -> H. f_equal. apply IH; [|exact H].
  simpl in Hlen. lia.
Qed.

Lemma pad2_day_length (d : Z) : 1 <= d <= 31 -> String.length (Py.pad2 d) = 2%nat.
Proof.
  intro Hd.
  assert (H : d = 1 \/ d = 2 \/ d = 3 \/ d = 4 \/ d = 5 \/ d = 6 \/ d = 7
              \/ d = 8 \/ d = 9 \/ d = 10 \/ d = 11 \/ d = 12 \/ d = 13
              \/ d = 14 \/ d = 15 \/ d = 16 \/ d = 17 \/ d = 18 \/ d = 19
              \/ d = 20 \/ d = 21 \/ d = 22 \/ d = 23 \/ d = 24 \/ d = 25
              \/ d = 26 \/ d = 27 \/ d = 28 \/ d = 29 \/ d = 30 \/ d = 31)
    by lia.
  repeat (destruct H as [->|H]); try subst d; reflexivity.
Qed.

(** Inside an identifier a weekly code cannot stand for a monthly
    code. *)
Lemma monthly_code_not_weekly_in_context (now : Date.date) (m : Date.month)
    (d : Z) (exchange name after : string) :
  1 <= d <= 31 ->
  (exchange ++ name ++ weekly_code now m d ++ after)%string
  <> (exchange ++ name ++ monthly_code now ++ after)%string.
Proof.
  intros Hd H. do 2 apply append_inj_l in H.
  unfold weekly_code, monthly_code in H.
  rewrite !append_assoc in H. apply append_inj_l in H.
  rewrite <- append_assoc in H.
  apply append_inj_prefix in H.
  - apply (monthly_code_not_weekly now m d Hd).
    unfold monthly_code, weekly_code. now rewrite H.
  - rewrite length_append, (pad2_day_length d Hd).
    now destruct m, (Date.mon now).
Qed.

(** X8: for an upper-case name the two scripts build the same quote
    identifier.  They build the same option identifier in the week of the
    monthly expiry, and on every date for FINNIFTY, MIDCPNIFTY and NIFTY
    NEXT 50; outside that week the original script gives a name that is
    not one of the five indices (a stock) a weekly code, so its
    identifier is not the one of the optimized script. *)
Theorem identifiers_of_both_scripts (now : Date.date) (s : string)
    (strike : Z) (option_type : string) :
  Date.valid now -> Py.upper s = s ->
  Original.convert_symbol_to_fyers_format s
  = V2.convert_symbol_to_fyers_format s
  /\ (last_thursday_of_its_month (Date.next_thursday now)
      \/ In s ["FINNIFTY"; "MIDCPNIFTY"; "NIFTY NEXT 50"] ->
      Original.create_option_symbol now s strike option_type
      = V2.create_option_symbol now s strike option_type)
  /\ (~ last_thursday_of_its_month (Date.next_thursday now) ->
      ~ In s ["NIFTY"; "BANKNIFTY"; "FINNIFTY"; "MIDCPNIFTY"; "NIFTY NEXT 50"] ->
      Original.create_option_symbol now s strike option_type
      <> V2.create_option_symbol now s strike option_type).
Proof.
  intros Hv Hup.
  pose proof (next_is_last_thursday now Hv) as Htest.
  split.
  { unfold Original.convert_symbol_to_fyers_format,
      V2.convert_symbol_to_fyers_format. now rewrite Hup. }
  assert (Hshape : forall code,
             V2.get_expiry_code now s = code ->
             V2.create_option_symbol now s strike option_type
             = ("NSE:" ++ V2.table_get V2.option_mapping s s ++ code
                ++ Py.str_int strike ++ option_type)%string).
  { intros code <-. unfold V2.create_option_symbol. now rewrite Hup. }
  split.
  - intros [Hlast|Hin].
    + apply Htest in Hlast.
      rewrite (Hshape (monthly_code now)).
      * unfold Original.create_option_symbol, V1.get_expiry_code.
        cbv zeta. rewrite Hlast.
        destruct (str_in s _); [|reflexivity].
        now destruct (_ || _).
      * unfold V2.get_expiry_code. cbv zeta. rewrite Hlast.
        now destruct (str_in _ _).
    + rewrite (Hshape (monthly_code now)).
      * destruct Hin as [<-|[<-|[<-|[]]]]; reflexivity.
      * apply v2_code_other. rewrite Hup.
        destruct Hin as [<-|[<-|[<-|[]]]]; discriminate.
  - intros Hnot Hstock.
    assert (Heqb : Date.eqb (Date.next_thursday now) (Date.last_thursday now)
                   = false).
    { destruct (Date.eqb _ _) eqn:E; [|reflexivity].
      exfalso. apply Hnot. now apply Htest. }
    rewrite (Hshape (monthly_code now)).
    + unfold Original.create_option_symbol.
      assert (Hno : str_in s ["NIFTY"; "BANKNIFTY"; "FINNIFTY"; "MIDCPNIFTY";
                              "NIFTY NEXT 50"] = false).
      { unfold str_in. apply not_true_is_false. intro H.
        apply existsb_exists in H as (x & Hx & Heq).
        apply String.eqb_eq in Heq. subst x. contradiction. }
      rewrite Hno. rewrite (v1_code_table now "STOCK") by (simpl; tauto).
      rewrite Heqb.
      apply monthly_code_not_weekly_in_context.
      apply next_thursday_day_bounds. exact Hv.
    + apply v2_code_other. rewrite Hup. intro H. apply Hstock.
      rewrite H. simpl. tauto.
Qed.

Lemma identifiers_of_both_scripts_witness :
  Date.valid Sample.now /\ Py.upper "RELIANCE" = "RELIANCE"
  /\ Original.convert_symbol_to_fyers_format "RELIANCE"
     = V2.convert_symbol_to_fyers_format "RELIANCE"
  /\ (last_thursday_of_its_month (Date.next_thursday Sample.now)
      \/ In "RELIANCE" ["FINNIFTY"; "MIDCPNIFTY"; "NIFTY NEXT 50"] ->
      Original.create_option_symbol Sample.now "RELIANCE" 1420 "CE"
      = V2.create_option_symbol Sample.now "RELIANCE" 1420 "CE")
  /\ (~ last_thursday_of_its_month (Date.next_thursday Sample.now) ->
      ~ In "RELIANCE"
          ["NIFTY"; "BANKNIFTY"; "FINNIFTY"; "MIDCPNIFTY"; "NIFTY NEXT 50"] ->
      Original.create_option_symbol Sample.now "RELIANCE" 1420 "CE"
      <> V2.create_option_symbol Sample.now "RELIANCE" 1420 "CE").
Proof.
  assert (Hv : Date.valid Sample.now) by (unfold Date.valid; simpl; lia).
  assert (Hup : Py.upper "RELIANCE" = "RELIANCE") by reflexivity.
  split; [exact Hv|]. split; [exact Hup|].
  exact (identifiers_of_both_scripts Sample.now "RELIANCE" 1420 "CE" Hv Hup).
Defined.

(** ** Expiry codes at the end of a month and of a year *)

Lemma fyers_month_code_inj (m1 m2 : Date.month) :
  fyers_month_code m1 = fyers_month_code m2 -> m1 = m2.
Proof. destruct m1, m2; simpl; intro H; try reflexivity; discriminate H. Qed.

(** When the next Thursday is not in the month of the date, it is in the
    first six days of the next month and the test of the scripts fails. *)
Lemma next_thursday_in_next_month (now : Date.date) :
  Date.valid now ->
  Date.mon (Date.next_thursday now) <> Date.mon now
  \/ Date.year (Date.next_thursday now) <> Date.year now ->
  Date.year (Date.next_thursday now) = Date.year (first_of_next_month now)
  /\ Date.mon (Date.next_thursday now) = Date.mon (first_of_next_month now)
  /\ 1 <= Date.day (Date.next_thursday now) < Date.day now
  /\ Date.day (Date.next_thursday now) <= 6
  /\ Date.eqb (Date.next_thursday now) (Date.last_thursday now) = false.
Proof.
  intros Hv Hother.
  pose proof (next_thursday_day_bounds now Hv) as Hday.
  destruct (last_thursday_spec now Hv) as (Hy & Hm & _).
  assert (Hneq : Date.eqb (Date.next_thursday now) (Date.last_thursday now)
                 = false).
  { destruct (Date.eqb _ _) eqn:E; [|reflexivity].
    apply eqb_eq in E. rewrite E, Hy, Hm in Hother. now destruct Hother. }
  unfold Date.next_thursday in *.
  set (k := (7 - Date.weekday now + Date.TH) mod 7) in *.
  assert (Hk : 0 <= k < 7) by (apply Z.mod_pos_bound; lia).
  destruct (add_days_shape (Z.to_nat k) now Hv ltac:(lia))
    as [[_ Heq]|(Hlt & Hy' & Hm' & Hd')].
  - rewrite Heq in Hother. simpl in Hother. now destruct Hother.
  - pose proof (days_in_month_bounds (Date.year now) (Date.mon now)).
    destruct Hv as [_ Hdd].
    repeat split; try assumption; lia.
Qed.

(** X9: in the last days of December, after the last Thursday of the
    year, the optimized script gives NIFTY a weekly code with the
    two-digit year of the old year and the month code of January. *)
Theorem nifty_code_across_new_year (now : Date.date) :
  Date.valid now ->
  Date.year (Date.next_thursday now) <> Date.year now ->
  Date.mon now = Date.Dec
  /\ Date.year (Date.next_thursday now) = Date.year now + 1
  /\ V2.get_expiry_code now "NIFTY"
     = (Date.yy now ++ "1" ++ Py.pad2 (Date.day (Date.next_thursday now)))%string.
Proof.
  intros Hv Hyear.
  destruct (next_thursday_in_next_month now Hv (or_intror Hyear))
    as (Hy & Hm & _ & _ & Heqb).
  assert (Hdec : Date.mon now = Date.Dec).
  { unfold first_of_next_month in Hy.
    destruct (Date.mon now); simpl in Hy; congruence. }
  unfold first_of_next_month in Hy, Hm. rewrite Hdec in Hy, Hm.
  simpl in Hy, Hm.
  split; [exact Hdec|]. split; [exact Hy|].
  rewrite (v2_code_nifty now "NIFTY" eq_refl), Heqb.
  unfold weekly_code. now rewrite Hm.
Qed.

Lemma nifty_code_across_new_year_witness :
  Date.valid (Date.mkDate 2025 Date.Dec 27)
  /\ Date.year (Date.next_thursday (Date.mkDate 2025 Date.Dec 27))
     <> Date.year (Date.mkDate 2025 Date.Dec 27)
  /\ Date.mon (Date.mkDate 2025 Date.Dec 27) = Date.Dec
  /\ Date.year (Date.next_thursday (Date.mkDate 2025 Date.Dec 27))
     = Date.year (Date.mkDate 2025 Date.Dec 27) + 1
  /\ V2.get_expiry_code (Date.mkDate 2025 Date.Dec 27) "NIFTY"
     = (Date.yy (Date.mkDate 2025 Date.Dec 27) ++ "1"
        ++ Py.pad2 (Date.day (Date.next_thursday (Date.mkDate 2025 Date.Dec 27))))%string.
Proof.
  assert (Hv : Date.valid (Date.mkDate 2025 Date.Dec 27))
    by (unfold Date.valid; simpl; lia).
  assert (Hy : Date.year (Date.next_thursday (Date.mkDate 2025 Date.Dec 27))
               <> Date.year (Date.mkDate 2025 Date.Dec 27))
    by (vm_compute; discriminate).
  split; [exact Hv|]. split; [exact Hy|].
  exact (nifty_code_across_new_year (Date.mkDate 2025 Date.Dec 27) Hv Hy).
Defined.

(** X10: when the next Thursday lies in the following month, the
    original script writes the month code of the current month next to
    the day of that Thursday: its weekly code for NIFTY names a day of the
    current month that is already past, and it is not the code of the
    optimized script. *)
Theorem original_weekly_code_after_last_thursday (now : Date.date) :
  Date.valid now ->
  Date.mon (Date.next_thursday now) <> Date.mon now ->
  V1.get_expiry_code now "NIFTY"
  = weekly_code now (Date.mon now) (Date.day (Date.next_thursday now))
  /\ Date.day (Date.next_thursday now) < Date.day now
  /\ V1.get_expiry_code now "NIFTY" <> V2.get_expiry_code now "NIFTY".
Proof.
  intros Hv Hmon.
  destruct (next_thursday_in_next_month now Hv (or_introl Hmon))
    as (_ & _ & Hday & _ & Heqb).
  rewrite (v1_code_table now "NIFTY") by (simpl; tauto).
  rewrite (v2_code_nifty now "NIFTY" eq_refl), Heqb.
  split; [reflexivity|]. split; [lia|].
  unfold weekly_code. intro H.
  apply append_inj_l in H.
  apply Hmon. symmetry. apply fyers_month_code_inj.
  destruct (Date.mon now), (Date.mon (Date.next_thursday now));
    simpl in H; try reflexivity; discriminate H.
Qed.

Lemma original_weekly_code_after_last_thursday_witness :
  Date.valid (Date.mkDate 2026 Date.Jan 30)
  /\ Date.mon (Date.next_thursday (Date.mkDate 2026 Date.Jan 30))
     <> Date.mon (Date.mkDate 2026 Date.Jan 30)
  /\ V1.get_expiry_code (Date.mkDate 2026 Date.Jan 30) "NIFTY"
     = weekly_code (Date.mkDate 2026 Date.Jan 30)
         (Date.mon (Date.mkDate 2026 Date.Jan 30))
         (Date.day (Date.next_thursday (Date.mkDate 2026 Date.Jan 30)))
  /\ Date.day (Date.next_thursday (Date.mkDate 2026 Date.Jan 30))
     < Date.day (Date.mkDate 2026 Date.Jan 30)
  /\ V1.get_expiry_code (Date.mkDate 2026 Date.Jan 30) "NIFTY"
     <> V2.get_expiry_code (Date.mkDate 2026 Date.Jan 30) "NIFTY".
Proof.
  assert (Hv : Date.valid (Date.mkDate 2026 Date.Jan 30))
    by (unfold Date.valid; simpl; lia).
  assert (Hm : Date.mon (Date.next_thursday (Date.mkDate 2026 Date.Jan 30))
               <> Date.mon (Date.mkDate 2026 Date.Jan 30))
    by (vm_compute; discriminate).
  split; [exact Hv|]. split; [exact Hm|].
  exact (original_weekly_code_after_last_thursday
           (Date.mkDate 2026 Date.Jan 30) Hv Hm).
Defined.

End Symbols.

(** ** The session with the vendor *)

Section Session.

Import Eff.

Variable parse_float : string -> option Q.
Variable auth_server : nat -> exn + string.
Variable quote_server : string -> nat -> exn + Json.t.

Local Abbreviation get_ltp := (App.get_ltp parse_float auth_server quote_server).

(** In an authenticated session [get_ltp] is one exchange followed by the
    reading of the answer. *)
Lemma get_ltp_authenticated (symbol : string) (w : world) :
  authenticated w = true ->
  get_ltp symbol w
  = match (response <- quote_server symbol (requests w) ;;
           App.quote_ltp parse_float response)%exn with
    | inr q => (Ret q, served w)
    | inl e =>
        (Ret 0%Q,
         logged ("❌ Error fetching LTP for " ++ symbol ++ ": " ++ exn_message e)
                (served w))
    end.
Proof.
  intro Hauth.
  destruct (and_then _ _) as [e|q] eqn:E.
  - now apply get_ltp_error.
  - unfold App.get_ltp, try_except, App.get_ltp_body.
    unfold bind at 1. unfold App.initialize_fyers_model.
    unfold bind at 1. unfold get_world. rewrite Hauth.
    cbn [ret negb]. unfold bind at 1. unfold exchange.
    unfold and_then in E.
    destruct (quote_server symbol (requests w)) as [e'|response];
      [discriminate E|].
    unfold lift. now rewrite E.
Qed.

(** What a call in an authenticated session leaves behind. *)
Lemma get_ltp_session (symbol : string) (w : world) :
  authenticated w = true ->
  exists q w',
    get_ltp symbol w = (Ret q, w')
    /\ authenticated w' = true
    /\ requests w' = S (requests w).
Proof.
  intro Hauth. rewrite (get_ltp_authenticated symbol w Hauth).
  destruct (and_then _ _) as [e|q]; eexists _, _;
    (split; [reflexivity|]); now split.
Qed.

(** A call in a session that has not logged in, when the login fails. *)
Lemma get_ltp_login_fails (symbol : string) (w : world) (e : exn) :
  logged_out w ->
  auth_server (requests w) = inl e ->
  exists w',
    get_ltp symbol w = (Ret 0%Q, w')
    /\ logged_out w'
    /\ access_token w' = None
    /\ fyers w' = fyers w
    /\ requests w' = S (requests w)
    /\ extends w w'.
Proof.
  intros [Hauth Htok] Hlogin.
  destruct w as [o t f a n]. simpl in Hauth, Htok, Hlogin. subst a.
  unfold App.get_ltp, try_except, App.get_ltp_body, bind,
    App.initialize_fyers_model, bind, get_world. cbn.
  rewrite Htok.
  unfold App.generate_access_token, try_except, bind, print, exchange,
    logged, served. cbn. rewrite Hlogin. cbn.
  eexists. split; [reflexivity|]. cbn.
  repeat split. rewrite <- app_assoc. now eexists.
Qed.

(** X11: in an authenticated session, when the vendor answers a quote
    of the usual shape — status "ok" and a first entry of "d" whose "v"
    holds the number "lp" — [get_ltp] returns that number (0.0 when it is
    zero) after exactly one exchange, prints nothing and leaves the
    session as it was. *)
Theorem get_ltp_returns_quoted_price (symbol : string) (w : world)
    (kv kd kq : list (string * Json.t)) (more : list Json.t) (lp : Q) :
  authenticated w = true ->
  quote_server symbol (requests w) = inr (Json.Obj kv) ->
  Json.assoc kv "s" = Some (Json.Str "ok") ->
  Json.assoc kv "d" = Some (Json.Arr (Json.Obj kd :: more)) ->
  Json.assoc kd "v" = Some (Json.Obj kq) ->
  Json.assoc kq "lp" = Some (Json.Num lp) ->
  get_ltp symbol w = (Ret (if Py.truthy lp then lp else 0%Q), served w).
Proof.
  intros Hauth Hq Hs Hd Hv Hlp.
  rewrite (get_ltp_authenticated symbol w Hauth), Hq.
  unfold and_then, App.quote_ltp, Json.get, Json.item, Json.first, and_then.
  rewrite Hs, Hd. cbn. rewrite Hv, Hlp. cbn.
  now destruct (Py.truthy lp).
Qed.

(** X12: in an authenticated session, an answer whose status is not
    "ok" gives 0.0 after one exchange and nothing is printed: an error
    that the vendor reports without raising leaves no trace. *)
Theorem get_ltp_error_answer_is_silent (symbol : string) (w : world)
    (kv : list (string * Json.t)) :
  authenticated w = true ->
  quote_server symbol (requests w) = inr (Json.Obj kv) ->
  Json.assoc kv "s" <> Some (Json.Str "ok") ->
  get_ltp symbol w = (Ret 0%Q, served w).
Proof.
  intros Hauth Hq Hs.
  rewrite (get_ltp_authenticated symbol w Hauth), Hq.
  unfold and_then, App.quote_ltp, Json.get, and_then.
  assert (Hno : Json.is_str (default Json.Null (Json.assoc kv "s")) "ok"
                = false).
  { destruct (Json.assoc kv "s") as [[| | |s| |]|]; try reflexivity.
    simpl. destruct (String.eqb_spec s "ok") as [->|]; [|reflexivity].
    now destruct Hs. }
  now rewrite Hno.
Qed.

(** X13: a call of [get_ltp] in a session that has not logged in, when
    the login fails, returns 0.0 after the one exchange of the login: the
    quote is not asked for, and the session is left logged out and
    without a token, so that the next call tries to log in again. *)
Theorem get_ltp_failed_login (symbol : string) (w : world) (e : exn) :
  logged_out w ->
  auth_server (requests w) = inl e ->
  exists w',
    get_ltp symbol w = (Ret 0%Q, w')
    /\ logged_out w'
    /\ access_token w' = None
    /\ requests w' = S (requests w)
    /\ extends w w'.
Proof.
  intros Hout Hlogin.
  destruct (get_ltp_login_fails symbol w e Hout Hlogin)
    as (w' & Hrun & Hout' & Htok & _ & Hreq & Hext).
  now exists w'.
Qed.

(** X14: the first call of [get_ltp] in a session that has not logged
    in, when the login gives a token, behaves like a call in the session
    the login leaves: authenticated, holding the token, one exchange
    later. *)
Theorem get_ltp_logs_in_first (symbol : string) (w : world) (token : string) :
  logged_out w ->
  auth_server (requests w) = inr token ->
  token <> "" ->
  exists w1,
    get_ltp symbol w = get_ltp symbol w1
    /\ authenticated w1 = true
    /\ access_token w1 = Some token
    /\ fyers w1 = Some token
    /\ requests w1 = S (requests w)
    /\ extends w w1.
Proof.
  intros [Hauth Htok] Hlogin Hne.
  assert (Htruthy : negb (String.eqb token "") = true).
  { destruct (String.eqb_spec token ""); [contradiction|reflexivity]. }
  exists (mkWorld (out w ++ ["🔐 Authenticating with Fyers API...";
                             "✅ Fyers authentication successful"])%list
                  (Some token) (Some token) true (S (requests w))).
  split; [|repeat split; now eexists].
  rewrite (get_ltp_authenticated symbol (mkWorld _ _ _ true _) eq_refl).
  destruct w as [o t f a n]. simpl in Hauth, Htok, Hlogin. subst a.
  unfold App.get_ltp, try_except, App.get_ltp_body, bind,
    App.initialize_fyers_model, bind, get_world. cbn.
  rewrite Htok.
  unfold App.generate_access_token, try_except, bind, print, exchange,
    set_access_token, logged, served. cbn. rewrite Hlogin. cbn.
  rewrite Htruthy. unfold set_model, ret. cbn.
  rewrite <- app_assoc. cbn.
  unfold and_then.
  destruct (quote_server symbol (S n)) as [e|response]; [reflexivity|].
  unfold lift. now destruct (App.quote_ltp parse_float response).
Qed.

End Session.

Lemma get_ltp_returns_quoted_price_witness :
  Eff.authenticated Scene.live = true
  /\ Sample.quote_server "NSE:RELIANCE-EQ" (Eff.requests Scene.live)
     = inr (Json.Obj (Scene.quote_fields (Json.Num 1412)))
  /\ Json.assoc (Scene.quote_fields (Json.Num 1412)) "s"
     = Some (Json.Str "ok")
  /\ Json.assoc (Scene.quote_fields (Json.Num 1412)) "d"
     = Some (Json.Arr [Json.Obj [("n", Json.Str "x");
                                 ("v", Json.Obj [("lp", Json.Num 1412)])]])
  /\ Json.assoc [("n", Json.Str "x"); ("v", Json.Obj [("lp", Json.Num 1412)])]
       "v" = Some (Json.Obj [("lp", Json.Num 1412)])
  /\ Json.assoc [("lp", Json.Num 1412)] "lp" = Some (Json.Num 1412)
  /\ Sample.get_ltp "NSE:RELIANCE-EQ" Scene.live
     = (Eff.Ret (if Py.truthy 1412 then 1412%Q else 0%Q),
        Eff.served Scene.live).
Proof.
  assert (H1 : Eff.authenticated Scene.live = true) by reflexivity.
  assert (H2 : Sample.quote_server "NSE:RELIANCE-EQ" (Eff.requests Scene.live)
               = inr (Json.Obj (Scene.quote_fields (Json.Num 1412))))
    by reflexivity.
  assert (H3 : Json.assoc (Scene.quote_fields (Json.Num 1412)) "s"
               = Some (Json.Str "ok")) by reflexivity.
  assert (H4 : Json.assoc (Scene.quote_fields (Json.Num 1412)) "d"
               = Some (Json.Arr [Json.Obj [("n", Json.Str "x");
                                 ("v", Json.Obj [("lp", Json.Num 1412)])]]))
    by reflexivity.
  assert (H5 : Json.assoc
                 [("n", Json.Str "x"); ("v", Json.Obj [("lp", Json.Num 1412)])]
                 "v" = Some (Json.Obj [("lp", Json.Num 1412)])) by reflexivity.
  assert (H6 : Json.assoc [("lp", Json.Num 1412)] "lp" = Some (Json.Num 1412))
    by reflexivity.
  repeat (split; [assumption|]).
  exact (get_ltp_returns_quoted_price Sample.parse_float Sample.auth_server
           Sample.quote_server "NSE:RELIANCE-EQ" Scene.live _ _ _ _ _
           H1 H2 H3 H4 H5 H6).
Defined.

Lemma get_ltp_error_answer_is_silent_witness :
  Eff.authenticated Scene.live = true
  /\ Sample.quote_server "NSE:TCS-EQ" (Eff.requests Scene.live)
     = inr (Json.Obj Scene.error_answer)
  /\ Json.assoc Scene.error_answer "s" <> Some (Json.Str "ok")
  /\ Sample.get_ltp "NSE:TCS-EQ" Scene.live
     = (Eff.Ret 0%Q, Eff.served Scene.live).
Proof.
  assert (H1 : Eff.authenticated Scene.live = true) by reflexivity.
  assert (H2 : Sample.quote_server "NSE:TCS-EQ" (Eff.requests Scene.live)
               = inr (Json.Obj Scene.error_answer)) by reflexivity.
  assert (H3 : Json.assoc Scene.error_answer "s" <> Some (Json.Str "ok"))
    by (simpl; discriminate).
  repeat (split; [assumption|]).
  exact (get_ltp_error_answer_is_silent Sample.parse_float Sample.auth_server
           Sample.quote_server "NSE:TCS-EQ" Scene.live Scene.error_answer
           H1 H2 H3).
Defined.

Lemma get_ltp_failed_login_witness :
  logged_out Sample.start
  /\ Scene.closed_auth_server (Eff.requests Sample.start)
     = inl (Eff.RequestError "OTP request failed")
  /\ exists w',
       App.get_ltp Sample.parse_float Scene.closed_auth_server
         Sample.quote_server "NSE:TCS-EQ" Sample.start = (Eff.Ret 0%Q, w')
       /\ logged_out w'
       /\ Eff.access_token w' = None
       /\ Eff.requests w' = S (Eff.requests Sample.start)
       /\ extends Sample.start w'.
Proof.
  assert (H1 : logged_out Sample.start) by (split; reflexivity).
  assert (H2 : Scene.closed_auth_server (Eff.requests Sample.start)
               = inl (Eff.RequestError "OTP request failed")) by reflexivity.
  repeat (split; [assumption|]).
  exact (get_ltp_failed_login Sample.parse_float Scene.closed_auth_server
           Sample.quote_server "NSE:TCS-EQ" Sample.start _ H1 H2).
Defined.

Lemma get_ltp_logs_in_first_witness :
  logged_out Sample.start
  /\ Sample.auth_server (Eff.requests Sample.start) = inr "token"
  /\ "token" <> ""
  /\ exists w1,
       Sample.get_ltp "NSE:TCS-EQ" Sample.start
       = Sample.get_ltp "NSE:TCS-EQ" w1
       /\ Eff.authenticated w1 = true
       /\ Eff.access_token w1 = Some "token"
       /\ Eff.fyers w1 = Some "token"
       /\ Eff.requests w1 = S (Eff.requests Sample.start)
       /\ extends Sample.start w1.
Proof.
  assert (H1 : logged_out Sample.start) by (split; reflexivity).
  assert (H3 : Sample.auth_server (Eff.requests Sample.start) = inr "token")
    by reflexivity.
  assert (H4 : "token" <> "") by discriminate.
  repeat (split; [assumption|]).
  exact (get_ltp_logs_in_first Sample.parse_float Sample.auth_server
           Sample.quote_server "NSE:TCS-EQ" Sample.start "token" H1 H3 H4).
Defined.

(** ** The orchestrator *)

Section Orchestrator.

Import Eff.

Variable parse_float : string -> option Q.
Variable parse_int : string -> option Z.
Variable dict_reader : list string -> list App.row.
Variable read_file : string -> option (exn + list string).
Variable auth_server : nat -> exn + string.
Variable quote_server : string -> nat -> exn + Json.t.
Variable now : Date.date.

Local Abbreviation get_ltp := (App.get_ltp parse_float auth_server quote_server).
Local Abbreviation process_symbol_with := (App.process_symbol_with now).
Local Abbreviation process_all_with := (App.process_all_with now).
Local Abbreviation read_symbols_from_csv :=
  (App.read_symbols_from_csv parse_int dict_reader read_file).
Local Abbreviation load_strike_intervals_from_file :=
  (App.load_strike_intervals_from_file parse_float dict_reader read_file).
Local Abbreviation run :=
  (App.run parse_float parse_int dict_reader read_file auth_server
           quote_server now).

(** What a result of [process_symbol] holds. *)
Lemma process_symbol_fields (fetch : string -> M Q)
    (strike_intervals : gmap string Q) (symbol : string) (lot_size : Z)
    (w w' : world) (r : result) :
  process_symbol_with fetch strike_intervals symbol lot_size w
  = (Ret (Some r), w') ->
  instrument r = (symbol, lot_size)
  /\ (0 < ltp r)%Q
  /\ atm_strike r = V2.calculate_atm_strike (ltp r) symbol strike_intervals
  /\ ce_symbol r = V2.create_option_symbol now symbol (atm_strike r) "CE"
  /\ pe_symbol r = V2.create_option_symbol now symbol (atm_strike r) "PE".
Proof.
  intro Hrun.
  unfold App.process_symbol_with, try_except, App.process_symbol_body in Hrun.
  unfold bind at 1 in Hrun. unfold print at 1 in Hrun.
  unfold bind at 1 in Hrun.
  destruct (fetch _ _) as [[q|e] w1]; [|discriminate Hrun].
  destruct (Qle_bool q 0) eqn:Hq; [discriminate Hrun|].
  unfold bind at 1 in Hrun. unfold print at 1 in Hrun.
  unfold bind at 1 in Hrun.
  destruct (fetch _ _) as [[ce|e] w2]; [|discriminate Hrun].
  unfold bind at 1 in Hrun.
  destruct (fetch _ _) as [[pe|e] w3]; [|discriminate Hrun].
  inversion Hrun; subst; clear Hrun. unfold instrument. cbn.
  repeat split; try reflexivity.
  destruct (Qlt_le_dec 0 q) as [Hlt|Hle]; [exact Hlt|].
  apply Qle_bool_iff in Hle. congruence.
Qed.

(** X15: a result of [process_symbol] is about the instrument it was
    asked for, with its lot size; its price is positive, its strike is the
    ATM strike of that price and its two contract identifiers are those of
    that strike. *)
Theorem process_symbol_result_consistent (fetch : string -> M Q)
    (strike_intervals : gmap string Q) (name : string) (lot : Z)
    (w w' : world) (r : result) :
  process_symbol_with fetch strike_intervals name lot w
  = (Ret (Some r), w') ->
  symbol r = name
  /\ lot_size r = lot
  /\ (0 < ltp r)%Q
  /\ atm_strike r = V2.calculate_atm_strike (ltp r) name strike_intervals
  /\ ce_symbol r = V2.create_option_symbol now name (atm_strike r) "CE"
  /\ pe_symbol r = V2.create_option_symbol now name (atm_strike r) "PE".
Proof.
  intro Hrun.
  destruct (process_symbol_fields _ _ _ _ _ _ _ Hrun)
    as (Hinst & Hltp & Hatm & Hce & Hpe).
  unfold instrument in Hinst. injection Hinst as Hname Hlot.
  repeat split; assumption.
Qed.

(** The exchanges of [process_symbol] in an authenticated session. *)
Lemma process_symbol_session (strike_intervals : gmap string Q)
    (symbol : string) (lot_size : Z) (w : world) :
  authenticated w = true ->
  exists r w',
    process_symbol_with get_ltp strike_intervals symbol lot_size w
    = (Ret r, w')
    /\ authenticated w' = true
    /\ requests w'
       = (requests w + match r with Some _ => 3 | None => 1 end)%nat.
Proof.
  intro Hauth.
  unfold App.process_symbol_with, try_except, App.process_symbol_body.
  unfold bind at 1. unfold print at 1. unfold bind at 1.
  destruct (get_ltp_session parse_float auth_server quote_server
              (V2.convert_symbol_to_fyers_format symbol)
              (logged ("🔍 Processing " ++ symbol ++ "...") w) Hauth)
    as (q & w1 & -> & Hauth1 & Hreq1).
  cbn [requests logged] in Hreq1.
  destruct (Qle_bool q 0).
  - unfold bind, print, ret. eexists _, _. split; [reflexivity|].
    cbn. split; [exact Hauth1|]. lia.
  - unfold bind at 1. unfold print at 1. unfold bind at 1.
    destruct (get_ltp_session parse_float auth_server quote_server
                (V2.create_option_symbol now symbol
                   (V2.calculate_atm_strike q symbol strike_intervals) "CE")
                (logged "LTP" w1) Hauth1)
      as (ce & w2 & -> & Hauth2 & Hreq2).
    cbn [requests logged] in Hreq2.
    unfold bind at 1.
    destruct (get_ltp_session parse_float auth_server quote_server
                (V2.create_option_symbol now symbol
                   (V2.calculate_atm_strike q symbol strike_intervals) "PE")
                w2 Hauth2)
      as (pe & w3 & -> & Hauth3 & Hreq3).
    unfold bind, print, ret. eexists _, _. split; [reflexivity|].
    cbn. split; [exact Hauth3|]. lia.
Qed.

(** X16: in an authenticated session [process_symbol] never raises and
    makes exactly one exchange when it returns [None] and exactly three —
    the underlying and the two contracts — when it returns a result; the
    session stays authenticated. *)
Theorem process_symbol_exchanges (strike_intervals : gmap string Q)
    (symbol : string) (lot_size : Z) (w : world) :
  authenticated w = true ->
  exists r w',
    process_symbol_with get_ltp strike_intervals symbol lot_size w
    = (Ret r, w')
    /\ authenticated w' = true
    /\ requests w'
       = (requests w + match r with Some _ => 3 | None => 1 end)%nat.
Proof. apply process_symbol_session. Qed.

(** The loop adds to the results it is given at most one result for each
    instrument, in the order of the instruments. *)
Lemma process_all_results (fetch : string -> M Q)
    (strike_intervals : gmap string Q) (symbols : list (string * Z)) :
  forall (all_results : list result) (w : world),
  exists new w',
    process_all_with fetch strike_intervals symbols all_results w
    = (Ret (all_results ++ new)%list, w')
    /\ sublist (map instrument new) symbols
    /\ Forall (fun r => 0 < ltp r)%Q new.
Proof.
  induction symbols as [|[symbol lot] rest IH]; intros acc w.
  - exists [], w. rewrite app_nil_r. repeat split; constructor.
  - destruct (process_symbol_never_raises now fetch strike_intervals symbol
                lot w) as (r & w1 & Hone).
    rewrite (process_all_step now fetch strike_intervals symbol lot rest acc
               w r w1 Hone).
    destruct r as [res|].
    + destruct (IH (acc ++ [res])%list w1) as (new & w' & Hrun & Hsub & Hpos).
      exists (res :: new), w'.
      destruct (process_symbol_fields _ _ _ _ _ _ _ Hone)
        as (Hinst & Hltp & _).
      split; [now rewrite Hrun, <- app_assoc|].
      split; [|now constructor].
      cbn [map]. rewrite Hinst. now constructor.
    + destruct (IH acc w1) as (new & w' & Hrun & Hsub & Hpos).
      exists new, w'. repeat split; try assumption. now constructor.
Qed.

(** X17: the loop of [run] never raises; it appends to the results at
    most one result for each instrument of the list, in the order of the
    list and with the instrument's lot size, each with a positive price. *)
Theorem loop_results_follow_instruments (fetch : string -> M Q)
    (strike_intervals : gmap string Q) (symbols : list (string * Z))
    (all_results : list result) (w : world) :
  exists new w',
    process_all_with fetch strike_intervals symbols all_results w
    = (Ret (all_results ++ new)%list, w')
    /\ sublist (map instrument new) symbols
    /\ Forall (fun r => 0 < ltp r)%Q new.
Proof. apply process_all_results. Qed.

(** The exchanges of the loop in an authenticated session. *)
Lemma process_all_session (strike_intervals : gmap string Q)
    (symbols : list (string * Z)) :
  forall (all_results : list result) (w : world),
  authenticated w = true ->
  exists new w',
    process_all_with get_ltp strike_intervals symbols all_results w
    = (Ret (all_results ++ new)%list, w')
    /\ authenticated w' = true
    /\ requests w' = (requests w + length symbols + 2 * length new)%nat
    /\ (length new <= length symbols)%nat.
Proof.
  induction symbols as [|[symbol lot] rest IH]; intros acc w Hauth.
  - exists [], w. rewrite app_nil_r. cbn.
    split; [reflexivity|]. split; [assumption|]. split; lia.
  - destruct (process_symbol_session strike_intervals symbol lot w Hauth)
      as (r & w1 & Hone & Hauth1 & Hreq1).
    rewrite (process_all_step now get_ltp strike_intervals symbol lot rest acc
               w r w1 Hone).
    destruct r as [res|].
    + destruct (IH (acc ++ [res])%list w1 Hauth1)
        as (new & w' & Hrun & Hauth' & Hreq & Hlen).
      exists (res :: new), w'.
      split; [now rewrite Hrun, <- app_assoc|].
      split; [assumption|]. cbn [length]. split; lia.
    + destruct (IH acc w1 Hauth1) as (new & w' & Hrun & Hauth' & Hreq & Hlen).
      exists new, w'. split; [assumption|].
      split; [assumption|]. cbn [length]. split; lia.
Qed.

(** X18: in an authenticated session the loop over [n] instruments
    makes one exchange for each instrument and two more for each result it
    adds: between [n] and [3 n] exchanges in all. *)
Theorem loop_exchanges (strike_intervals : gmap string Q)
    (symbols : list (string * Z)) (all_results : list result) (w : world) :
  authenticated w = true ->
  exists new w',
    process_all_with get_ltp strike_intervals symbols all_results w
    = (Ret (all_results ++ new)%list, w')
    /\ requests w' = (requests w + length symbols + 2 * length new)%nat
    /\ (requests w + length symbols <= requests w'
        <= requests w + 3 * length symbols)%nat.
Proof.
  intro Hauth.
  destruct (process_all_session strike_intervals symbols all_results w Hauth)
    as (new & w' & Hrun & _ & Hreq & Hlen).
  exists new, w'. split; [assumption|]. split; [assumption|]. lia.
Qed.

(** The two readers of files only print. *)
Lemma read_symbols_only_prints (csv_file : string) :
  only_prints (read_symbols_from_csv csv_file).
Proof.
  intro w. unfold App.read_symbols_from_csv.
  destruct (read_file csv_file) as [[e|lines]|].
  - unfold try_except, bind, lift, raise, print, ret, logged. cbn.
    now eexists _, _.
  - unfold try_except, bind, lift. cbn [ret].
    destruct (App.read_rows parse_int (dict_reader lines) []) as [e|symbols];
      unfold raise, print, ret, logged; cbn; now eexists _, _.
  - unfold bind, print, ret, logged. cbn. now eexists _, _.
Qed.

Lemma load_strike_intervals_only_prints (filename : string) :
  only_prints (load_strike_intervals_from_file filename).
Proof.
  intro w. unfold App.load_strike_intervals_from_file.
  destruct (read_file filename) as [[e|lines]|].
  - unfold try_except, bind, lift, raise, print, ret, logged. cbn.
    now eexists _, _.
  - unfold try_except, bind, lift. cbn [ret].
    destruct (App.load_rows parse_float
                (dict_reader (App.reader_lines lines)) ∅) as [e|m];
      unfold raise, print, ret, logged; cbn; now eexists _, _.
  - unfold bind, print, ret, logged. cbn. rewrite <- app_assoc.
    now eexists _, _.
Qed.

(** X19: the two readers of files — the strike intervals and the
    instruments — never raise, make no exchange with the vendor and
    leave the session as it is: besides returning a value, all they do is
    print. *)
Theorem file_readers_only_print (filename : string) :
  only_prints (load_strike_intervals_from_file filename)
  /\ only_prints (read_symbols_from_csv filename).
Proof.
  split; [apply load_strike_intervals_only_prints
         |apply read_symbols_only_prints].
Qed.

(** The login of [initialize_fyers_model] never raises. *)
Lemma initialize_fyers_model_never_raises :
  never_raises (App.initialize_fyers_model auth_server).
Proof.
  intro w. unfold App.initialize_fyers_model, bind, get_world.
  destruct (authenticated w); [now eexists _, _|].
  destruct (App.token_truthy (access_token w)).
  - cbn [ret]. destruct (access_token w) as [t|]; [|now eexists _, _].
    destruct (App.token_truthy (Some t)); now eexists _, _.
  - unfold App.generate_access_token, try_except, bind, print, exchange.
    destruct (auth_server _) as [e|token]; cbn.
    + now eexists _, _.
    + destruct (negb (String.eqb token "")); now eexists _, _.
Qed.

(** A successful [initialize_fyers_model] leaves an authenticated
    session. *)
Lemma initialize_fyers_model_true (w w' : world) :
  App.initialize_fyers_model auth_server w = (Ret true, w') ->
  authenticated w' = true.
Proof.
  unfold App.initialize_fyers_model, bind, get_world.
  destruct (authenticated w) eqn:Hauth; [intro H; inversion H; now subst|].
  destruct (App.token_truthy (access_token w)).
  - cbn [ret]. destruct (access_token w) as [t|]; [|discriminate].
    destruct (App.token_truthy (Some t)); [|discriminate].
    intro H. inversion H. reflexivity.
  - unfold App.generate_access_token, try_except, bind, print, exchange.
    destruct (auth_server _) as [e|token]; cbn; [discriminate|].
    destruct (negb (String.eqb token "")); [|discriminate].
    intro H. inversion H. reflexivity.
Qed.

(** The filter keeps results of the list, in order, and only those with
    a leg within the limit. *)
Lemma filter_by_margin_is_sublist (margin_filter : Q) (results : list result) :
  sublist (App.filter_by_margin margin_filter results) results.
Proof.
  induction results as [|r rest IH]; cbn [App.filter_by_margin].
  - constructor.
  - cbv zeta. destruct (within_limit _ _ || within_limit _ _);
      now constructor.
Qed.

Lemma filter_by_margin_Forall (P : result -> Prop) (margin_filter : Q)
    (results : list result) :
  Forall P results -> Forall P (App.filter_by_margin margin_filter results).
Proof.
  induction 1 as [|r rest Hr Hrest IH]; cbn [App.filter_by_margin].
  - constructor.
  - cbv zeta. destruct (within_limit _ _ || within_limit _ _);
      [now constructor|exact IH].
Qed.

Lemma filter_by_margin_all_kept (margin_filter : Q) (results : list result) :
  Forall (fun r => keeps margin_filter r = true)
         (App.filter_by_margin margin_filter results).
Proof.
  induction results as [|r rest IH]; cbn [App.filter_by_margin].
  - constructor.
  - cbv zeta.
    destruct (within_limit margin_filter (ce_margin r)
              || within_limit margin_filter (pe_margin r)) eqn:E;
      [constructor; [exact E|exact IH]|exact IH].
Qed.

(** X20: [run] never raises, and every result it returns has a leg
    whose margin is within the limit, is about an instrument of the file it
    read — at most one result for an instrument, in the file's order — and
    has a positive price. *)
Theorem run_results (csv_file : string) (margin_filter : Q)
    (strike_intervals : gmap string Q) (w : world) :
  exists results w',
    run csv_file margin_filter strike_intervals w = (Ret results, w')
    /\ Forall (fun r => keeps margin_filter r = true) results
    /\ Forall (fun r => 0 < ltp r)%Q results
    /\ exists symbols w1,
         read_symbols_from_csv csv_file w = (Ret symbols, w1)
         /\ sublist (map instrument results) symbols.
Proof.
  unfold App.run. unfold bind at 1.
  destruct (read_symbols_only_prints csv_file w) as (symbols & lines & Hread).
  rewrite Hread.
  destruct symbols as [|s0 rest].
  { exists [], (mkWorld (out w ++ lines) (access_token w) (fyers w)
                       (authenticated w) (requests w)).
    split; [reflexivity|]. repeat split; try constructor.
    eexists _, _. split; [reflexivity|]. constructor. }
  set (symbols := s0 :: rest).
  set (w1 := mkWorld _ _ _ _ _).
  unfold bind at 1.
  destruct (initialize_fyers_model_never_raises w1) as (ok & w2 & Hinit).
  rewrite Hinit. destruct ok; cbn [negb].
  - unfold bind at 1.
    destruct (process_all_results get_ltp strike_intervals symbols [] w2)
      as (new & w3 & Hloop & Hsub & Hpos).
    cbn [app] in Hloop. rewrite Hloop. unfold ret.
    exists (App.filter_by_margin margin_filter new), w3.
    split; [reflexivity|].
    split; [apply filter_by_margin_all_kept|].
    split; [now apply filter_by_margin_Forall|].
    exists symbols, w1. split; [reflexivity|].
    transitivity (map instrument new); [|exact Hsub].
    apply (fmap_sublist instrument), filter_by_margin_is_sublist.
  - unfold bind, print, ret. eexists _, _. split; [reflexivity|].
    repeat split; try constructor.
    exists symbols, w1. split; [reflexivity|]. apply sublist_nil_l.
Qed.

(** X21: when the instruments file gives no instrument — it is
    missing, unreadable or without rows — [run] returns no result without
    any exchange with the vendor: it does not log in. *)
Theorem run_without_instruments_stays_offline (csv_file : string)
    (margin_filter : Q) (strike_intervals : gmap string Q) (w : world) :
  fst (read_symbols_from_csv csv_file w) = Ret [] ->
  exists w',
    run csv_file margin_filter strike_intervals w = (Ret [], w')
    /\ requests w' = requests w
    /\ access_token w' = access_token w
    /\ authenticated w' = authenticated w.
Proof.
  intro Hnone. unfold App.run. unfold bind at 1.
  destruct (read_symbols_only_prints csv_file w) as (symbols & lines & Hread).
  rewrite Hread in *. cbn [fst] in Hnone. inversion Hnone; subst symbols.
  eexists. split; [reflexivity|]. now repeat split.
Qed.

End Orchestrator.

Lemma process_symbol_result_consistent_witness :
  App.process_symbol_with Sample.now Sample.get_ltp Sample.intervals
    "RELIANCE" 500 Sample.start
  = (Eff.Ret (Some Sample.reliance), Sample.after_reliance)
  /\ symbol Sample.reliance = "RELIANCE"
  /\ lot_size Sample.reliance = 500
  /\ (0 < ltp Sample.reliance)%Q
  /\ atm_strike Sample.reliance
     = V2.calculate_atm_strike (ltp Sample.reliance) "RELIANCE"
         Sample.intervals
  /\ ce_symbol Sample.reliance
     = V2.create_option_symbol Sample.now "RELIANCE"
         (atm_strike Sample.reliance) "CE"
  /\ pe_symbol Sample.reliance
     = V2.create_option_symbol Sample.now "RELIANCE"
         (atm_strike Sample.reliance) "PE".
Proof.
  assert (H : App.process_symbol_with Sample.now Sample.get_ltp
                Sample.intervals "RELIANCE" 500 Sample.start
              = (Eff.Ret (Some Sample.reliance), Sample.after_reliance))
    by (vm_compute; reflexivity).
  split; [exact H|].
  exact (process_symbol_result_consistent Sample.now Sample.get_ltp
           Sample.intervals "RELIANCE" 500 Sample.start Sample.after_reliance
           Sample.reliance H).
Defined.

Lemma process_symbol_exchanges_witness :
  Eff.authenticated Scene.live = true
  /\ exists r w',
       App.process_symbol_with Sample.now Sample.get_ltp Sample.intervals
         "RELIANCE" 500 Scene.live = (Eff.Ret r, w')
       /\ Eff.authenticated w' = true
       /\ Eff.requests w'
          = (Eff.requests Scene.live
             + match r with Some _ => 3 | None => 1 end)%nat.
Proof.
  assert (H : Eff.authenticated Scene.live = true) by reflexivity.
  split; [exact H|].
  exact (process_symbol_exchanges Sample.parse_float Sample.auth_server
           Sample.quote_server Sample.now Sample.intervals "RELIANCE" 500
           Scene.live H).
Defined.

Lemma loop_exchanges_witness :
  Eff.authenticated Scene.live = true
  /\ exists new w',
       App.process_all_with Sample.now Sample.get_ltp Sample.intervals
         [("NIFTY", 75); ("RELIANCE", 500)] [] Scene.live
       = (Eff.Ret ([] ++ new)%list, w')
       /\ Eff.requests w'
          = (Eff.requests Scene.live
             + length [("NIFTY", 75); ("RELIANCE", 500)]
             + 2 * length new)%nat
       /\ (Eff.requests Scene.live + length [("NIFTY", 75); ("RELIANCE", 500)]
           <= Eff.requests w'
           <= Eff.requests Scene.live
              + 3 * length [("NIFTY", 75); ("RELIANCE", 500)])%nat.
Proof.
  assert (H : Eff.authenticated Scene.live = true) by reflexivity.
  split; [exact H|].
  exact (loop_exchanges Sample.parse_float Sample.auth_server
           Sample.quote_server Sample.now Sample.intervals
           [("NIFTY", 75); ("RELIANCE", 500)] [] Scene.live H).
Defined.

Lemma run_without_instruments_stays_offline_witness :
  fst (App.read_symbols_from_csv Sample.parse_int Sample.dict_reader
         Sample.read_file "missing.csv" Sample.start) = Eff.Ret []
  /\ exists w',
       App.run Sample.parse_float Sample.parse_int Sample.dict_reader
         Sample.read_file Sample.auth_server Sample.quote_server Sample.now
         "missing.csv" 20000 Sample.intervals Sample.start = (Eff.Ret [], w')
       /\ Eff.requests w' = Eff.requests Sample.start
       /\ Eff.access_token w' = Eff.access_token Sample.start
       /\ Eff.authenticated w' = Eff.authenticated Sample.start.
Proof.
  assert (H : fst (App.read_symbols_from_csv Sample.parse_int
                     Sample.dict_reader Sample.read_file "missing.csv"
                     Sample.start) = Eff.Ret []) by reflexivity.
  split; [exact H|].
  exact (run_without_instruments_stays_offline Sample.parse_float
           Sample.parse_int Sample.dict_reader Sample.read_file
           Sample.auth_server Sample.quote_server Sample.now "missing.csv"
           20000 Sample.intervals Sample.start H).
Defined.

(** ** The report *)

Section ReportFacts.

Variable format_f2 : Q -> string.
Variable format_comma_f2 : Q -> string.

Local Abbreviation result_lines := (Report.result_lines format_f2).
Local Abbreviation format_lines := (Report.format_lines format_f2 format_comma_f2).
Local Abbreviation format_output := (Report.format_output format_f2 format_comma_f2).

(** The loop only appends to the lines it is given. *)
Lemma result_lines_app (margin_filter : Q) (results : list result) :
  forall lines : list string,
    result_lines margin_filter results lines
    = (lines ++ result_lines margin_filter results [])%list.
Proof.
  induction results as [|r rest IH]; intro lines; cbn [Report.result_lines].
  - now rewrite app_nil_r.
  - cbv zeta. rewrite IH.
    rewrite (IH (if within_limit margin_filter (pe_margin r) then _ else _)).
    destruct (within_limit margin_filter (ce_margin r)),
             (within_limit margin_filter (pe_margin r));
      cbn [app]; now rewrite <- ?app_assoc.
Qed.

Lemma result_lines_filtered (margin_filter : Q) (results : list result) :
  forall lines : list string,
    result_lines margin_filter (App.filter_by_margin margin_filter results)
                 lines
    = result_lines margin_filter results lines.
Proof.
  induction results as [|r rest IH]; intro lines;
    cbn [App.filter_by_margin]; [reflexivity|].
  cbv zeta.
  destruct (within_limit margin_filter (ce_margin r)) eqn:Hce;
    destruct (within_limit margin_filter (pe_margin r)) eqn:Hpe;
    cbn [orb Report.result_lines]; cbv zeta; rewrite ?Hce, ?Hpe; apply IH.
Qed.

Lemma result_lines_length (margin_filter : Q) (results : list result) :
  length (result_lines margin_filter results [])
  = list_sum (map (legs_within margin_filter) results).
Proof.
  induction results as [|r rest IH]; cbn [Report.result_lines]; [reflexivity|].
  cbv zeta. rewrite result_lines_app, length_app, IH.
  cbn [map list_sum]. unfold legs_within. f_equal.
  destruct (within_limit margin_filter (ce_margin r)),
           (within_limit margin_filter (pe_margin r)); reflexivity.
Qed.

Lemma legs_of_kept (margin_filter : Q) (results : list result) :
  (length (App.filter_by_margin margin_filter results)
   <= list_sum (map (legs_within margin_filter) results)
   <= 2 * length (App.filter_by_margin margin_filter results))%nat.
Proof.
  induction results as [|r rest IH]; cbn [App.filter_by_margin];
    [cbn; lia|].
  cbv zeta. cbn [map]. unfold list_sum. cbn [fold_right].
  fold (list_sum (map (legs_within margin_filter) rest)).
  assert (Hlegs : legs_within margin_filter r
                  = ((if within_limit margin_filter (ce_margin r)
                      then 1 else 0)
                     + (if within_limit margin_filter (pe_margin r)
                        then 1 else 0))%nat) by reflexivity.
  destruct (within_limit margin_filter (ce_margin r)),
           (within_limit margin_filter (pe_margin r));
    cbn [orb length]; lia.
Qed.

(** X22: the report of the filtered results is the report of all the
    results: [format_output] itself leaves out the legs that are not
    within the limit, and a result that the filter drops has no such
    leg. *)
Theorem format_output_ignores_filter (margin_filter : Q)
    (results : list result) :
  format_output margin_filter (App.filter_by_margin margin_filter results)
  = format_output margin_filter results.
Proof.
  unfold Report.format_output, Report.format_lines.
  now rewrite result_lines_filtered.
Qed.

(** X23: the report has eight fixed lines — seven before and one after
    the table — and one line for every leg within the limit, so between
    one and two lines for each result that passes the filter. *)
Theorem format_output_line_count (margin_filter : Q) (results : list result) :
  length (format_lines margin_filter results)
  = (8 + list_sum (map (legs_within margin_filter) results))%nat
  /\ (8 + length (App.filter_by_margin margin_filter results)
      <= length (format_lines margin_filter results)
      <= 8 + 2 * length (App.filter_by_margin margin_filter results))%nat.
Proof.
  assert (H : length (format_lines margin_filter results)
              = (8 + list_sum (map (legs_within margin_filter) results))%nat).
  { unfold Report.format_lines.
    rewrite result_lines_app, !length_app, result_lines_length.
    cbn [Report.header length]. lia. }
  split; [exact H|]. rewrite H.
  pose proof (legs_of_kept margin_filter results). lia.
Qed.

End ReportFacts.

(** ** The first script *)

Section OriginalFacts.

Import Eff.

Variable parse_float : string -> option Q.
Variable parse_int : string -> option Z.
Variable dict_reader : list string -> list App.row.
Variable read_file : string -> option (exn + list string).
Variable auth_server : nat -> exn + string.
Variable quote_server : string -> nat -> exn + Json.t.
Variable margin_server : string -> Z -> nat -> exn + (Z * (exn + Json.t)).
Variable save : string -> string -> exn + unit.
Variable format_f2 : Q -> string.
Variable format_comma_f2 : Q -> string.
Variable now : Date.date.

Local Abbreviation gather :=
  (Original.gather parse_float parse_int dict_reader read_file auth_server
     quote_server margin_server now).
Local Abbreviation run :=
  (Original.run parse_float parse_int dict_reader read_file auth_server
     quote_server margin_server save format_f2 format_comma_f2 now).
Local Abbreviation process_symbol_with :=
  (Original.process_symbol_with parse_float dict_reader read_file now).
Local Abbreviation process_all :=
  (Original.process_all parse_float dict_reader read_file auth_server
     quote_server margin_server now).
Local Abbreviation get_margin_requirement :=
  (Original.get_margin_requirement parse_float auth_server quote_server
     margin_server).

(** X24: whenever a result passes the filter, [run] of the first
    script ends with the [TypeError] of [format_output]: nothing is raised
    before, and after the results are gathered nothing is printed and no
    file is written. *)
Theorem original_run_raises_on_results (csv_file : string) (margin_filter : Q)
    (w w' : world) (filtered_results : list result) :
  gather csv_file margin_filter w = (Ret (Some filtered_results), w') ->
  filtered_results <> [] ->
  run csv_file margin_filter w = (Raise (TypeError "list.append() takes exactly one argument (0 given)"), w').
Proof.
  intros Hgather Hsome. unfold Original.run, bind. rewrite Hgather.
  destruct filtered_results as [|r rest]; [contradiction|].
  reflexivity.
Qed.

(** Without the strike intervals no instrument gives a result. *)
Lemma process_symbol_without_intervals (e : exn)
    (fetch : string -> M Q) (margin : string -> Z -> M Q)
    (name : string) (lot : Z) (w : world) :
  Original.load_strike_intervals_from_file parse_float dict_reader read_file
    Original.gaps_csv = inl e ->
  fst (process_symbol_with fetch margin name lot w) = Ret None.
Proof.
  intro Hload.
  unfold Original.process_symbol_with, try_except,
    Original.process_symbol_body.
  unfold bind at 1. unfold print at 1. unfold bind at 1.
  destruct (fetch _ _) as [[q|e'] w1]; [|reflexivity].
  destruct (Qle_bool q 0); [reflexivity|].
  unfold bind at 1. unfold Original.calculate_atm_strike, and_then.
  rewrite Hload. reflexivity.
Qed.

(** X25: when the file of the strike intervals at the fixed path
    cannot be loaded — it is missing, empty or has an unreadable row —
    [process_symbol] of the first script returns [None] for every
    instrument, whatever the vendor answers, and the loop of [run] adds no
    result. *)
Theorem original_needs_strike_intervals_file (e : exn) :
  Original.load_strike_intervals_from_file parse_float dict_reader read_file
    Original.gaps_csv = inl e ->
  (forall fetch margin name lot w,
     fst (process_symbol_with fetch margin name lot w) = Ret None)
  /\ forall symbols all_results w,
       fst (process_all symbols all_results w) = Ret all_results.
Proof.
  intro Hload. split.
  { intros. now apply (process_symbol_without_intervals e). }
  induction symbols as [|[name lot] rest IH]; intros acc w; [reflexivity|].
  cbn [Original.process_all]. unfold bind at 1.
  pose proof (process_symbol_without_intervals e
                (Original.get_ltp parse_float auth_server quote_server)
                get_margin_requirement name lot w Hload) as Hone.
  unfold Original.process_symbol.
  destruct (process_symbol_with _ _ name lot w) as [[r|e'] w1];
    cbn [fst] in Hone; [|discriminate].
  inversion Hone; subst r. apply IH.
Qed.

Lemma prefix_refl (s : string) : String.prefix s s = true.
Proof.
  induction s as [|c s IH]; [reflexivity|].
  cbn. destruct (ascii_dec c c); [exact IH|contradiction].
Qed.

Lemma contains_refl (s : string) : Original.contains s s = true.
Proof.
  destruct s; unfold Original.contains; fold Original.contains;
    now rewrite prefix_refl.
Qed.

Lemma contains_app_r (needle a b : string) :
  Original.contains needle b = true ->
  Original.contains needle (a ++ b) = true.
Proof.
  intro H. induction a as [|c a IH]; [exact H|].
  change (String c a ++ b)%string with (String c (a ++ b)).
  unfold Original.contains; fold Original.contains.
  rewrite IH. apply orb_true_r.
Qed.

(** An identifier of a contract ends with the kind of the contract. *)
Lemma option_symbol_contains (base : string) (strike : Z)
    (option_type : string) :
  Original.contains option_type
    (Original.create_option_symbol now base strike option_type) = true.
Proof.
  unfold Original.create_option_symbol. cbv zeta.
  do 4 apply contains_app_r. apply contains_refl.
Qed.

(** X26: in the first script, when the span-margin endpoint does not
    answer with status 200, the margin of a contract built by
    [create_option_symbol] is its quoted price times the quantity: the
    identifier holds "CE" or "PE", so the 20% estimate for equities is
    not taken.  The call makes two exchanges and prints nothing. *)
Theorem original_fallback_margin_is_premium (base : string) (strike qty : Z)
    (option_type id : string) (w : world) (t : string) (status : Z)
    (body : exn + Json.t) (response : Json.t) (q : Q) :
  id = Original.create_option_symbol now base strike option_type ->
  option_type = "CE" \/ option_type = "PE" ->
  fyers w = Some t ->
  margin_server id qty (requests w) = inr (status, body) ->
  status <> 200 ->
  quote_server id (S (requests w)) = inr response ->
  App.quote_ltp parse_float response = inr q ->
  (0 < q)%Q ->
  get_margin_requirement id qty w
  = (Ret (q * inject_Z qty)%Q, served (served w)).
Proof.
  intros Hid Htype Hfyers Hmargin Hstatus Hquote Hread Hpos.
  assert (Hcontains : Original.contains "CE" id || Original.contains "PE" id
                      = true).
  { rewrite Hid.
    destruct Htype as [-> | ->]; rewrite option_symbol_contains;
      [reflexivity|apply orb_true_r]. }
  apply ltb_lt in Hpos.
  unfold Original.get_margin_requirement, try_except.
  unfold bind at 1. unfold Original.ensure_model, bind, get_world.
  rewrite Hfyers. cbn [ret negb].
  unfold exchange at 1. rewrite Hmargin.
  unfold Original.span_margin. cbn [fst snd].
  destruct (Z.eqb_spec status 200) as [|_]; [contradiction|].
  cbn [lift ret].
  unfold Original.get_ltp, try_except, bind, Original.ensure_model, bind,
    get_world.
  assert (Hfyers' : fyers (served w) = Some t) by exact Hfyers.
  rewrite Hfyers'. cbn [ret negb].
  unfold exchange. change (requests (served w)) with (S (requests w)).
  rewrite Hquote.
  unfold lift. rewrite Hread. cbn [ret].
  rewrite Hpos, Hcontains. reflexivity.
Qed.

End OriginalFacts.

Lemma original_run_raises_on_results_witness :
  Scene.original_gather Sample.start
  = (Eff.Ret (Some [Scene.original_reliance]),
     snd (Scene.original_gather Sample.start))
  /\ [Scene.original_reliance] <> []
  /\ Scene.original_run Sample.start
     = (Eff.Raise (Eff.TypeError "list.append() takes exactly one argument (0 given)"),
        snd (Scene.original_gather Sample.start)).
Proof.
  assert (H1 : Scene.original_gather Sample.start
               = (Eff.Ret (Some [Scene.original_reliance]),
                  snd (Scene.original_gather Sample.start)))
    by (vm_compute; reflexivity).
  assert (H2 : [Scene.original_reliance] <> []) by discriminate.
  repeat (split; [assumption|]).
  exact (original_run_raises_on_results Sample.parse_float Sample.parse_int
           Sample.dict_reader Scene.read_file Sample.auth_server
           Scene.quote_server Scene.margin_server Scene.save
           Scene.format_f2 Scene.format_f2 Sample.now Web.CSV_FILE_PATH
           20000 Sample.start _ _ H1 H2).
Defined.

Lemma original_needs_strike_intervals_file_witness :
  Original.load_strike_intervals_from_file Sample.parse_float
    Sample.dict_reader Sample.read_file Original.gaps_csv
  = inl Original.file_not_found
  /\ (forall fetch margin name lot w,
        fst (Original.process_symbol_with Sample.parse_float
               Sample.dict_reader Sample.read_file Sample.now fetch margin
               name lot w) = Eff.Ret None)
  /\ forall symbols all_results w,
       fst (Original.process_all Sample.parse_float Sample.dict_reader
              Sample.read_file Sample.auth_server Sample.quote_server
              Scene.margin_server Sample.now symbols all_results w)
       = Eff.Ret all_results.
Proof.
  assert (H1 : Original.load_strike_intervals_from_file Sample.parse_float
                 Sample.dict_reader Sample.read_file Original.gaps_csv
               = inl Original.file_not_found) by reflexivity.
  split; [exact H1|].
  exact (original_needs_strike_intervals_file Sample.parse_float
           Sample.dict_reader Sample.read_file Sample.auth_server
           Sample.quote_server Scene.margin_server Sample.now _ H1).
Defined.

Lemma original_fallback_margin_is_premium_witness :
  "NSE:RELIANCE261081400CE"
  = Original.create_option_symbol Sample.now "RELIANCE" 1400 "CE"
  /\ ("CE" = "CE" \/ "CE" = "PE")
  /\ Eff.fyers Scene.live = Some "token"
  /\ Scene.margin_server "NSE:RELIANCE261081400CE" 500
       (Eff.requests Scene.live)
     = inr (401, inl (Eff.ValueError "Expecting value"))
  /\ 401 <> 200
  /\ Scene.quote_server "NSE:RELIANCE261081400CE"
       (S (Eff.requests Scene.live))
     = inr (Sample.quote (Json.Num (25 # 2)))
  /\ App.quote_ltp Sample.parse_float (Sample.quote (Json.Num (25 # 2)))
     = inr (25 # 2)%Q
  /\ (0 < 25 # 2)%Q
  /\ Original.get_margin_requirement Sample.parse_float Sample.auth_server
       Scene.quote_server Scene.margin_server
       "NSE:RELIANCE261081400CE" 500 Scene.live
     = (Eff.Ret ((25 # 2) * inject_Z 500)%Q,
        Eff.served (Eff.served Scene.live)).
Proof.
  assert (H1 : "NSE:RELIANCE261081400CE"
               = Original.create_option_symbol Sample.now "RELIANCE" 1400 "CE")
    by (vm_compute; reflexivity).
  assert (H2 : "CE" = "CE" \/ "CE" = "PE") by (left; reflexivity).
  assert (H3 : Eff.fyers Scene.live = Some "token") by reflexivity.
  assert (H4 : Scene.margin_server "NSE:RELIANCE261081400CE" 500
                 (Eff.requests Scene.live)
               = inr (401, inl (Eff.ValueError "Expecting value")))
    by reflexivity.
  assert (H5 : 401 <> 200) by lia.
  assert (H6 : Scene.quote_server "NSE:RELIANCE261081400CE"
                 (S (Eff.requests Scene.live))
               = inr (Sample.quote (Json.Num (25 # 2)))) by reflexivity.
  assert (H7 : App.quote_ltp Sample.parse_float
                 (Sample.quote (Json.Num (25 # 2))) = inr (25 # 2)%Q)
    by reflexivity.
  assert (H8 : (0 < 25 # 2)%Q) by reflexivity.
  repeat (split; [assumption|]).
  exact (original_fallback_margin_is_premium Sample.parse_float
           Sample.auth_server Scene.quote_server Scene.margin_server
           Sample.now "RELIANCE" 1400 500 "CE" _ Scene.live "token" 401 _ _ _
           H1 H2 H3 H4 H5 H6 H7 H8).
Defined.

(** ** The web page *)

Section WebFacts.

Import Eff.

Variable parse_float : string -> option Q.
Variable parse_int : string -> option Z.
Variable dict_reader : list string -> list App.row.
Variable read_file : string -> option (exn + list string).
Variable auth_server : nat -> exn + string.
Variable quote_server : string -> nat -> exn + Json.t.
Variable now : Date.date.

Local Abbreviation get_ltp := (App.get_ltp parse_float auth_server quote_server).
Local Abbreviation initialize_fyers_model :=
  (App.initialize_fyers_model auth_server).
Local Abbreviation process_symbol_with := (App.process_symbol_with now).
Local Abbreviation process_all_with := (App.process_all_with now).
Local Abbreviation read_symbols_from_csv :=
  (App.read_symbols_from_csv parse_int dict_reader read_file).
Local Abbreviation load_strike_intervals_from_file :=
  (App.load_strike_intervals_from_file parse_float dict_reader read_file).
Local Abbreviation run :=
  (App.run parse_float parse_int dict_reader read_file auth_server
           quote_server now).
Local Abbreviation index :=
  (Web.index parse_float parse_int dict_reader read_file auth_server
             quote_server now).
Local Abbreviation request_margin_filter :=
  (Web.request_margin_filter parse_float).

(** What the readers return does not depend on the world. *)
Lemma read_symbols_value (csv_file : string) (w1 w2 : world) :
  fst (read_symbols_from_csv csv_file w1)
  = fst (read_symbols_from_csv csv_file w2).
Proof.
  unfold App.read_symbols_from_csv.
  destruct (read_file csv_file) as [[e|lines]|]; try reflexivity.
  unfold try_except, bind, lift. cbn [ret].
  now destruct (App.read_rows parse_int (dict_reader lines) []).
Qed.

Lemma load_strike_intervals_value (filename : string) (w1 w2 : world) :
  fst (load_strike_intervals_from_file filename w1)
  = fst (load_strike_intervals_from_file filename w2).
Proof.
  unfold App.load_strike_intervals_from_file.
  destruct (read_file filename) as [[e|lines]|]; try reflexivity.
  unfold try_except, bind, lift. cbn [ret].
  now destruct (App.load_rows parse_float _ ∅).
Qed.

(** The login of a session that has not logged in. *)
Lemma initialize_login_fails (w : world) (e : exn) :
  logged_out w ->
  auth_server (requests w) = inl e ->
  exists w',
    initialize_fyers_model w = (Ret false, w')
    /\ logged_out w'
    /\ requests w' = S (requests w).
Proof.
  intros [Hauth Htok] Hlogin.
  destruct w as [o t f a n]. simpl in Hauth, Htok, Hlogin. subst a.
  unfold App.initialize_fyers_model, bind, get_world. cbn.
  rewrite Htok.
  unfold App.generate_access_token, try_except, bind, print, exchange,
    logged, served. cbn. rewrite Hlogin. cbn.
  eexists. split; [reflexivity|]. now repeat split.
Qed.

Lemma initialize_login_succeeds (w : world) (token : string) :
  logged_out w ->
  auth_server (requests w) = inr token ->
  token <> "" ->
  exists w',
    initialize_fyers_model w = (Ret true, w')
    /\ authenticated w' = true
    /\ requests w' = S (requests w).
Proof.
  intros [Hauth Htok] Hlogin Hne.
  assert (Htruthy : negb (String.eqb token "") = true).
  { destruct (String.eqb_spec token ""); [contradiction|reflexivity]. }
  destruct w as [o t f a n]. simpl in Hauth, Htok, Hlogin. subst a.
  unfold App.initialize_fyers_model, bind, get_world. cbn.
  rewrite Htok.
  unfold App.generate_access_token, try_except, bind, print, exchange,
    set_access_token, logged, served. cbn. rewrite Hlogin. cbn.
  rewrite Htruthy. unfold set_model, ret. cbn.
  eexists. split; [reflexivity|]. now split.
Qed.

(** The loop in a session that cannot log in. *)
Lemma process_symbol_logged_out (strike_intervals : gmap string Q)
    (name : string) (lot : Z) (w : world) :
  (forall n, exists e, auth_server n = inl e) ->
  logged_out w ->
  exists w',
    process_symbol_with get_ltp strike_intervals name lot w = (Ret None, w')
    /\ logged_out w'
    /\ requests w' = S (requests w).
Proof.
  intros Hclosed Hout.
  unfold App.process_symbol_with, try_except, App.process_symbol_body.
  unfold bind at 1. unfold print at 1. unfold bind at 1.
  destruct (Hclosed (requests (logged ("🔍 Processing " ++ name ++ "...") w)))
    as [e He].
  destruct (get_ltp_login_fails parse_float auth_server quote_server
              (V2.convert_symbol_to_fyers_format name)
              (logged ("🔍 Processing " ++ name ++ "...") w) e Hout He)
    as (w1 & -> & Hout1 & _ & _ & Hreq & _).
  change (Qle_bool 0 0) with true. cbv iota.
  unfold bind, print, ret. eexists. split; [reflexivity|].
  split; [exact Hout1|exact Hreq].
Qed.

Lemma process_all_logged_out (strike_intervals : gmap string Q)
    (symbols : list (string * Z)) :
  (forall n, exists e, auth_server n = inl e) ->
  forall (all_results : list result) (w : world),
  logged_out w ->
  exists w',
    process_all_with get_ltp strike_intervals symbols all_results w
    = (Ret all_results, w')
    /\ requests w' = (requests w + length symbols)%nat.
Proof.
  intro Hclosed.
  induction symbols as [|[name lot] rest IH]; intros acc w Hout.
  - exists w. split; [reflexivity|]. cbn. lia.
  - destruct (process_symbol_logged_out strike_intervals name lot w Hclosed
                Hout) as (w1 & Hone & Hout1 & Hreq1).
    rewrite (process_all_step now get_ltp strike_intervals name lot rest acc
               w None w1 Hone).
    destruct (IH acc w1 Hout1) as (w' & Hrun & Hreq).
    exists w'. split; [exact Hrun|]. cbn [length]. lia.
Qed.

(** The loop in two sessions that are in step. *)
Lemma get_ltp_in_step (symbol : string) (w1 w2 : world) :
  in_step w1 w2 ->
  exists q w1' w2',
    get_ltp symbol w1 = (Ret q, w1')
    /\ get_ltp symbol w2 = (Ret q, w2')
    /\ in_step w1' w2'.
Proof.
  intros (Hauth1 & Hauth2 & Hreq).
  rewrite (get_ltp_authenticated parse_float auth_server quote_server
             symbol w1 Hauth1).
  rewrite (get_ltp_authenticated parse_float auth_server quote_server
             symbol w2 Hauth2).
  rewrite Hreq.
  destruct (and_then _ _) as [e|q]; eexists _, _, _;
    (split; [reflexivity|]); (split; [reflexivity|]);
    repeat split; cbn; congruence.
Qed.

Lemma in_step_logged (line1 line2 : string) (w1 w2 : world) :
  in_step w1 w2 -> in_step (logged line1 w1) (logged line2 w2).
Proof. intros (H1 & H2 & H3). now repeat split. Qed.

Lemma process_symbol_in_step (strike_intervals : gmap string Q)
    (name : string) (lot : Z) (w1 w2 : world) :
  in_step w1 w2 ->
  exists r w1' w2',
    process_symbol_with get_ltp strike_intervals name lot w1 = (Ret r, w1')
    /\ process_symbol_with get_ltp strike_intervals name lot w2
       = (Ret r, w2')
    /\ in_step w1' w2'.
Proof.
  intro Hstep.
  unfold App.process_symbol_with, try_except, App.process_symbol_body,
    bind, print.
  destruct (get_ltp_in_step (V2.convert_symbol_to_fyers_format name) _ _
              (in_step_logged ("🔍 Processing " ++ name ++ "...")
                 ("🔍 Processing " ++ name ++ "...") w1 w2 Hstep))
    as (q & u1 & u2 & E1 & E2 & Hstep1).
  rewrite E1, E2. cbv iota beta.
  destruct (Qle_bool q 0).
  - unfold ret. eexists _, _, _.
    split; [reflexivity|]. split; [reflexivity|].
    now apply in_step_logged.
  - destruct (get_ltp_in_step
                (V2.create_option_symbol now name
                   (V2.calculate_atm_strike q name strike_intervals) "CE")
                _ _ (in_step_logged "LTP" "LTP" u1 u2 Hstep1))
      as (ce & v1 & v2 & E3 & E4 & Hstep2).
    rewrite E3, E4. cbv iota beta.
    destruct (get_ltp_in_step
                (V2.create_option_symbol now name
                   (V2.calculate_atm_strike q name strike_intervals) "PE")
                v1 v2 Hstep2)
      as (pe & x1 & x2 & E5 & E6 & Hstep3).
    rewrite E5, E6. cbv iota beta.
    unfold ret. eexists _, _, _.
    split; [reflexivity|]. split; [reflexivity|].
    now apply in_step_logged.
Qed.

Lemma process_all_in_step (strike_intervals : gmap string Q)
    (symbols : list (string * Z)) :
  forall (all_results : list result) (w1 w2 : world),
  in_step w1 w2 ->
  exists results w1' w2',
    process_all_with get_ltp strike_intervals symbols all_results w1
    = (Ret results, w1')
    /\ process_all_with get_ltp strike_intervals symbols all_results w2
       = (Ret results, w2')
    /\ in_step w1' w2'.
Proof.
  induction symbols as [|[name lot] rest IH]; intros acc w1 w2 Hstep.
  - now exists acc, w1, w2.
  - destruct (process_symbol_in_step strike_intervals name lot w1 w2 Hstep)
      as (r & u1 & u2 & Hone1 & Hone2 & Hstep1).
    rewrite (process_all_step now get_ltp strike_intervals name lot rest acc
               w1 r u1 Hone1).
    rewrite (process_all_step now get_ltp strike_intervals name lot rest acc
               w2 r u2 Hone2).
    now apply IH.
Qed.

(** X27: [index] never raises and always shows a page: the limit of
    the page is the one of the request — 20000 when the request has none
    or one that is not a number — and either no instrument was loaded and
    the page says so, or the page has no error text and its results are
    results of the loop with a leg within the limit. *)
Theorem index_always_shows_a_page (arg : option string) (w : world) :
  exists p w',
    index arg w = (Ret p, w')
    /\ Web.page_margin_filter p = request_margin_filter arg
    /\ request_margin_filter None = 20000%Q
    /\ (forall s, parse_float s = None ->
          request_margin_filter (Some s) = 20000%Q)
    /\ Forall (fun r => keeps (request_margin_filter arg) r = true)
              (Web.page_results p)
    /\ (Web.page_error p = None
        \/ (Web.page_error p = Some "No symbols loaded!" /\ Web.page_results p = [])).
Proof.
  unfold Web.index. cbv zeta. unfold try_except.
  unfold bind at 1. unfold Web.new_fyers_api.
  set (wa := mkWorld (out w) None None false (requests w)).
  unfold bind at 1.
  destruct (load_strike_intervals_only_prints parse_float dict_reader
              read_file Web.STRIKE_INTERVALS_CSV wa) as (iv & lines & ->).
  set (wb := mkWorld _ _ _ _ _).
  unfold bind at 1.
  destruct (initialize_fyers_model_never_raises auth_server wb)
    as (ok & wc & ->).
  unfold bind at 1.
  destruct (read_symbols_only_prints parse_int dict_reader read_file
              Web.CSV_FILE_PATH wc) as (symbols & lines' & ->).
  set (wd := mkWorld _ _ _ _ _).
  assert (Hdefault : forall s, parse_float s = None ->
            request_margin_filter (Some s) = 20000%Q).
  { intros s Hs. unfold Web.request_margin_filter. now rewrite Hs. }
  destruct symbols as [|s0 rest].
  { unfold ret. eexists _, _. split; [reflexivity|]. cbn.
    repeat split; try assumption; [constructor|now right]. }
  unfold bind at 1.
  destruct (process_all_never_raises now get_ltp iv (s0 :: rest) [] wd)
    as (all_results & we & ->).
  unfold ret. eexists _, _. split; [reflexivity|]. cbn.
  repeat split; try assumption; [apply filter_by_margin_all_kept|now left].
Qed.

(** X28: when every login fails, [index] still asks for the quote of
    every instrument — each call tries to log in again — and shows a page
    without results and without an error text, after one exchange for its
    own login and one for each instrument. *)
Theorem index_without_login_shows_empty_page (arg : option string)
    (w : world) (symbols : list (string * Z)) :
  (forall n, exists e, auth_server n = inl e) ->
  fst (read_symbols_from_csv Web.CSV_FILE_PATH w) = Ret symbols ->
  symbols <> [] ->
  exists w',
    index arg w = (Ret (Web.mkPage (request_margin_filter arg) [] None), w')
    /\ requests w' = (requests w + 1 + length symbols)%nat.
Proof.
  intros Hclosed Hread Hsome.
  unfold Web.index. cbv zeta. unfold try_except.
  unfold bind at 1. unfold Web.new_fyers_api.
  set (wa := mkWorld (out w) None None false (requests w)).
  unfold bind at 1.
  destruct (load_strike_intervals_only_prints parse_float dict_reader
              read_file Web.STRIKE_INTERVALS_CSV wa) as (iv & lines & ->).
  set (wb := mkWorld _ _ _ _ _).
  assert (Hout : logged_out wb) by (split; reflexivity).
  destruct (Hclosed (requests wb)) as [e He].
  destruct (initialize_login_fails wb e Hout He) as (wc & Hinit & Hout1 & Hreq1).
  unfold bind at 1. rewrite Hinit.
  unfold bind at 1.
  pose proof (read_symbols_value Web.CSV_FILE_PATH wc w) as Hsame.
  rewrite Hread in Hsame.
  destruct (read_symbols_only_prints parse_int dict_reader read_file
              Web.CSV_FILE_PATH wc) as (symbols' & lines' & Hread').
  rewrite Hread' in Hsame |- *. cbn [fst] in Hsame.
  inversion Hsame; subst symbols'.
  set (wd := mkWorld _ _ _ _ _).
  assert (Hout2 : logged_out wd) by exact Hout1.
  destruct symbols as [|s0 rest]; [contradiction|].
  unfold bind at 1.
  destruct (process_all_logged_out iv (s0 :: rest) Hclosed [] wd Hout2)
    as (we & -> & Hreq).
  unfold ret. eexists. split; [reflexivity|].
  rewrite Hreq. subst wd. cbn [requests]. rewrite Hreq1. subst wb wa.
  cbn [requests]. lia.
Qed.

(** X29: when the login gives a token, the results on the page of
    [index] are the results of [run] of the optimized script, for the
    limit of the request and the strike intervals of the [Config] file, in
    a session that has not logged in. *)
Theorem index_shows_results_of_run (arg : option string) (w : world)
    (token : string) :
  logged_out w ->
  auth_server (requests w) = inr token ->
  token <> "" ->
  exists p w1 strike_intervals w2 results w3,
    index arg w = (Ret p, w1)
    /\ load_strike_intervals_from_file Web.STRIKE_INTERVALS_CSV w
       = (Ret strike_intervals, w2)
    /\ run Web.CSV_FILE_PATH (request_margin_filter arg) strike_intervals w2
       = (Ret results, w3)
    /\ Web.page_results p = results.
Proof.
  intros Hout Hlogin Hne.
  (* the command line *)
  destruct (load_strike_intervals_only_prints parse_float dict_reader
              read_file Web.STRIKE_INTERVALS_CSV w) as (iv & lines0 & Hload).
  set (w2 := mkWorld _ _ _ _ _) in Hload.
  assert (Hout2 : logged_out w2) by exact Hout.
  destruct (read_symbols_only_prints parse_int dict_reader read_file
              Web.CSV_FILE_PATH w2) as (symbols & lines1 & Hread).
  set (w3 := mkWorld _ _ _ _ _) in Hread.
  assert (Hout3 : logged_out w3) by exact Hout.
  destruct (initialize_login_succeeds w3 token Hout3 Hlogin Hne)
    as (w4 & Hinit & Hauth4 & Hreq4).
  (* the page *)
  unfold Web.index. cbv zeta. unfold try_except.
  unfold bind at 1. unfold Web.new_fyers_api.
  set (wa := mkWorld (out w) None None false (requests w)).
  unfold bind at 1.
  pose proof (load_strike_intervals_value Web.STRIKE_INTERVALS_CSV wa w)
    as Hiv.
  rewrite Hload in Hiv.
  destruct (load_strike_intervals_only_prints parse_float dict_reader
              read_file Web.STRIKE_INTERVALS_CSV wa) as (iv' & lines & Hload').
  rewrite Hload' in Hiv |- *. cbn [fst] in Hiv. inversion Hiv; subst iv'.
  set (wb := mkWorld _ _ _ _ _).
  assert (Houtb : logged_out wb) by (split; reflexivity).
  destruct (initialize_login_succeeds wb token Houtb Hlogin Hne)
    as (wc & Hinitb & Hauthc & Hreqc).
  unfold bind at 1. rewrite Hinitb.
  unfold bind at 1.
  pose proof (read_symbols_value Web.CSV_FILE_PATH wc w2) as Hsame.
  rewrite Hread in Hsame.
  destruct (read_symbols_only_prints parse_int dict_reader read_file
              Web.CSV_FILE_PATH wc) as (symbols' & lines' & Hread').
  rewrite Hread' in Hsame |- *. cbn [fst] in Hsame.
  inversion Hsame; subst symbols'.
  set (wd := mkWorld _ _ _ _ _).
  destruct symbols as [|s0 rest].
  { unfold ret. eexists _, _, iv, w2, [], w3.
    split; [reflexivity|]. split; [exact Hload|].
    split; [|reflexivity].
    unfold App.run. unfold bind at 1. now rewrite Hread. }
  assert (Hstep : in_step wd w4).
  { repeat split; [exact Hauthc|exact Hauth4|].
    subst wd. cbn [requests]. rewrite Hreqc, Hreq4. reflexivity. }
  destruct (process_all_in_step iv (s0 :: rest) [] wd w4 Hstep)
    as (all_results & we & w5 & Hloop1 & Hloop2 & _).
  unfold bind at 1. rewrite Hloop1. unfold ret.
  eexists _, _, iv, w2, _, w5.
  split; [reflexivity|]. split; [exact Hload|].
  split; [|reflexivity].
  unfold App.run. unfold bind at 1. rewrite Hread.
  unfold bind at 1. rewrite Hinit. cbn [negb].
  unfold bind at 1. rewrite Hloop2. reflexivity.
Qed.

End WebFacts.

Lemma index_without_login_shows_empty_page_witness :
  (forall n, exists e, Scene.closed_auth_server n = inl e)
  /\ fst (App.read_symbols_from_csv Sample.parse_int Sample.dict_reader
            Scene.read_file Web.CSV_FILE_PATH Sample.start)
     = Eff.Ret [("RELIANCE", 500)]
  /\ [("RELIANCE", 500)] <> []
  /\ exists w',
       Web.index Sample.parse_float Sample.parse_int Sample.dict_reader
         Scene.read_file Scene.closed_auth_server Scene.quote_server
         Sample.now None Sample.start
       = (Eff.Ret (Web.mkPage (Web.request_margin_filter Sample.parse_float
                                 None) [] None), w')
       /\ Eff.requests w'
          = (Eff.requests Sample.start + 1 + length [("RELIANCE", 500)])%nat.
Proof.
  assert (H1 : forall n, exists e, Scene.closed_auth_server n = inl e)
    by (intro n; eexists; reflexivity).
  assert (H2 : fst (App.read_symbols_from_csv Sample.parse_int
                      Sample.dict_reader Scene.read_file Web.CSV_FILE_PATH
                      Sample.start) = Eff.Ret [("RELIANCE", 500)])
    by (vm_compute; reflexivity).
  assert (H3 : [("RELIANCE", 500)] <> []) by discriminate.
  repeat (split; [assumption|]).
  exact (index_without_login_shows_empty_page Sample.parse_float
           Sample.parse_int Sample.dict_reader Scene.read_file
           Scene.closed_auth_server Scene.quote_server Sample.now None
           Sample.start [("RELIANCE", 500)] H1 H2 H3).
Defined.

Lemma index_shows_results_of_run_witness :
  logged_out Sample.start
  /\ Sample.auth_server (Eff.requests Sample.start) = inr "token"
  /\ "token" <> ""
  /\ exists p w1 strike_intervals w2 results w3,
       Web.index Sample.parse_float Sample.parse_int Sample.dict_reader
         Scene.read_file Sample.auth_server Scene.quote_server Sample.now
         (Some "100") Sample.start = (Eff.Ret p, w1)
       /\ App.load_strike_intervals_from_file Sample.parse_float
            Sample.dict_reader Scene.read_file Web.STRIKE_INTERVALS_CSV
            Sample.start = (Eff.Ret strike_intervals, w2)
       /\ App.run Sample.parse_float Sample.parse_int Sample.dict_reader
            Scene.read_file Sample.auth_server Scene.quote_server
            Sample.now Web.CSV_FILE_PATH
            (Web.request_margin_filter Sample.parse_float (Some "100"))
            strike_intervals w2 = (Eff.Ret results, w3)
       /\ Web.page_results p = results.
Proof.
  assert (H1 : logged_out Sample.start) by (split; reflexivity).
  assert (H2 : Sample.auth_server (Eff.requests Sample.start) = inr "token")
    by reflexivity.
  assert (H3 : "token" <> "") by discriminate.
  repeat (split; [assumption|]).
  exact (index_shows_results_of_run Sample.parse_float Sample.parse_int
           Sample.dict_reader Scene.read_file Sample.auth_server
           Scene.quote_server Sample.now (Some "100") Sample.start "token"
           H1 H2 H3).
Defined.

(** ** The names in the file of the strike intervals *)

Section IntervalNames.

(** X30: [calculate_atm_strike] of the optimized script looks a name
    up in upper case, so an entry of the dictionary under a name with a
    lower-case letter is never read: adding, changing or removing it
    leaves every strike as it is. *)
Theorem strike_ignores_lower_case_entries (ltp : Q) (name key : string)
    (v : Q) (intervals : gmap string Q) :
  Py.upper key <> key ->
  V2.calculate_atm_strike ltp name (<[key := v]> intervals)
  = V2.calculate_atm_strike ltp name intervals
  /\ V2.calculate_atm_strike ltp name (delete key intervals)
     = V2.calculate_atm_strike ltp name intervals.
Proof.
  intro Hkey.
  assert (Hne : key <> Py.upper name).
  { intros ->. apply Hkey, upper_idempotent. }
  unfold V2.calculate_atm_strike, V2.strike_interval.
  now rewrite lookup_insert_ne, lookup_delete_ne.
Qed.

End IntervalNames.

Lemma strike_ignores_lower_case_entries_witness :
  Py.upper "Reliance" <> "Reliance"
  /\ V2.calculate_atm_strike 1412 "Reliance"
       (<["Reliance" := 5%Q]> Sample.intervals)
     = V2.calculate_atm_strike 1412 "Reliance" Sample.intervals
  /\ V2.calculate_atm_strike 1412 "Reliance"
       (delete "Reliance" Sample.intervals)
     = V2.calculate_atm_strike 1412 "Reliance" Sample.intervals.
Proof.
  assert (H : Py.upper "Reliance" <> "Reliance") by (vm_compute; discriminate).
  split; [exact H|].
  exact (strike_ignores_lower_case_entries 1412 "Reliance" "Reliance" 5
           Sample.intervals H).
Defined.

(** ** The strike-intervals loader *)

Section FloatFacts.

Import Gaps.





End FloatFacts.

Section Loader.

Import Eff.
Import Gaps.

Variable parse_float : string -> option float.
Variable dict_reader : list string -> list App.row.
Variable read_file : string -> option (exn + list string).

Local Abbreviation load_row := (Gaps.load_row parse_float).
Local Abbreviation load_rows := (Gaps.load_rows parse_float).
Local Abbreviation load_strike_intervals_from_file :=
  (Gaps.load_strike_intervals_from_file parse_float dict_reader read_file).









End Loader.


Example nan_depends_on_order :
  fst (Gaps.load_strike_intervals_from_file Scene.parse_gap
         Sample.dict_reader Scene.gap_files "nan_first.csv" Sample.start)
  = Eff.Ret (<["RELIANCE" := Gaps.NaN]> ∅)
  /\ fst (Gaps.load_strike_intervals_from_file Scene.parse_gap
            Sample.dict_reader Scene.gap_files "nan_last.csv" Sample.start)
     = Eff.Ret (<["RELIANCE" := Gaps.Finite (5 # 2)]> ∅).
Proof. split; vm_compute; reflexivity. Qed.


(** The loader of the pipeline is this loader on the numbers: when
    [float()] reads only numbers, the two return the same dictionary and
    print the same. *)
Lemma loader_on_numbers (parse_float : string -> option Q)
    (dict_reader : list string -> list App.row)
    (read_file : string -> option (Eff.exn + list string))
    (filename : string) (w : Eff.world) :
  Gaps.load_strike_intervals_from_file
    (fun s => option_map Gaps.Finite (parse_float s)) dict_reader read_file
    filename w
  = match App.load_strike_intervals_from_file parse_float dict_reader
            read_file filename w with
    | (Eff.Ret m, w') => (Eff.Ret (Gaps.Finite <$> m), w')
    | (Eff.Raise e, w') => (Eff.Raise e, w')
    end.
Proof.
  assert (Hrow : forall r (m : gmap string Q),
            Gaps.load_row (fun s => option_map Gaps.Finite (parse_float s)) r
              (Gaps.Finite <$> m)
            = match App.load_row parse_float r m with
              | inl e => inl e
              | inr m' => inr (Gaps.Finite <$> m')
              end).
  { intros r m. unfold Gaps.load_row, App.load_row, and_then, Gaps.to_float,
      App.to_float.
    destruct (App.field r "Symbol") as [e|s]; [reflexivity|].
    destruct (App.float_argument_field r "Gap") as [e|g]; [reflexivity|].
    destruct (parse_float g) as [v|]; [|reflexivity]. cbn [option_map].
    cbv zeta. rewrite lookup_fmap.
    destruct (m !! App.strip s) as [old|]; cbn [fmap option_fmap option_map].
    - cbn [Gaps.ltb]. destruct (Py.ltb v old); [|reflexivity].
      now rewrite fmap_insert.
    - now rewrite fmap_insert. }
  assert (Hrows : forall rows (m : gmap string Q),
            Gaps.load_rows (fun s => option_map Gaps.Finite (parse_float s))
              rows (Gaps.Finite <$> m)
            = match App.load_rows parse_float rows m with
              | inl e => inl e
              | inr m' => inr (Gaps.Finite <$> m')
              end).
  { induction rows as [|r rows IH]; intro m; [reflexivity|].
    cbn [Gaps.load_rows App.load_rows]. unfold and_then at 1. rewrite Hrow.
    destruct (App.load_row parse_float r m) as [e|m']; [reflexivity|].
    apply IH. }
  unfold Gaps.load_strike_intervals_from_file,
    App.load_strike_intervals_from_file.
  destruct (read_file filename) as [[e|lines]|].
  - reflexivity.
  - unfold Eff.try_except, Eff.bind. cbn [Eff.lift Eff.ret].
    specialize (Hrows (dict_reader (App.reader_lines lines)) ∅).
    rewrite fmap_empty in Hrows. rewrite Hrows.
    destruct (App.load_rows parse_float _ ∅) as [e|m]; [reflexivity|].
    cbn [Eff.lift Eff.ret]. unfold Eff.print, Eff.ret.
    now rewrite map_size_fmap.
  - reflexivity.
Qed.

(** ** Errors *)

Section Errors.

Import Eff.

Variable parse_float : string -> option Q.
Variable parse_int : string -> option Z.
Variable dict_reader : list string -> list App.row.
Variable read_file : string -> option (exn + list string).
Variable auth_server : nat -> exn + string.
Variable quote_server : string -> nat -> exn + Json.t.
Variable now : Date.date.

Local Abbreviation get_ltp := (App.get_ltp parse_float auth_server quote_server).
Local Abbreviation process_symbol_with := (App.process_symbol_with now).
Local Abbreviation process_all_with := (App.process_all_with now).
Local Abbreviation read_symbols_from_csv :=
  (App.read_symbols_from_csv parse_int dict_reader read_file).

(** The quote of [symbol] as the [n]-th exchange, and its reading. *)
Local Abbreviation quoted symbol n :=
  (response <- quote_server symbol n ;; App.quote_ltp parse_float response)%exn.







End Errors.

